(** * The to-do API of [lib/todo-app-stack.ts]

  The stack declares an API Gateway REST API whose five methods are wired
  straight to DynamoDB actions.  Everything the repository contributes is
  declarative: a request model, a body validator, and, per method, a
  request mapping template, two integration responses chosen by a
  selection pattern, and their response templates.

  The development embeds that configuration as data (module
  [TodoAppStack]) and gives it meaning with small executable models of the
  notations it is written in and of the two services it configures: JSON
  text, the mapping-template language, the selection patterns, the request
  models, the table and the gateway. *)

From stdpp Require Import gmap strings list.
From Stdlib Require Import ZArith Ascii String DecimalString.
From Stdlib Require Import DecimalNat.

Open Scope string_scope.

#[local] Set Warnings "-register-all".

(** ** JSON values and JSON text *)

Module Json.

Inductive json :=
| JNull
| JBool (b : bool)
| JNum (n : Z)
| JStr (s : string)
| JArr (items : list json)
| JObj (fields : list (string * json)).

(** The double quote, written by its code because it delimits Rocq string
    literals. *)
Definition dq : ascii := "034"%char.
Definition bs : ascii := "\"%char.

(** Member lookup in a list of members; the first occurrence of a name
    wins.  A list read as a map ([normal] below) has each name once. *)
Fixpoint assoc (k : string) (fields : list (string * json)) : option json :=
  match fields with
  | [] => None
  | (k', v) :: rest => if String.eqb k k' then Some v else assoc k rest
  end.

Definition field (k : string) (j : json) : option json :=
  match j with
  | JObj fields => assoc k fields
  | _ => None
  end.

(** [path [a; b] j] is JSONPath [$.a.b]. *)
Fixpoint path (p : list string) (j : json) : option json :=
  match p with
  | [] => Some j
  | k :: rest => match field k j with
                 | Some v => path rest v
                 | None => None
                 end
  end.

(** An object read as a map.  [put] sets a member: the value replaces that
    of a member of the same name, which keeps its place, and a new name is
    added at the end.  [normal] reads a value that way all the way down, so
    that of the members of an object with the same name the last counts. *)
Fixpoint put (k : string) (v : json) (fields : list (string * json))
  : list (string * json) :=
  match fields with
  | [] => [(k, v)]
  | (k', v') :: rest =>
      if String.eqb k k' then (k', v) :: rest else (k', v') :: put k v rest
  end.

Fixpoint normal (j : json) : json :=
  match j with
  | JArr items => JArr (map normal items)
  | JObj fields =>
      JObj (fold_left (fun read kv => put (fst kv) (normal (snd kv)) read) fields [])
  | _ => j
  end.

(** *** Lexer: one pass over the text, one mode per lexical state.

    The JSON read here is the JSON the stack writes and a little more:
    objects, arrays, strings with the one-character escapes, integers and
    the words [true], [false] and [null]. *)

Inductive token :=
| TLBrace | TRBrace | TLBracket | TRBracket | TColon | TComma
| TStr (s : string)
| TNum (n : Z)
| TWord (w : string).

Inductive mode :=
| Outside
| InString (acc : string)
| InEscape (acc : string)
| InNumber (neg : bool) (digits : option N)
| InWord (acc : string).

Definition snoc (s : string) (c : ascii) : string := s ++ String c EmptyString.

Definition is_ws (c : ascii) : bool :=
  Ascii.eqb c " " || Ascii.eqb c "009" || Ascii.eqb c "010" || Ascii.eqb c "013".

Definition is_control (c : ascii) : bool := (nat_of_ascii c <? 32)%nat.

Definition digit (c : ascii) : option N :=
  let n := N_of_ascii c in
  if (48 <=? n)%N && (n <=? 57)%N then Some (n - 48)%N else None.

Definition is_letter (c : ascii) : bool :=
  let n := nat_of_ascii c in ((97 <=? n) && (n <=? 122))%nat.

(** The character after a backslash.  Only the one-character escapes are
    decoded; [\u] escapes are outside the model and end the lexing. *)
Definition unescape (c : ascii) : option ascii :=
  if Ascii.eqb c dq then Some dq
  else if Ascii.eqb c bs then Some bs
  else if Ascii.eqb c "/" then Some "/"%char
  else if Ascii.eqb c "b" then Some "008"%char
  else if Ascii.eqb c "f" then Some "012"%char
  else if Ascii.eqb c "n" then Some "010"%char
  else if Ascii.eqb c "r" then Some "013"%char
  else if Ascii.eqb c "t" then Some "009"%char
  else None.

(** What a character does when no token is open. *)
Definition start (c : ascii) : option (list token * mode) :=
  if is_ws c then Some ([], Outside)
  else if Ascii.eqb c "{" then Some ([TLBrace], Outside)
  else if Ascii.eqb c "}" then Some ([TRBrace], Outside)
  else if Ascii.eqb c "[" then Some ([TLBracket], Outside)
  else if Ascii.eqb c "]" then Some ([TRBracket], Outside)
  else if Ascii.eqb c ":" then Some ([TColon], Outside)
  else if Ascii.eqb c "," then Some ([TComma], Outside)
  else if Ascii.eqb c dq then Some ([], InString EmptyString)
  else if Ascii.eqb c "-" then Some ([], InNumber true None)
  else if is_letter c then Some ([], InWord (String c EmptyString))
  else match digit c with
       | Some d => Some ([], InNumber false (Some d))
       | None => None
       end.

Definition number_token (neg : bool) (digits : option N) : option token :=
  match digits with
  | Some n => Some (TNum (if neg then - Z.of_N n else Z.of_N n))
  | None => None
  end.

(** Tokens owed when the text ends in mode [m]. *)
Definition flush (m : mode) : option (list token) :=
  match m with
  | Outside => Some []
  | InNumber neg digits => tok ← number_token neg digits; Some [tok]
  | InWord acc => Some [TWord acc]
  | InString _ | InEscape _ => None
  end.

(** One character: the tokens it completes and the mode it leaves. *)
Definition step (m : mode) (c : ascii) : option (list token * mode) :=
  match m with
  | Outside => start c
  | InString acc =>
      if Ascii.eqb c dq then Some ([TStr acc], Outside)
      else if Ascii.eqb c bs then Some ([], InEscape acc)
      else if is_control c then None
      else Some ([], InString (snoc acc c))
  | InEscape acc =>
      c' ← unescape c; Some ([], InString (snoc acc c'))
  | InNumber neg digits =>
      match digit c with
      | Some d => Some ([], InNumber neg (Some (10 * default 0%N digits + d)%N))
      | None =>
          tok ← number_token neg digits;
          '(ts, m') ← start c; Some (tok :: ts, m')
      end
  | InWord acc =>
      if is_letter c then Some ([], InWord (snoc acc c))
      else '(ts, m') ← start c; Some (TWord acc :: ts, m')
  end.

Fixpoint scan (m : mode) (s : string) : option (list token * mode) :=
  match s with
  | EmptyString => Some ([], m)
  | String c rest =>
      '(ts, m') ← step m c;
      '(more, m'') ← scan m' rest;
      Some ((ts ++ more)%list, m'')
  end.

Definition lex (s : string) : option (list token) :=
  '(ts, m) ← scan Outside s;
  last ← flush m;
  Some (ts ++ last)%list.

(** *** Parser: recursive descent over the tokens.

    The recursion is on a fuel.  [parse] gives one more than the number of
    tokens, which is enough for every text that parses with any fuel at
    all (lemma [parse_enough]). *)

Definition word_value (w : string) : option json :=
  if String.eqb w "true" then Some (JBool true)
  else if String.eqb w "false" then Some (JBool false)
  else if String.eqb w "null" then Some JNull
  else None.

Fixpoint parse_value (fuel : nat) (ts : list token) : option (json * list token) :=
  match fuel with
  | O => None
  | S fuel' =>
      match ts with
      | TStr s :: rest => Some (JStr s, rest)
      | TNum n :: rest => Some (JNum n, rest)
      | TWord w :: rest => v ← word_value w; Some (v, rest)
      | TLBrace :: TRBrace :: rest => Some (JObj [], rest)
      | TLBrace :: rest =>
          '(fields, rest') ← parse_members fuel' rest; Some (JObj fields, rest')
      | TLBracket :: TRBracket :: rest => Some (JArr [], rest)
      | TLBracket :: rest =>
          '(items, rest') ← parse_elements fuel' rest; Some (JArr items, rest')
      | _ => None
      end
  end
with parse_members (fuel : nat) (ts : list token)
       : option (list (string * json) * list token) :=
  match fuel with
  | O => None
  | S fuel' =>
      match ts with
      | TStr k :: TColon :: rest =>
          '(v, rest') ← parse_value fuel' rest;
          match rest' with
          | TRBrace :: rest'' => Some ([(k, v)], rest'')
          | TComma :: rest'' =>
              '(more, rest''') ← parse_members fuel' rest''; Some ((k, v) :: more, rest''')
          | _ => None
          end
      | _ => None
      end
  end
with parse_elements (fuel : nat) (ts : list token)
       : option (list json * list token) :=
  match fuel with
  | O => None
  | S fuel' =>
      '(v, rest) ← parse_value fuel' ts;
      match rest with
      | TRBracket :: rest' => Some ([v], rest')
      | TComma :: rest' =>
          '(more, rest'') ← parse_elements fuel' rest'; Some (v :: more, rest'')
      | _ => None
      end
  end.

Definition parse (text : string) : option json :=
  ts ← lex text;
  match parse_value (S (List.length ts)) ts with
  | Some (v, []) => Some v
  | _ => None
  end.

(** A string that stands for itself between two double quotes: no quote,
    no backslash, no control character. *)
Definition plain_char (c : ascii) : bool :=
  negb (Ascii.eqb c dq) && negb (Ascii.eqb c bs) && negb (is_control c).

Fixpoint plain (s : string) : bool :=
  match s with
  | EmptyString => true
  | String c rest => plain_char c && plain rest
  end.

End Json.

Import Json.

(** ** Mapping templates

  The fragment of the Velocity template language that the stack's
  request and response templates are written in. *)

Module Vtl.

Inductive expr :=
| InputPath (p : list string)           (* $input.path('$.a.b') *)
| InputParams (name : string)           (* $input.params('name') *)
| Ref (var : string) (p : list string)  (* $var.a.b *)
| Lit (s : string).                     (* a quoted string *)

Inductive cond :=
| Eq (a b : expr)                       (* a == b *)
| ForeachHasNext.                       (* $foreach.hasNext *)

Inductive stmt :=
| Text (s : string)
| Emit (e : expr)
| SetVar (var : string) (e : expr)      (* #set($var = e) *)
| SetStatus (status : nat)              (* #set($context.responseOverride.status = n) *)
| If (c : cond) (yes no : list stmt)    (* #if(c) yes #else no #end *)
| Foreach (var : string) (e : expr) (body : list stmt).

Record context := {
  input : json;                         (* the body $input reads *)
  params : list (string * string);      (* request parameters *)
  vars : list (string * json);
  hasNext : bool;
  responseOverride : option nat
}.

Definition initial (input : json) (params : list (string * string)) : context :=
  {| input := input; params := params; vars := [];
     hasNext := false; responseOverride := None |}.

Fixpoint lookup_param (name : string) (ps : list (string * string)) : option string :=
  match ps with
  | [] => None
  | (n, v) :: rest => if String.eqb name n then Some v else lookup_param name rest
  end.

(** The value of an expression, [None] when a reference is undefined.  A
    path or parameter that [$input] does not find reads as the empty
    string, which is what the single-item response template compares
    against. *)
Definition eval (c : context) (e : expr) : option json :=
  match e with
  | InputPath p => Some (default (JStr EmptyString) (Json.path p (input c)))
  | InputParams name => Some (JStr (default EmptyString (lookup_param name (params c))))
  | Ref var p => v ← Json.assoc var (vars c); Json.path p v
  | Lit s => Some (JStr s)
  end.

Definition decimal (n : Z) : string := NilZero.string_of_int (Z.to_int n).

Definition join (sep : string) (parts : list string) : string :=
  match parts with
  | [] => EmptyString
  | p :: rest => fold_left (fun acc q => acc ++ sep ++ q) rest p
  end.

(** How a value prints.  A string prints as its characters, with no
    quoting and no escaping; containers print the way the template
    engine shows maps and lists. *)
Fixpoint show (j : json) : string :=
  match j with
  | JNull => "null"
  | JBool b => if b then "true" else "false"
  | JNum n => decimal n
  | JStr s => s
  | JArr items => "[" ++ join ", " (map show items) ++ "]"
  | JObj fields =>
      "{" ++ join ", " (map (fun kv => fst kv ++ "=" ++ show (snd kv)) fields) ++ "}"
  end.

(** An undefined reference prints as it is written in the template. *)
Definition source (e : expr) : string :=
  match e with
  | Ref var p => "$" ++ join "." (var :: p)
  | _ => EmptyString
  end.

Definition print (c : context) (e : expr) : string :=
  match eval c e with
  | Some v => show v
  | None => source e
  end.

Definition json_eqb (a b : json) : bool :=
  match a, b with
  | JStr x, JStr y => String.eqb x y
  | JNum x, JNum y => Z.eqb x y
  | JBool x, JBool y => Bool.eqb x y
  | JNull, JNull => true
  | _, _ => false
  end.

Definition satisfied (c : context) (t : cond) : bool :=
  match t with
  | Eq a b =>
      match eval c a, eval c b with
      | Some x, Some y => json_eqb x y
      | None, None => true
      | _, _ => false
      end
  | ForeachHasNext => hasNext c
  end.

Definition bind (var : string) (v : json) (c : context) : context :=
  {| input := input c; params := params c; vars := (var, v) :: vars c;
     hasNext := hasNext c; responseOverride := responseOverride c |}.

Definition with_hasNext (b : bool) (c : context) : context :=
  {| input := input c; params := params c; vars := vars c;
     hasNext := b; responseOverride := responseOverride c |}.

Definition override (status : nat) (c : context) : context :=
  {| input := input c; params := params c; vars := vars c;
     hasNext := hasNext c; responseOverride := Some status |}.

(** Statements run in order, threading the context and appending output. *)
Definition sequence (run1 : stmt -> context -> string * context)
  : list stmt -> context -> string * context :=
  fix go (ss : list stmt) (c : context) : string * context :=
    match ss with
    | [] => (EmptyString, c)
    | s :: rest =>
        let '(out1, c1) := run1 s c in
        let '(out2, c2) := go rest c1 in
        (out1 ++ out2, c2)
    end.

(** One round of [body] per element, [$foreach.hasNext] set on all but
    the last. *)
Definition iterate (body : context -> string * context) (var : string)
  : list json -> context -> string * context :=
  fix go (items : list json) (c : context) : string * context :=
    match items with
    | [] => (EmptyString, c)
    | item :: rest =>
        let more := match rest with [] => false | _ => true end in
        let '(out1, c1) := body (with_hasNext more (bind var item c)) in
        let '(out2, c2) := go rest c1 in
        (out1 ++ out2, c2)
    end.

Fixpoint run1 (s : stmt) (c : context) : string * context :=
  match s with
  | Text t => (t, c)
  | Emit e => (print c e, c)
  | SetVar var e =>
      match eval c e with
      | Some v => (EmptyString, bind var v c)
      | None => (EmptyString, c)
      end
  | SetStatus status => (EmptyString, override status c)
  | If t yes no =>
      if satisfied c t then sequence run1 yes c else sequence run1 no c
  | Foreach var e body =>
      match eval c e with
      | Some (JArr items) => iterate (sequence run1 body) var items c
      | _ => (EmptyString, c)
      end
  end.

Definition run : list stmt -> context -> string * context := sequence run1.

(** Template text is written with an apostrophe wherever the source has
    a double quote. *)
Fixpoint q (s : string) : string :=
  match s with
  | EmptyString => EmptyString
  | String c rest => String (if Ascii.eqb c "'" then dq else c) (q rest)
  end.

End Vtl.

(** ** Selection patterns

  The regular expressions of the integration responses: literal
  characters, [\d], and a repetition count [{n}] after either. *)

Module Pattern.

Inductive piece :=
| Char (c : ascii)
| Digit
| Times (n : nat).

Fixpoint pieces (s : string) : option (list piece) :=
  match s with
  | EmptyString => Some []
  | String "\" (String "d" rest) => ps ← pieces rest; Some (Digit :: ps)
  | String "{" (String n (String "}" rest)) =>
      d ← Json.digit n; ps ← pieces rest; Some (Times (N.to_nat d) :: ps)
  | String c rest => ps ← pieces rest; Some (Char c :: ps)
  end.

(** Repetitions unfolded: one entry per character to match. *)
Fixpoint unfold (ps : list piece) : option (list piece) :=
  match ps with
  | [] => Some []
  | Times _ :: _ => None
  | p :: Times n :: rest => more ← unfold rest; Some (replicate n p ++ more)%list
  | p :: rest => more ← unfold rest; Some (p :: more)
  end.

Definition accepts (p : piece) (c : ascii) : bool :=
  match p with
  | Char c' => Ascii.eqb c c'
  | Digit => match Json.digit c with Some _ => true | None => false end
  | Times _ => false
  end.

Fixpoint matches_all (ps : list piece) (s : string) : bool :=
  match ps, s with
  | [], EmptyString => true
  | p :: ps', String c s' => accepts p c && matches_all ps' s'
  | _, _ => false
  end.

(** A pattern selects a status when it matches the whole of it. *)
Definition matches (pattern : string) (s : string) : bool :=
  match ps ← pieces pattern; unfold ps with
  | Some ps => matches_all ps s
  | None => false
  end.

Definition status_text (status : nat) : string :=
  NilZero.string_of_uint (Nat.to_uint status).

End Pattern.

(** ** Request models

  The part of JSON Schema the model of the stack uses: a type, typed
  properties, required members. *)

Module Schema.

Inductive JsonSchemaType := STRING | OBJECT | NUMBER | INTEGER | BOOLEAN | ARRAY | NULL.

Record JsonSchema := {
  type : JsonSchemaType;
  properties : list (string * JsonSchemaType);
  required : list string
}.

Definition has_type (t : JsonSchemaType) (j : json) : bool :=
  match t, j with
  | STRING, JStr _ | OBJECT, JObj _ | NUMBER, JNum _ | INTEGER, JNum _
  | BOOLEAN, JBool _ | ARRAY, JArr _ | NULL, JNull => true
  | _, _ => false
  end.

Definition present (j : json) (name : string) : bool :=
  match Json.field name j with Some _ => true | None => false end.

Definition property_ok (j : json) (p : string * JsonSchemaType) : bool :=
  match Json.field (fst p) j with
  | Some v => has_type (snd p) v
  | None => true
  end.

(** A body conforms when it has the schema's type, carries every required
    member, and every declared property it carries has the declared type.
    Members the schema does not mention are not looked at. *)
Definition validate (s : JsonSchema) (j : json) : bool :=
  has_type (type s) j
  && forallb (present j) (required s)
  && forallb (property_ok j) (properties s).

End Schema.

(** ** The table

  Modelled from the spec: the storage engine is an external collaborator
  of the stack, which only names its actions and writes their payloads.
  The four primitives follow the store interface of the specification
  (scan with a limit, conditional put, get by key, conditional delete,
  each answering with a success payload or a classified failure); the
  condition is evaluated against the item stored under the same key, and
  check and mutation are one step. *)

Module DynamoDB.

Inductive AttributeType := STRING | NUMBER | BINARY.

Record TableProps := {
  tableName : string;
  partitionKey : string * AttributeType
}.

Definition type_tag (t : AttributeType) : string :=
  match t with STRING => "S" | NUMBER => "N" | BINARY => "B" end.

Inductive condition :=
| AttributeExists (name : string)
| AttributeNotExists (name : string).

Inductive request :=
| Scan (limit : option nat)
| PutItem (item : json) (c : option condition)
| GetItem (key : json)
| DeleteItem (key : json) (c : option condition).

Inductive failure :=
| SerializationException            (* the payload is not JSON *)
| ValidationException               (* a member is missing or ill-typed *)
| ResourceNotFoundException         (* no such table *)
| UnknownOperationException
| ConditionalCheckFailedException
| Fault (status : nat).             (* throttling, internal fault, ... *)

Inductive reply :=
| Success (payload : json)
| Failure (f : failure).

(** The HTTP status of the underlying call. *)
Definition status (r : reply) : nat :=
  match r with
  | Success _ => 200
  | Failure (Fault st) => st
  | Failure _ => 400
  end.

Definition failure_name (f : failure) : string :=
  match f with
  | SerializationException => "SerializationException"
  | ValidationException => "ValidationException"
  | ResourceNotFoundException => "ResourceNotFoundException"
  | UnknownOperationException => "UnknownOperationException"
  | ConditionalCheckFailedException => "ConditionalCheckFailedException"
  | Fault _ => "ServiceFault"
  end.

Definition payload (r : reply) : json :=
  match r with
  | Success p => p
  | Failure f => JObj [("__type", JStr (failure_name f))]
  end.

(** *** Condition expressions *)

Fixpoint strip_prefix (p s : string) : option string :=
  match p, s with
  | EmptyString, _ => Some s
  | String a p', String b s' => if Ascii.eqb a b then strip_prefix p' s' else None
  | _, _ => None
  end.

(** The text before a closing parenthesis that ends the string. *)
Fixpoint argument (s : string) : option string :=
  match s with
  | EmptyString => None
  | String ")" EmptyString => Some EmptyString
  | String c rest => name ← argument rest; Some (String c name)
  end.

Definition parse_condition (e : string) : option condition :=
  match strip_prefix "attribute_not_exists(" e with
  | Some rest => name ← argument rest; Some (AttributeNotExists name)
  | None =>
      rest ← strip_prefix "attribute_exists(" e;
      name ← argument rest; Some (AttributeExists name)
  end.

Definition has_attribute (name : string) (existing : option json) : bool :=
  match existing with
  | Some item => match Json.field name item with Some _ => true | None => false end
  | None => false
  end.

Definition holds (c : option condition) (existing : option json) : bool :=
  match c with
  | None => true
  | Some (AttributeExists name) => has_attribute name existing
  | Some (AttributeNotExists name) => negb (has_attribute name existing)
  end.

(** *** Decoding a payload *)

Definition decode_condition (j : json) : failure + option condition :=
  match Json.field "ConditionExpression" j with
  | None => inr None
  | Some (JStr e) =>
      match parse_condition e with
      | Some c => inr (Some c)
      | None => inl ValidationException
      end
  | Some _ => inl SerializationException
  end.

Definition decode_limit (j : json) : failure + option nat :=
  match Json.field "Limit" j with
  | None => inr None
  | Some (JNum n) => if (1 <=? n)%Z then inr (Some (Z.to_nat n)) else inl ValidationException
  | Some _ => inl SerializationException
  end.

Definition decode_action (action : string) (j : json) : failure + request :=
  if String.eqb action "Scan" then
    match decode_limit j with
    | inl f => inl f
    | inr limit => inr (Scan limit)
    end
  else if String.eqb action "PutItem" then
    match Json.field "Item" j, decode_condition j with
    | Some (JObj fields), inr c => inr (PutItem (JObj fields) c)
    | Some (JObj _), inl f => inl f
    | Some _, _ => inl SerializationException
    | None, _ => inl ValidationException
    end
  else if String.eqb action "GetItem" then
    match Json.field "Key" j with
    | Some (JObj fields) => inr (GetItem (JObj fields))
    | Some _ => inl SerializationException
    | None => inl ValidationException
    end
  else if String.eqb action "DeleteItem" then
    match Json.field "Key" j, decode_condition j with
    | Some (JObj fields), inr c => inr (DeleteItem (JObj fields) c)
    | Some (JObj _), inl f => inl f
    | Some _, _ => inl SerializationException
    | None, _ => inl ValidationException
    end
  else inl UnknownOperationException.

(** The store reads the payload as maps: when the text repeats the name of
    a member, the last of the members counts. *)
Definition decode (props : TableProps) (action : string) (text : string)
  : failure + request :=
  match Json.parse text with
  | None => inl SerializationException
  | Some j =>
      match Json.field "TableName" (Json.normal j) with
      | Some (JStr name) =>
          if String.eqb name (tableName props) then decode_action action (Json.normal j)
          else inl ResourceNotFoundException
      | Some _ => inl SerializationException
      | None => inl ValidationException
      end
  end.

(** *** Running a request *)

(** The value of the partition key in an item or a key: a non-empty
    attribute of the declared type. *)
Definition key_of (props : TableProps) (item : json) : option string :=
  let '(name, t) := partitionKey props in
  match Json.path [name; type_tag t] item with
  | Some (JStr k) => if String.eqb k EmptyString then None else Some k
  | _ => None
  end.

Definition page (limit : option nat) (entries : list (string * json))
  : list (string * json) :=
  match limit with
  | Some n => take n entries
  | None => entries
  end.

(** A scan that stops at its limit also returns the key of the last item
    it read, for the caller to continue from. *)
Definition continuation (props : TableProps) (limit : option nat)
  (shown : list (string * json)) : list (string * json) :=
  match limit, last shown with
  | Some n, Some (k, _) =>
      if (n <=? List.length shown)%nat then
        [("LastEvaluatedKey",
          JObj [(fst (partitionKey props),
                 JObj [(type_tag (snd (partitionKey props)), JStr k)])])]
      else []
  | _, _ => []
  end.

(** Modelled from the spec: the storage engine is not part of the
    repository.  [run] is the store interface of the specification: a scan
    returns the items up to the limit, a get returns the item or nothing,
    a put and a delete are applied only if their condition holds of the
    item stored under the key, and answer with a conditional-check failure
    otherwise. *)
Definition run (props : TableProps) (r : request) (t : gmap string json)
  : gmap string json * reply :=
  match r with
  | Scan limit =>
      let shown := page limit (map_to_list t) in
      (t, Success (JObj ([("Items", JArr (snd <$> shown));
                          ("Count", JNum (Z.of_nat (List.length shown)))]
                         ++ continuation props limit shown)%list))
  | PutItem item c =>
      match key_of props item with
      | None => (t, Failure ValidationException)
      | Some k =>
          if holds c (t !! k) then (<[k := item]> t, Success (JObj []))
          else (t, Failure ConditionalCheckFailedException)
      end
  | GetItem key =>
      match key_of props key with
      | None => (t, Failure ValidationException)
      | Some k =>
          match t !! k with
          | Some item => (t, Success (JObj [("Item", item)]))
          | None => (t, Success (JObj []))
          end
      end
  | DeleteItem key c =>
      match key_of props key with
      | None => (t, Failure ValidationException)
      | Some k =>
          if holds c (t !! k) then (delete k t, Success (JObj []))
          else (t, Failure ConditionalCheckFailedException)
      end
  end.

(** One call of [action] with the payload [text].  [fault] is a failure
    of the service itself: the call then reports that status and the
    table is not touched. *)
Definition call (props : TableProps) (fault : option nat) (action text : string)
  (t : gmap string json) : gmap string json * reply :=
  match fault with
  | Some st => (t, Failure (Fault st))
  | None =>
      match decode props action text with
      | inl f => (t, Failure f)
      | inr r => run props r t
      end
  end.

End DynamoDB.

(** ** The gateway

  Modelled from the spec: the gateway that runs the stack's methods is an
  external collaborator too.  A request is validated against the method's
  model when the method has a body validator, its payload is produced by
  the request template and sent to the table in one call, and the status
  of that call is classified by the selection patterns of the integration
  responses; a status that no pattern matches is left unhandled. *)

Module ApiGateway.

Inductive HttpMethod := GET | PUT | POST | DELETE.

Record RequestValidator := {
  requestValidatorName : string;
  validateRequestBody : bool;
  validateRequestParameters : bool
}.

Record Model := {
  modelName : string;
  schema : Schema.JsonSchema
}.

Record IntegrationResponse := {
  statusCode : nat;
  selectionPattern : string;
  responseTemplates : list Vtl.stmt
}.

Record AwsIntegration := {
  service : string;
  action : string;
  requestTemplates : list Vtl.stmt;
  integrationResponses : list IntegrationResponse
}.

Record Method := {
  integration : AwsIntegration;
  methodResponses : list nat;
  requestValidator : option RequestValidator;
  requestModels : option Model
}.

(** How a request ends: answered through an integration response,
    refused by the validator before anything is sent to the table, left
    without an integration response because no selection pattern matches
    the status of the call, or not routed at all. *)
Inductive outcome :=
| Responded (status : nat) (body : string)
| Rejected (status : nat) (body : string)
| Unhandled (status : nat)
| NoRoute.

Record result := {
  table : gmap string json;
  answer : outcome;
  calls : list (string * string)     (* action and payload of each call made *)
}.

Definition invalid_request_body : string := Vtl.q "{'message': 'Invalid request body'}".

Definition rejects (m : Method) (body : json) : bool :=
  match requestValidator m, requestModels m with
  | Some v, Some model =>
      validateRequestBody v && negb (Schema.validate (schema model) body)
  | _, _ => false
  end.

Definition select (rs : list IntegrationResponse) (status : nat)
  : option IntegrationResponse :=
  List.find (fun r => Pattern.matches (selectionPattern r) (Pattern.status_text status)) rs.

(** Modelled from the spec: the runtime of the gateway is not part of the
    repository.  The outcome of the call is classified by matching its
    status against the selection patterns; the response template of the
    first match gives the body and may override the status; an outcome
    that matches no pattern is unhandled. *)
Definition respond (rs : list IntegrationResponse) (params : list (string * string))
  (reply : DynamoDB.reply) : outcome :=
  match select rs (DynamoDB.status reply) with
  | None => Unhandled (DynamoDB.status reply)
  | Some r =>
      let '(text, c) :=
        Vtl.run (responseTemplates r) (Vtl.initial (DynamoDB.payload reply) params) in
      Responded (default (statusCode r) (Vtl.responseOverride c)) text
  end.

(** The call to the table with the payload [text], and its classification. *)
Definition dispatch (props : DynamoDB.TableProps) (m : Method) (fault : option nat)
  (params : list (string * string)) (text : string) (t : gmap string json) : result :=
  let '(t', reply) := DynamoDB.call props fault (action (integration m)) text t in
  {| table := t';
     answer := respond (integrationResponses (integration m)) params reply;
     calls := [(action (integration m), text)] |}.

(** Modelled from the spec: received, validated, dispatched, classified,
    responded.  One call to the table per request, none when the validator
    refuses the body. *)
Definition invoke (props : DynamoDB.TableProps) (m : Method) (fault : option nat)
  (params : list (string * string)) (body : json) (t : gmap string json) : result :=
  if rejects m body then
    {| table := t; answer := Rejected 400 invalid_request_body; calls := [] |}
  else
    dispatch props m fault params
      (fst (Vtl.run (requestTemplates (integration m)) (Vtl.initial body params))) t.

End ApiGateway.

(** ** The stack: [TodoAppStack]

  The declarations of the constructor, under the names they have there.
  Template text is transcribed without its layout: the line breaks and
  indentation of the source, which JSON ignores, are reduced to single
  spaces inside a JSON text and dropped around directives.  What does not
  bear on a JSON request is left out: the role, the endpoint type, and
  the pass-through behaviour for bodies of another content type. *)

Module TodoAppStack.

Import Vtl ApiGateway.

Definition requestBodyValidator : RequestValidator :=
  {| requestValidatorName := "Body Validatory";
     validateRequestBody := true;
     validateRequestParameters := false |}.

Definition todoModel : Model :=
  {| modelName := "Todo";
     schema :=
       {| Schema.type := Schema.OBJECT;
          Schema.properties :=
            [("id", Schema.STRING); ("title", Schema.STRING); ("description", Schema.STRING)];
          Schema.required := ["id"; "title"; "description"] |} |}.

Definition tableName : string := "todos".

Definition dynamodb : DynamoDB.TableProps :=
  {| DynamoDB.tableName := tableName;
     DynamoDB.partitionKey := ("id", DynamoDB.STRING) |}.

Definition defaultMethodResponses : list nat := [200; 400].

(** The three members every response template prints for [$todo]. *)
Definition todoObject : list stmt :=
  [ Text (q "{ 'id': '"); Emit (Ref "todo" ["id"; "S"]);
    Text (q "', 'title': '"); Emit (Ref "todo" ["title"; "S"]);
    Text (q "', 'description': '"); Emit (Ref "todo" ["description"; "S"]);
    Text (q "' }") ].

(** One round of the loop over the scanned items. *)
Definition todoRow : list stmt :=
  (todoObject ++ [ If ForeachHasNext [Text ","] []; Text " " ])%list.

Definition getAllTodos : Method :=
  {| integration :=
       {| service := "dynamodb";
          action := "Scan";
          requestTemplates :=
            [ Text (q "{ 'TableName': '" ++ tableName ++ q "', 'Limit': 10 }") ];
          integrationResponses :=
            [ {| statusCode := 200;
                 selectionPattern := "2\d{2}";
                 responseTemplates :=
                   [ SetVar "inputRoot" (InputPath []);
                     Text "[ ";
                     Foreach "todo" (Ref "inputRoot" ["Items"])
                       (todoObject ++ [ If ForeachHasNext [Text ","] []; Text " " ])%list;
                     Text "]" ] |};
              {| statusCode := 400;
                 selectionPattern := "4\d{2}";
                 responseTemplates :=
                   [ Text (q "{ 'error': 'There was an error loading the To-Do objects.' }") ] |} ] |};
     methodResponses := defaultMethodResponses;
     requestValidator := None;
     requestModels := None |}.

Definition createTodo : Method :=
  {| integration :=
       {| service := "dynamodb";
          action := "PutItem";
          requestTemplates :=
            [ Text (q "{ 'TableName': '" ++ tableName ++ q "', 'Item': { 'id': { 'S': '");
              Emit (InputPath ["id"]);
              Text (q "' }, 'title': { 'S': '");
              Emit (InputPath ["title"]);
              Text (q "' }, 'description': { 'S': '");
              Emit (InputPath ["description"]);
              Text (q "' } }, 'ConditionExpression': 'attribute_not_exists(id)' }") ];
          integrationResponses :=
            [ {| statusCode := 200;
                 selectionPattern := "2\d{2}";
                 responseTemplates :=
                   [ Text (q "{ 'message': 'To-Do object created successfully.' }") ] |};
              {| statusCode := 400;
                 selectionPattern := "4\d{2}";
                 responseTemplates :=
                   [ Text (q "{ 'message': 'There was an error while creating a new To-Do object.' }") ] |} ] |};
     methodResponses := defaultMethodResponses;
     requestValidator := Some requestBodyValidator;
     requestModels := Some todoModel |}.

Definition getSingleTodo : Method :=
  {| integration :=
       {| service := "dynamodb";
          action := "GetItem";
          requestTemplates :=
            [ Text (q "{ 'TableName': '" ++ tableName ++ q "', 'Key': { 'id': { 'S': '");
              Emit (InputParams "todoId");
              Text (q "' } } }") ];
          integrationResponses :=
            [ {| statusCode := 200;
                 selectionPattern := "2\d{2}";
                 responseTemplates :=
                   [ SetVar "todo" (InputPath ["Item"]);
                     If (Eq (Ref "todo" []) (Lit EmptyString))
                       [ SetStatus 400;
                         Text (q "{ 'error': 'There was an error loading the To-Do objects.' }") ]
                       todoObject ] |};
              {| statusCode := 400;
                 selectionPattern := "4\d{2}";
                 responseTemplates :=
                   [ Text (q "{ 'error': 'There was an error loading the To-Do objects.' }") ] |} ] |};
     methodResponses := defaultMethodResponses;
     requestValidator := None;
     requestModels := None |}.

Definition updateSingleTodo : Method :=
  {| integration :=
       {| service := "dynamodb";
          action := "PutItem";
          requestTemplates :=
            [ Text (q "{ 'TableName': '" ++ tableName ++ q "', 'Item': { 'id': { 'S': '");
              Emit (InputParams "todoId");
              Text (q "' }, 'title': { 'S': '");
              Emit (InputPath ["title"]);
              Text (q "' }, 'description': { 'S': '");
              Emit (InputPath ["description"]);
              Text (q "' } }, 'ConditionExpression': 'attribute_exists(id)' }") ];
          integrationResponses :=
            [ {| statusCode := 200;
                 selectionPattern := "2\d{2}";
                 responseTemplates :=
                   [ Text (q "{ 'message': 'To-Do object updated successfully.' }") ] |};
              {| statusCode := 400;
                 selectionPattern := "4\d{2}";
                 responseTemplates :=
                   [ Text (q "{ 'error': 'There was an error while updating the To-Do object.' }") ] |} ] |};
     methodResponses := defaultMethodResponses;
     requestValidator := Some requestBodyValidator;
     requestModels := Some todoModel |}.

Definition deleteSingleTodo : Method :=
  {| integration :=
       {| service := "dynamodb";
          action := "DeleteItem";
          requestTemplates :=
            [ Text (q "{ 'TableName': '" ++ tableName ++ q "', 'Key': { 'id': { 'S': '");
              Emit (InputParams "todoId");
              Text (q "' } }, 'ConditionExpression': 'attribute_exists(id)' }") ];
          integrationResponses :=
            [ {| statusCode := 200;
                 selectionPattern := "2\d{2}";
                 responseTemplates :=
                   [ Text (q "{ 'message': 'To-Do object deleted successfully.' }") ] |};
              {| statusCode := 400;
                 selectionPattern := "4\d{2}";
                 responseTemplates :=
                   [ Text (q "{ 'error': 'There has been an error while deleting the To-Do object.' }") ] |} ] |};
     methodResponses := defaultMethodResponses;
     requestValidator := None;
     requestModels := None |}.

(** *** Requests against the deployed resources [v1/todo] and
    [v1/todo/{todoId}] *)

(** A request: its method, the segments of its path with the values the
    gateway hands to [$input.params], and its JSON body ([JNull] when it
    has none). *)
Record Request := {
  httpMethod : HttpMethod;
  resource : list string;
  body : json
}.

Definition route (r : Request) : option (Method * list (string * string)) :=
  match resource r with
  | [a; b] =>
      if String.eqb a "v1" && String.eqb b "todo" then
        match httpMethod r with
        | GET => Some (getAllTodos, [])
        | PUT => Some (createTodo, [])
        | _ => None
        end
      else None
  | [a; b; todoId] =>
      if String.eqb a "v1" && String.eqb b "todo" && negb (String.eqb todoId EmptyString) then
        match httpMethod r with
        | GET => Some (getSingleTodo, [("todoId", todoId)])
        | PUT => Some (updateSingleTodo, [("todoId", todoId)])
        | DELETE => Some (deleteSingleTodo, [("todoId", todoId)])
        | _ => None
        end
      else None
  | _ => None
  end.

Definition handle (fault : option nat) (t : gmap string json) (r : Request) : result :=
  match route r with
  | Some (m, params) => invoke dynamodb m fault params (body r) t
  | None => {| table := t; answer := NoRoute; calls := [] |}
  end.

(** The five requests of the API. *)
Definition todo (id title description : string) : json :=
  JObj [("id", JStr id); ("title", JStr title); ("description", JStr description)].

Definition list_todos : Request :=
  {| httpMethod := GET; resource := ["v1"; "todo"]; body := JNull |}.
Definition create (b : json) : Request :=
  {| httpMethod := PUT; resource := ["v1"; "todo"]; body := b |}.
Definition get (id : string) : Request :=
  {| httpMethod := GET; resource := ["v1"; "todo"; id]; body := JNull |}.
Definition update (id : string) (b : json) : Request :=
  {| httpMethod := PUT; resource := ["v1"; "todo"; id]; body := b |}.
Definition remove (id : string) : Request :=
  {| httpMethod := DELETE; resource := ["v1"; "todo"; id]; body := JNull |}.

(** *** What goes over the wire

    The texts the templates produce, written out: the payload sent to the
    table for each action, and the bodies sent back to the client. *)

Definition put_text (condition id title description : string) : string :=
  q "{ 'TableName': 'todos', 'Item': { 'id': { 'S': '" ++ id
  ++ q "' }, 'title': { 'S': '" ++ title
  ++ q "' }, 'description': { 'S': '" ++ description
  ++ q "' } }, 'ConditionExpression': '" ++ condition ++ q "' }".

Definition get_text (id : string) : string :=
  q "{ 'TableName': 'todos', 'Key': { 'id': { 'S': '" ++ id ++ q "' } } }".

Definition delete_text (id : string) : string :=
  q "{ 'TableName': 'todos', 'Key': { 'id': { 'S': '" ++ id
  ++ q "' } }, 'ConditionExpression': 'attribute_exists(id)' }".

Definition scan_text : string := q "{ 'TableName': 'todos', 'Limit': 10 }".

Definition todo_text (id title description : string) : string :=
  q "{ 'id': '" ++ id ++ q "', 'title': '" ++ title
  ++ q "', 'description': '" ++ description ++ q "' }".

(** What [$todo.name.S] prints when [$todo] is [it]. *)
Definition attr (it : json) (name : string) : string :=
  Vtl.print (Vtl.bind "todo" it (Vtl.initial JNull [])) (Ref "todo" [name; "S"]).

Definition row (more : bool) (it : json) : string :=
  q "{ 'id': '" ++ attr it "id" ++ q "', 'title': '" ++ attr it "title"
  ++ q "', 'description': '" ++ attr it "description" ++ q "' }"
  ++ (if more then "," else EmptyString) ++ " ".

Fixpoint rows (items : list json) : string :=
  match items with
  | [] => EmptyString
  | it :: rest => row (match rest with [] => false | _ => true end) it ++ rows rest
  end.

Definition todos_text (items : list json) : string := "[ " ++ rows items ++ "]".

(** An item whose id, title and description are string attributes that
    stand for themselves between double quotes, and the object the list
    shows for it. *)
Definition string_attr (it : json) (name : string) : option string :=
  match Json.path [name; "S"] it with
  | Some (JStr s) => Some s
  | _ => None
  end.

Definition printable (it : json) : bool :=
  forallb (fun name => match string_attr it name with
                       | Some s => plain s
                       | None => false
                       end) ["id"; "title"; "description"].

Definition shown (it : json) : json :=
  todo (attr it "id") (attr it "title") (attr it "description").

(** The tokens of one round of the loop, and of all rounds. *)
Definition row_tokens (more : bool) (it : json) : list token :=
  ([ TLBrace; TStr "id"; TColon; TStr (attr it "id"); TComma;
     TStr "title"; TColon; TStr (attr it "title"); TComma;
     TStr "description"; TColon; TStr (attr it "description"); TRBrace ]
   ++ if more then [TComma] else [])%list.

Fixpoint rows_tokens (items : list json) : list token :=
  match items with
  | [] => []
  | it :: rest =>
      (row_tokens (match rest with [] => false | _ => true end) it ++ rows_tokens rest)%list
  end.

Definition created : string := q "{ 'message': 'To-Do object created successfully.' }".
Definition updated : string := q "{ 'message': 'To-Do object updated successfully.' }".
Definition deleted : string := q "{ 'message': 'To-Do object deleted successfully.' }".
Definition load_failed : string :=
  q "{ 'error': 'There was an error loading the To-Do objects.' }".
Definition create_failed : string :=
  q "{ 'message': 'There was an error while creating a new To-Do object.' }".
Definition update_failed : string :=
  q "{ 'error': 'There was an error while updating the To-Do object.' }".
Definition delete_failed : string :=
  q "{ 'error': 'There has been an error while deleting the To-Do object.' }".

(** The item a put of [id], [title] and [description] is meant to write,
    and the key a single-item request is meant to address. *)
Definition item (id title description : string) : json :=
  JObj [("id", JObj [("S", JStr id)]);
        ("title", JObj [("S", JStr title)]);
        ("description", JObj [("S", JStr description)])].

Definition key (id : string) : json := JObj [("id", JObj [("S", JStr id)])].

(** A body carries [id], [title] and [description] when these three
    members are strings with those values; it may have other members. *)
Definition carries (b : json) (id title description : string) : Prop :=
  Json.field "id" b = Some (JStr id)
  /\ Json.field "title" b = Some (JStr title)
  /\ Json.field "description" b = Some (JStr description).

(** What [$input.path('$.name')] prints for the body [b]. *)
Definition printed (b : json) (name : string) : string :=
  Vtl.print (Vtl.initial b []) (InputPath [name]).

Definition is_Some_bool {A} (o : option A) : bool :=
  match o with Some _ => true | None => false end.

Definition nonempty (s : string) : bool := negb (String.eqb s EmptyString).

(** The table invariant of [DynamoDB.keyed], as a check. *)
Definition keyed (t : gmap string json) : bool :=
  forallb (fun kv => match DynamoDB.key_of dynamodb (snd kv) with
                     | Some k => String.eqb k (fst kv)
                     | None => false
                     end) (map_to_list t).

(** A status that only the second selection pattern matches, and one that
    neither matches. *)
Definition is_4xx (st : nat) : bool :=
  negb (Pattern.matches "2\d{2}" (Pattern.status_text st))
  && Pattern.matches "4\d{2}" (Pattern.status_text st).

Definition is_unmatched (st : nat) : bool :=
  negb (Pattern.matches "2\d{2}" (Pattern.status_text st))
  && negb (Pattern.matches "4\d{2}" (Pattern.status_text st)).

End TodoAppStack.


Import TodoAppStack ApiGateway.

(** ** Sample values *)

(** A title that closes its own attribute and opens another one. *)
Definition injected : string := Vtl.q "x' }, 'extra': { 'S': 'y".

(** A body with members beyond the three of a to-do. *)
Definition crowded : json :=
  JObj [("done", JBool true); ("id", JStr "2"); ("title", JStr "A");
        ("description", JStr "B"); ("owner", JStr "me")].

(** A one-character string holding a double quote, and one holding a
    backslash. *)
Definition quote : string := String dq EmptyString.
Definition backslash : string := String bs EmptyString.

(** The table after a first to-do has been created in an empty one. *)
Definition one_todo : gmap string json :=
  table (handle None ∅ (create (todo "1" "A" "B"))).

(** The table after fifteen to-dos have been created in an empty one. *)
Definition fifteen_todos : gmap string json :=
  foldl (fun t id => table (handle None t (create (todo id "T" "D")))) ∅
    ["1"; "2"; "3"; "4"; "5"; "6"; "7"; "8"; "9"; "10"; "11"; "12"; "13"; "14"; "15"].

(** A table whose only item has a backslash for id. *)
Definition backslash_todo : gmap string json :=
  {[ backslash := item backslash "A" "B" ]}.


(** The table after two to-dos have been created in an empty one. *)
Definition two_todos : gmap string json :=
  foldl (fun t id => table (handle None t (create (todo id "T" "D")))) ∅ ["1"; "2"].

(** A title with escaped double quotes: once stored, it reads as the end
    of one object and the beginning of another. *)
Definition doubled : string :=
  Vtl.q "x\', \'description\': \'y\' }, { \'id\': \'p\', \'title\': \'z".

(** The table after fifteen to-dos with that title have been created. *)
Definition fifteen_doubled : gmap string json :=
  foldl (fun t id => table (handle None t (create (todo id doubled "D")))) ∅
    ["1"; "2"; "3"; "4"; "5"; "6"; "7"; "8"; "9"; "10"; "11"; "12"; "13"; "14"; "15"].

(** The object the list shows for the item [snd e] stored under [fst e]. *)
Definition listed (e : string * json) : json :=
  todo (fst e) (attr (snd e) "title") (attr (snd e) "description").

(** ** The resources of the API

  The tree that the constructor builds with [addResource] and [addMethod]:
  [v1] under the root, [todo] under [v1] with the two methods of the
  collection, and [{todoId}] under [todo] with the three methods of a
  single to-do. *)

Module RestApi.

Inductive Resource :=
| Node (pathPart : string) (methods : list (HttpMethod * Method)) (resources : list Resource).

Definition pathPart (r : Resource) : string := match r with Node p _ _ => p end.
Definition methods (r : Resource) : list (HttpMethod * Method) :=
  match r with Node _ ms _ => ms end.
Definition resources (r : Resource) : list Resource := match r with Node _ _ rs => rs end.

(** The text before a closing brace that ends the string. *)
Fixpoint braced (s : string) : option string :=
  match s with
  | EmptyString => None
  | String "}" EmptyString => Some EmptyString
  | String c rest => name ← braced rest; Some (String c name)
  end.

(** The name of a path part written in braces, such as [{todoId}]. *)
Definition variable (part : string) : option string :=
  match part with
  | String "{" rest => braced rest
  | _ => None
  end.

Definition same_method (a b : HttpMethod) : bool :=
  match a, b with
  | GET, GET | PUT, PUT | POST, POST | DELETE, DELETE => true
  | _, _ => false
  end.

Definition literal (segment : string) (r : Resource) : bool :=
  match variable (pathPart r) with
  | None => String.eqb (pathPart r) segment
  | Some _ => false
  end.

Definition greedy (r : Resource) : bool := is_Some_bool (variable (pathPart r)).

(** Modelled from the spec: the gateway's search for the resource of a
    path is not part of the repository.  A segment selects the child whose
    part is the segment itself, or else the child whose part is a variable,
    which takes any segment that is not empty and binds it to its name; a
    path with a missing id is a routing error. *)
Definition child (segment : string) (r : Resource)
  : option (Resource * list (string * string)) :=
  match List.find (literal segment) (resources r) with
  | Some c => Some (c, [])
  | None =>
      if String.eqb segment EmptyString then None
      else c ← List.find greedy (resources r);
           name ← variable (pathPart c);
           Some (c, [(name, segment)])
  end.

Fixpoint resolve (r : Resource) (segments : list string)
  : option (Resource * list (string * string)) :=
  match segments with
  | [] => Some (r, [])
  | s :: rest =>
      '(c, bound) ← child s r;
      '(leaf, more) ← resolve c rest;
      Some (leaf, (bound ++ more)%list)
  end.

Definition method_of (r : Resource) (m : HttpMethod) : option Method :=
  snd <$> List.find (fun hm => same_method (fst hm) m) (methods r).

Definition singleTodo : Resource :=
  Node "{todoId}"
    [(GET, getSingleTodo); (PUT, updateSingleTodo); (DELETE, deleteSingleTodo)] [].

Definition todo : Resource :=
  Node "todo" [(GET, getAllTodos); (PUT, createTodo)] [singleTodo].

Definition v1 : Resource := Node "v1" [] [todo].

Definition root : Resource := Node EmptyString [] [v1].

(** The method that answers a request, with the path parameters bound on
    the way to it. *)
Definition method_for (r : Request) : option (Method * list (string * string)) :=
  '(leaf, params) ← resolve root (resource r);
  m ← method_of leaf (httpMethod r);
  Some (m, params).

End RestApi.

(** ** Runs and classes of statuses *)

(** Requests served one after the other, each with the fault, if any, of
    its call to the table. *)
Definition serve (t : gmap string json) (rs : list (option nat * Request))
  : gmap string json :=
  foldl (fun t fr => table (handle (fst fr) t (snd fr))) t rs.

(** The status code of the integration response that a status of the call
    selects. *)
Definition selected (m : Method) (st : nat) : option nat :=
  statusCode <$> select (integrationResponses (integration m)) st.

Definition in_range (lo hi st : nat) : bool := ((lo <=? st) && (st <=? hi))%nat.

(** The two selection patterns agree with the two ranges on [st]. *)
Definition class_ok (st : nat) : bool :=
  Bool.eqb (Pattern.matches "2\d{2}" (Pattern.status_text st)) (in_range 200 299 st)
  && Bool.eqb (Pattern.matches "4\d{2}" (Pattern.status_text st)) (in_range 400 499 st).

(** ** The API as a dictionary of to-dos

  The four single-item operations, the requests that stand for them, and
  the dictionary from ids to titles and descriptions that the data model
  describes: a create adds an entry unless the id has one, an update
  replaces the entry the id has, a delete removes it, a get reads it. *)

Module Dictionary.

Inductive operation :=
| Create (id title description : string)
| Update (id title description : string)
| Delete (id : string)
| Get (id : string).

Definition request_of (o : operation) : Request :=
  match o with
  | Create i ti d => create (todo i ti d)
  | Update i ti d => update i (todo i ti d)
  | Delete i => remove i
  | Get i => get i
  end.

(** Values free of double quotes, backslashes and control characters, the
    id not empty. *)
Definition well_formed (o : operation) : bool :=
  match o with
  | Create i ti d | Update i ti d => plain i && nonempty i && plain ti && plain d
  | Delete i | Get i => plain i && nonempty i
  end.

Definition apply (s : gmap string (string * string)) (o : operation)
  : gmap string (string * string) * outcome :=
  match o with
  | Create i ti d =>
      match s !! i with
      | Some _ => (s, Responded 400 create_failed)
      | None => (<[i := (ti, d)]> s, Responded 200 created)
      end
  | Update i ti d =>
      match s !! i with
      | Some _ => (<[i := (ti, d)]> s, Responded 200 updated)
      | None => (s, Responded 400 update_failed)
      end
  | Delete i =>
      match s !! i with
      | Some _ => (delete i s, Responded 200 deleted)
      | None => (s, Responded 400 delete_failed)
      end
  | Get i =>
      match s !! i with
      | Some (ti, d) => (s, Responded 200 (todo_text i ti d))
      | None => (s, Responded 400 load_failed)
      end
  end.

Fixpoint apply_all (s : gmap string (string * string)) (os : list operation)
  : gmap string (string * string) * list outcome :=
  match os with
  | [] => (s, [])
  | o :: rest =>
      let '(s1, a) := apply s o in
      let '(s2, more) := apply_all s1 rest in
      (s2, a :: more)
  end.

(** The same operations served by the API, one request each. *)
Fixpoint handle_all (t : gmap string json) (os : list operation)
  : gmap string json * list outcome :=
  match os with
  | [] => (t, [])
  | o :: rest =>
      let r := handle None t (request_of o) in
      let '(t2, more) := handle_all (table r) rest in
      (t2, answer r :: more)
  end.

(** The item that stands for an entry of the dictionary. *)
Definition stored (k : string) (e : string * string) : json := item k (fst e) (snd e).

Definition stands_for (t : gmap string json) (s : gmap string (string * string)) : Prop :=
  forall k, t !! k = stored k <$> (s !! k).

(** A run that exercises each operation on a stored and on a missing id. *)
Definition sample : list operation :=
  [ Create "1" "A" "B"; Create "1" "C" "D"; Get "1"; Update "1" "E" "F"; Get "1";
    Delete "1"; Get "1"; Update "1" "G" "H"; Delete "1" ].

End Dictionary.

(** * Supporting lemmas *)

Section Lexing.

Lemma append_empty (s : string) : (s ++ EmptyString)%string = s.
Proof. induction s as [|c s IH]; [reflexivity|]. now rewrite <- IH at 2. Qed.

Lemma append_cons c (a b : string) : (String c a ++ b)%string = String c (a ++ b).
Proof. reflexivity. Qed.

Lemma append_snoc acc c s : (snoc acc c ++ s)%string = (acc ++ String c s)%string.
Proof.
  unfold snoc. induction acc as [|a acc IH]; [reflexivity|].
  rewrite !append_cons. now rewrite IH.
Qed.

Lemma plain_cons c s : plain (String c s) = true -> plain_char c = true /\ plain s = true.
Proof. cbn. intros H. apply andb_prop in H. exact H. Qed.

(** Scanning a text in two parts. *)
Lemma scan_app a : forall m b,
  scan m (a ++ b)
  = match scan m a with
    | Some (ts, m') =>
        match scan m' b with
        | Some (more, m'') => Some ((ts ++ more)%list, m'')
        | None => None
        end
    | None => None
    end.
Proof.
  induction a as [|c a IH]; intros m b.
  - change (EmptyString ++ b)%string with b. cbn. now destruct (scan m b) as [[more m'']|].
  - rewrite append_cons. cbn [scan].
    destruct (step m c) as [[ts m']|]; [|reflexivity]. cbn.
    rewrite IH.
    destruct (scan m' a) as [[ts1 m1]|]; [|reflexivity]. cbn.
    destruct (scan m1 b) as [[ts2 m2]|]; [|reflexivity]. cbn.
    now rewrite app_assoc.
Qed.

(** Inside a string literal, plain characters are taken as they are. *)
Lemma scan_plain s : forall acc,
  plain s = true -> scan (InString acc) s = Some ([], InString (acc ++ s)).
Proof.
  induction s as [|c s IH]; intros acc Hs.
  - cbn. now rewrite append_empty.
  - apply plain_cons in Hs as [Hc Hs].
    unfold plain_char in Hc.
    apply andb_prop in Hc as [Hc Hctl]. apply andb_prop in Hc as [Hq Hb].
    apply negb_true_iff in Hq, Hb, Hctl.
    cbn [scan step]. rewrite Hq, Hb, Hctl. cbn.
    rewrite IH by exact Hs. cbn. now rewrite append_snoc.
Qed.

Lemma scan_hole s rest :
  plain s = true ->
  scan (InString EmptyString) (s ++ rest)
  = match scan (InString s) rest with
    | Some (more, m) => Some (more, m)
    | None => None
    end.
Proof.
  intros Hs. rewrite scan_app, scan_plain by exact Hs.
  change (EmptyString ++ s)%string with s.
  now destruct (scan (InString s) rest) as [[more m]|].
Qed.

End Lexing.

(** Case analysis on an innermost scrutinee of the hypothesis [H]. *)
Ltac has_match x :=
  match x with
  | context [match _ with _ => _ end] => idtac
  end.

Ltac split_match H :=
  match type of H with
  | context [match ?x with _ => _ end] =>
      tryif has_match x then fail else destruct x eqn:?
  end.

Section Fuel.

Lemma parse_shrinks fuel :
  (forall ts v rest, parse_value fuel ts = Some (v, rest) -> List.length rest < List.length ts)
  /\ (forall ts ms rest, parse_members fuel ts = Some (ms, rest) ->
        List.length rest < List.length ts)
  /\ (forall ts vs rest, parse_elements fuel ts = Some (vs, rest) ->
        List.length rest < List.length ts).
Proof.
  induction fuel as [|fuel (IHv & IHm & IHe)]; [repeat split; discriminate|].
  repeat split; intros ts x rest H;
    cbn [parse_value parse_members parse_elements] in H;
    unfold mbind, option_bind in H;
    repeat (split_match H; try discriminate H);
    simplify_eq;
    repeat match goal with
           | Hx : parse_value fuel _ = Some _ |- _ => apply IHv in Hx
           | Hx : parse_members fuel _ = Some _ |- _ => apply IHm in Hx
           | Hx : parse_elements fuel _ = Some _ |- _ => apply IHe in Hx
           end;
    cbn [List.length] in *; lia.
Qed.

(** A parse that succeeds succeeds, with the same result, with any fuel
    that is at least the number of tokens it consumes. *)
Lemma parse_fuel fuel :
  (forall ts v rest fuel', List.length ts - List.length rest <= fuel' ->
     parse_value fuel ts = Some (v, rest) -> parse_value fuel' ts = Some (v, rest))
  /\ (forall ts ms rest fuel', List.length ts - List.length rest <= fuel' ->
        parse_members fuel ts = Some (ms, rest) -> parse_members fuel' ts = Some (ms, rest))
  /\ (forall ts vs rest fuel', List.length ts - List.length rest <= fuel' ->
        parse_elements fuel ts = Some (vs, rest) ->
        parse_elements fuel' ts = Some (vs, rest)).
Proof.
  induction fuel as [|fuel (IHv & IHm & IHe)]; [repeat split; discriminate|].
  destruct (parse_shrinks fuel) as (Sv & Sm & Se).
  destruct (parse_shrinks (S fuel)) as (Sv' & Sm' & Se').
  repeat split; intros ts x rest fuel' Hlen H;
    [pose proof (Sv' _ _ _ H) | pose proof (Sm' _ _ _ H) | pose proof (Se' _ _ _ H)];
    (destruct fuel' as [|fuel']; [lia|]);
    cbn [parse_value parse_members parse_elements] in H |- *;
    unfold mbind, option_bind in H |- *;
    repeat (split_match H; try discriminate H);
    simplify_eq; cbn [List.length] in *;
    repeat match goal with
           | Hx : parse_value fuel ?l = Some (_, ?b) |- _ =>
               lazymatch goal with
               | _ : List.length b < List.length l |- _ => fail
               | _ => pose proof (Sv _ _ _ Hx)
               end
           | Hx : parse_members fuel ?l = Some (_, ?b) |- _ =>
               lazymatch goal with
               | _ : List.length b < List.length l |- _ => fail
               | _ => pose proof (Sm _ _ _ Hx)
               end
           | Hx : parse_elements fuel ?l = Some (_, ?b) |- _ =>
               lazymatch goal with
               | _ : List.length b < List.length l |- _ => fail
               | _ => pose proof (Se _ _ _ Hx)
               end
           end;
    cbn [List.length] in *;
    repeat match goal with
           | Hx : parse_value fuel _ = Some _ |- _ =>
               apply (IHv _ _ _ fuel') in Hx; [rewrite Hx|cbn [List.length]; lia]
           | Hx : parse_members fuel _ = Some _ |- _ =>
               apply (IHm _ _ _ fuel') in Hx; [rewrite Hx|cbn [List.length]; lia]
           | Hx : parse_elements fuel _ = Some _ |- _ =>
               apply (IHe _ _ _ fuel') in Hx; [rewrite Hx|cbn [List.length]; lia]
           end;
    try reflexivity.
Qed.
(** So the fuel that [parse] gives is never what makes it refuse a text. *)
Lemma parse_enough text ts fuel v :
  lex text = Some ts -> parse_value fuel ts = Some (v, []) -> Json.parse text = Some v.
Proof.
  intros Hlex Hv. unfold Json.parse. rewrite Hlex. cbn [mbind option_bind].
  destruct (parse_fuel fuel) as (Hfuel & _ & _).
  rewrite (Hfuel ts v [] (S (List.length ts))); [reflexivity| |exact Hv].
  cbn [List.length]. lia.
Qed.

End Fuel.

Ltac scan_chunk :=
  match goal with
  | |- context [scan ?m ?a] =>
      let v := eval vm_compute in (scan m a) in
      change (scan m a) with v; cbv beta iota
  end.

(** Lexing a text with holes: fixed chunks are computed, holes filled
    with plain strings are crossed with [scan_hole]. *)
Ltac scan_holes :=
  unfold Json.parse, lex;
  repeat (rewrite scan_app; scan_chunk; rewrite scan_hole by assumption);
  scan_chunk.

Section Wire.

Lemma parse_put_text c i t d :
  plain c = true -> plain i = true -> plain t = true -> plain d = true ->
  Json.parse (put_text c i t d)
  = Some (JObj [("TableName", JStr "todos"); ("Item", item i t d);
                ("ConditionExpression", JStr c)]).
Proof.
  intros Hc Hi Ht Hd. unfold put_text. scan_holes. reflexivity.
Qed.

Lemma parse_get_text i :
  plain i = true ->
  Json.parse (get_text i) = Some (JObj [("TableName", JStr "todos"); ("Key", key i)]).
Proof.
  intros Hi. unfold get_text. scan_holes. reflexivity.
Qed.

Lemma parse_delete_text i :
  plain i = true ->
  Json.parse (delete_text i)
  = Some (JObj [("TableName", JStr "todos"); ("Key", key i);
                ("ConditionExpression", JStr "attribute_exists(id)")]).
Proof.
  intros Hi. unfold delete_text. scan_holes. reflexivity.
Qed.

Lemma parse_todo_text i t d :
  plain i = true -> plain t = true -> plain d = true ->
  Json.parse (todo_text i t d) = Some (todo i t d).
Proof.
  intros Hi Ht Hd. unfold todo_text. scan_holes. reflexivity.
Qed.

End Wire.

Section Requests.

Lemma printed_field b name v :
  Json.field name b = Some (JStr v) -> printed b name = v.
Proof.
  intros H. unfold printed, Vtl.print, Vtl.eval. cbn [Json.path Vtl.input Vtl.initial].
  now rewrite H.
Qed.

(** The request templates interpolate what [$input] returns as it is. *)
Lemma create_text b :
  fst (Vtl.run (requestTemplates (integration createTodo)) (Vtl.initial b []))
  = put_text "attribute_not_exists(id)" (printed b "id") (printed b "title")
      (printed b "description").
Proof. reflexivity. Qed.

Lemma update_text p b :
  fst (Vtl.run (requestTemplates (integration updateSingleTodo))
         (Vtl.initial b [("todoId", p)]))
  = put_text "attribute_exists(id)" p (printed b "title") (printed b "description").
Proof. reflexivity. Qed.

Lemma get_request_text p b :
  fst (Vtl.run (requestTemplates (integration getSingleTodo))
         (Vtl.initial b [("todoId", p)]))
  = get_text p.
Proof. reflexivity. Qed.

Lemma delete_request_text p b :
  fst (Vtl.run (requestTemplates (integration deleteSingleTodo))
         (Vtl.initial b [("todoId", p)]))
  = delete_text p.
Proof. reflexivity. Qed.

Lemma carries_valid b i t d :
  carries b i t d -> Schema.validate (schema todoModel) b = true.
Proof.
  intros (Hi & Ht & Hd). destruct b; try discriminate Hi.
  unfold Schema.validate, Schema.present, Schema.property_ok.
  cbn [schema todoModel Schema.type Schema.required Schema.properties
       Schema.has_type forallb fst snd].
  now rewrite Hi, Ht, Hd.
Qed.

End Requests.

Section Calls.

Lemma handle_get fault t p :
  nonempty p = true ->
  handle fault t (get p) = dispatch dynamodb getSingleTodo fault [("todoId", p)] (get_text p) t.
Proof.
  unfold nonempty. intros Hp. unfold handle, route, get.
  cbn [resource httpMethod body]. rewrite Hp. reflexivity.
Qed.

Lemma handle_remove fault t p :
  nonempty p = true ->
  handle fault t (remove p)
  = dispatch dynamodb deleteSingleTodo fault [("todoId", p)] (delete_text p) t.
Proof.
  unfold nonempty. intros Hp. unfold handle, route, remove.
  cbn [resource httpMethod body]. rewrite Hp. reflexivity.
Qed.

Lemma handle_create fault t b i ti d :
  carries b i ti d ->
  handle fault t (create b)
  = dispatch dynamodb createTodo fault [] (put_text "attribute_not_exists(id)" i ti d) t.
Proof.
  intros Hb.
  change (handle fault t (create b)) with (invoke dynamodb createTodo fault [] b t).
  unfold invoke, rejects.
  cbn [requestValidator requestModels createTodo validateRequestBody requestBodyValidator].
  rewrite (carries_valid b i ti d Hb). cbn [negb andb].
  rewrite create_text. destruct Hb as (Hi & Ht & Hd).
  now rewrite (printed_field _ _ _ Hi), (printed_field _ _ _ Ht), (printed_field _ _ _ Hd).
Qed.

Lemma handle_update_route fault t p b :
  handle fault t (update p b)
  = if nonempty p then invoke dynamodb updateSingleTodo fault [("todoId", p)] b t
    else {| table := t; answer := NoRoute; calls := [] |}.
Proof.
  unfold nonempty, handle, route, update. cbn [resource httpMethod body].
  now destruct (String.eqb p EmptyString).
Qed.

Lemma invoke_update fault t p b i ti d :
  carries b i ti d ->
  invoke dynamodb updateSingleTodo fault [("todoId", p)] b t
  = dispatch dynamodb updateSingleTodo fault [("todoId", p)]
      (put_text "attribute_exists(id)" p ti d) t.
Proof.
  intros Hb. unfold invoke, rejects.
  cbn [requestValidator requestModels updateSingleTodo validateRequestBody requestBodyValidator].
  rewrite (carries_valid b i ti d Hb). cbn [negb andb].
  rewrite update_text. destruct Hb as (Hi & Ht & Hd).
  now rewrite (printed_field _ _ _ Ht), (printed_field _ _ _ Hd).
Qed.

Lemma handle_update fault t p b i ti d :
  nonempty p = true -> carries b i ti d ->
  handle fault t (update p b)
  = dispatch dynamodb updateSingleTodo fault [("todoId", p)]
      (put_text "attribute_exists(id)" p ti d) t.
Proof.
  intros Hp Hb. rewrite handle_update_route, Hp. now apply invoke_update with (i := i).
Qed.

Lemma key_of_item i ti d :
  nonempty i = true -> DynamoDB.key_of dynamodb (item i ti d) = Some i.
Proof.
  unfold nonempty. intros Hi. apply negb_true_iff in Hi.
  unfold DynamoDB.key_of. cbn. now rewrite Hi.
Qed.

Lemma key_of_key i :
  nonempty i = true -> DynamoDB.key_of dynamodb (key i) = Some i.
Proof.
  unfold nonempty. intros Hi. apply negb_true_iff in Hi.
  unfold DynamoDB.key_of. cbn. now rewrite Hi.
Qed.

Lemma call_create t i ti d :
  plain i = true -> nonempty i = true -> plain ti = true -> plain d = true ->
  DynamoDB.call dynamodb None "PutItem" (put_text "attribute_not_exists(id)" i ti d) t
  = if DynamoDB.has_attribute "id" (t !! i)
    then (t, DynamoDB.Failure DynamoDB.ConditionalCheckFailedException)
    else (<[i := item i ti d]> t, DynamoDB.Success (JObj [])).
Proof.
  intros Hi Hne Ht Hd. unfold DynamoDB.call, DynamoDB.decode.
  rewrite parse_put_text by (assumption || reflexivity).
  change (DynamoDB.run dynamodb
            (DynamoDB.PutItem (item i ti d) (Some (DynamoDB.AttributeNotExists "id"))) t = 
          if DynamoDB.has_attribute "id" (t !! i)
          then (t, DynamoDB.Failure DynamoDB.ConditionalCheckFailedException)
          else (<[i := item i ti d]> t, DynamoDB.Success (JObj []))).
  unfold DynamoDB.run. rewrite key_of_item by exact Hne.
  unfold DynamoDB.holds. now destruct (DynamoDB.has_attribute "id" (t !! i)).
Qed.

Lemma call_update t i ti d :
  plain i = true -> nonempty i = true -> plain ti = true -> plain d = true ->
  DynamoDB.call dynamodb None "PutItem" (put_text "attribute_exists(id)" i ti d) t
  = if DynamoDB.has_attribute "id" (t !! i)
    then (<[i := item i ti d]> t, DynamoDB.Success (JObj []))
    else (t, DynamoDB.Failure DynamoDB.ConditionalCheckFailedException).
Proof.
  intros Hi Hne Ht Hd. unfold DynamoDB.call, DynamoDB.decode.
  rewrite parse_put_text by (assumption || reflexivity).
  change (DynamoDB.run dynamodb
            (DynamoDB.PutItem (item i ti d) (Some (DynamoDB.AttributeExists "id"))) t = 
          if DynamoDB.has_attribute "id" (t !! i)
          then (<[i := item i ti d]> t, DynamoDB.Success (JObj []))
          else (t, DynamoDB.Failure DynamoDB.ConditionalCheckFailedException)).
  unfold DynamoDB.run. rewrite key_of_item by exact Hne.
  unfold DynamoDB.holds. now destruct (DynamoDB.has_attribute "id" (t !! i)).
Qed.

Lemma call_get t i :
  plain i = true -> nonempty i = true ->
  DynamoDB.call dynamodb None "GetItem" (get_text i) t
  = (t, DynamoDB.Success (match t !! i with
                          | Some it => JObj [("Item", it)]
                          | None => JObj []
                          end)).
Proof.
  intros Hi Hne. unfold DynamoDB.call, DynamoDB.decode.
  rewrite parse_get_text by assumption.
  change (DynamoDB.run dynamodb (DynamoDB.GetItem (key i)) t
          = (t, DynamoDB.Success (match t !! i with
                                  | Some it => JObj [("Item", it)]
                                  | None => JObj []
                                  end))).
  unfold DynamoDB.run. rewrite key_of_key by exact Hne.
  now destruct (t !! i).
Qed.

Lemma call_delete t i :
  plain i = true -> nonempty i = true ->
  DynamoDB.call dynamodb None "DeleteItem" (delete_text i) t
  = if DynamoDB.has_attribute "id" (t !! i)
    then (delete i t, DynamoDB.Success (JObj []))
    else (t, DynamoDB.Failure DynamoDB.ConditionalCheckFailedException).
Proof.
  intros Hi Hne. unfold DynamoDB.call, DynamoDB.decode.
  rewrite parse_delete_text by assumption.
  change (DynamoDB.run dynamodb
            (DynamoDB.DeleteItem (key i) (Some (DynamoDB.AttributeExists "id"))) t
          = if DynamoDB.has_attribute "id" (t !! i)
            then (delete i t, DynamoDB.Success (JObj []))
            else (t, DynamoDB.Failure DynamoDB.ConditionalCheckFailedException)).
  unfold DynamoDB.run. rewrite key_of_key by exact Hne.
  unfold DynamoDB.holds. now destruct (DynamoDB.has_attribute "id" (t !! i)).
Qed.

(** The single-item response for a stored item of the three members. *)
Lemma get_found p i ti d :
  respond (integrationResponses (integration getSingleTodo)) [("todoId", p)]
    (DynamoDB.Success (JObj [("Item", item i ti d)]))
  = Responded 200 (todo_text i ti d).
Proof.
  transitivity (Responded 200 (todo_text i ti d ++ EmptyString)); [reflexivity|].
  now rewrite append_empty.
Qed.

End Calls.

Section Keys.

Lemma keyed_lookup t k it :
  keyed t = true -> t !! k = Some it -> DynamoDB.key_of dynamodb it = Some k.
Proof.
  unfold keyed. rewrite forallb_forall. intros H Hk.
  specialize (H (k, it)). cbn [fst snd] in H.
  assert (Hin : In (k, it) (map_to_list t)).
  { apply list_elem_of_In, elem_of_map_to_list. exact Hk. }
  specialize (H Hin).
  destruct (DynamoDB.key_of dynamodb it) as [k'|]; [|discriminate H].
  apply String.eqb_eq in H. now subst k'.
Qed.

Lemma keyed_intro t :
  (forall k it, t !! k = Some it -> DynamoDB.key_of dynamodb it = Some k) -> keyed t = true.
Proof.
  intros H. unfold keyed. apply forallb_forall. intros [k it] Hin. cbn [fst snd].
  apply list_elem_of_In, elem_of_map_to_list in Hin.
  rewrite (H k it Hin). apply String.eqb_refl.
Qed.

Lemma key_of_has_id it k :
  DynamoDB.key_of dynamodb it = Some k -> DynamoDB.has_attribute "id" (Some it) = true.
Proof.
  unfold DynamoDB.key_of, DynamoDB.has_attribute.
  cbn [dynamodb DynamoDB.partitionKey Json.path].
  destruct (Json.field "id" it); [reflexivity|discriminate].
Qed.

Lemma keyed_has_id t k :
  keyed t = true -> DynamoDB.has_attribute "id" (t !! k) = is_Some_bool (t !! k).
Proof.
  intros Ht. destruct (t !! k) as [it|] eqn:Hk; [|reflexivity].
  apply (key_of_has_id it k). now apply keyed_lookup with (t := t).
Qed.

End Keys.

Section Validation.

(** A body the model accepts has each of the three members, as a string. *)
Lemma validate_needs b name :
  In name ["id"; "title"; "description"] ->
  Schema.validate (schema todoModel) b = true ->
  exists v, Json.field name b = Some (JStr v).
Proof.
  intros Hin Hv. unfold Schema.validate in Hv.
  apply andb_prop in Hv as [Hv Hprops]. apply andb_prop in Hv as [_ Hreq].
  rewrite forallb_forall in Hreq, Hprops.
  specialize (Hreq name Hin).
  assert (Hp : In (name, Schema.STRING) (Schema.properties (schema todoModel))).
  { cbn in Hin |- *. intuition (subst; auto). }
  specialize (Hprops _ Hp).
  unfold Schema.present in Hreq. unfold Schema.property_ok in Hprops.
  cbn [fst snd] in Hprops.
  destruct (Json.field name b) as [v|]; [|discriminate Hreq].
  destruct v; try discriminate Hprops. now eexists.
Qed.

Lemma refused fault t b name :
  In name ["id"; "title"; "description"] ->
  (forall v, Json.field name b <> Some (JStr v)) ->
  invoke dynamodb createTodo fault [] b t
  = {| table := t; answer := Rejected 400 invalid_request_body; calls := [] |}
  /\ forall p, invoke dynamodb updateSingleTodo fault [("todoId", p)] b t
     = {| table := t; answer := Rejected 400 invalid_request_body; calls := [] |}.
Proof.
  intros Hin Hno.
  assert (Hv : Schema.validate (schema todoModel) b = false).
  { destruct (Schema.validate (schema todoModel) b) eqn:Hv; [|reflexivity].
    destruct (validate_needs b name Hin Hv) as [v Hf]. now destruct (Hno v). }
  unfold invoke, rejects.
  cbn [requestValidator requestModels createTodo updateSingleTodo
       validateRequestBody requestBodyValidator].
  rewrite Hv. split; reflexivity.
Qed.

End Validation.

Section Invariant.

Lemma run_keyed r t :
  keyed t = true -> keyed (fst (DynamoDB.run dynamodb r t)) = true.
Proof.
  intros Hk. destruct r as [limit|it c|k|k c]; unfold DynamoDB.run.
  - exact Hk.
  - destruct (DynamoDB.key_of dynamodb it) as [k|] eqn:Hkey; [|exact Hk].
    destruct (DynamoDB.holds c (t !! k)); [|exact Hk].
    cbn [fst]. apply keyed_intro. intros k' it' Hl.
    destruct (decide (k = k')) as [->|Hne].
    + rewrite lookup_insert_eq in Hl. now injection Hl as <-.
    + rewrite lookup_insert_ne in Hl by exact Hne. now apply keyed_lookup with (t := t).
  - destruct (DynamoDB.key_of dynamodb k) as [k0|]; [|exact Hk].
    now destruct (t !! k0).
  - destruct (DynamoDB.key_of dynamodb k) as [k0|]; [|exact Hk].
    destruct (DynamoDB.holds c (t !! k0)); [|exact Hk].
    cbn [fst]. apply keyed_intro. intros k' it' Hl.
    destruct (decide (k0 = k')) as [->|Hne].
    + now rewrite lookup_delete_eq in Hl.
    + rewrite lookup_delete_ne in Hl by exact Hne. now apply keyed_lookup with (t := t).
Qed.

Lemma call_keyed fault action text t :
  keyed t = true -> keyed (fst (DynamoDB.call dynamodb fault action text t)) = true.
Proof.
  intros Hk. unfold DynamoDB.call. destruct fault; [exact Hk|].
  destruct (DynamoDB.decode dynamodb action text); [exact Hk|]. now apply run_keyed.
Qed.

Lemma table_dispatch m fault params text t :
  table (dispatch dynamodb m fault params text t)
  = fst (DynamoDB.call dynamodb fault (action (integration m)) text t).
Proof.
  unfold dispatch. now destruct (DynamoDB.call dynamodb fault (action (integration m)) text t).
Qed.

Lemma invoke_keyed m fault params b t :
  keyed t = true -> keyed (table (invoke dynamodb m fault params b t)) = true.
Proof.
  intros Hk. unfold invoke. destruct (rejects m b); [exact Hk|].
  rewrite table_dispatch. now apply call_keyed.
Qed.

(** Whatever the request, the table keeps every item under its own id. *)
Lemma handle_keyed fault t r :
  keyed t = true -> keyed (table (handle fault t r)) = true.
Proof.
  intros Hk. unfold handle. destruct (route r) as [[m params]|]; [|exact Hk].
  now apply invoke_keyed.
Qed.

End Invariant.

Section Scan.

Lemma sequence_cons s rest c :
  Vtl.sequence Vtl.run1 (s :: rest) c
  = let '(out1, c1) := Vtl.run1 s c in
    let '(out2, c2) := Vtl.sequence Vtl.run1 rest c1 in
    ((out1 ++ out2)%string, c2).
Proof. reflexivity. Qed.

Lemma row_run c more it :
  Vtl.sequence Vtl.run1 todoRow (Vtl.with_hasNext more (Vtl.bind "todo" it c))
  = (row more it, Vtl.with_hasNext more (Vtl.bind "todo" it c)).
Proof. destruct more; reflexivity. Qed.

Lemma iterate_rows items : forall c,
  fst (Vtl.iterate (Vtl.sequence Vtl.run1 todoRow) "todo" items c) = rows items
  /\ Vtl.responseOverride (snd (Vtl.iterate (Vtl.sequence Vtl.run1 todoRow) "todo" items c))
     = Vtl.responseOverride c.
Proof.
  induction items as [|it rest IH]; intros c; [split; reflexivity|].
  cbn [Vtl.iterate rows]. rewrite row_run.
  specialize (IH (Vtl.with_hasNext (match rest with [] => false | _ => true end)
                    (Vtl.bind "todo" it c))).
  destruct (Vtl.iterate (Vtl.sequence Vtl.run1 todoRow) "todo" rest _) as [out c2].
  cbn [fst snd] in IH |- *. destruct IH as [-> ->]. split; reflexivity.
Qed.

(** The list response prints one object per scanned item and nothing else
    of the reply. *)
Lemma list_response items others :
  respond (integrationResponses (integration getAllTodos)) []
    (DynamoDB.Success (JObj (("Items", JArr items) :: others)))
  = Responded 200 (todos_text items).
Proof.
  unfold respond.
  change (select (integrationResponses (integration getAllTodos))
            (DynamoDB.status (DynamoDB.Success (JObj (("Items", JArr items) :: others)))))
    with (Some {| statusCode := 200; selectionPattern := "2\d{2}";
                  responseTemplates :=
                    [ Vtl.SetVar "inputRoot" (Vtl.InputPath []);
                      Vtl.Text "[ ";
                      Vtl.Foreach "todo" (Vtl.Ref "inputRoot" ["Items"]) todoRow;
                      Vtl.Text "]" ] |}).
  cbv beta iota. cbn [responseTemplates statusCode].
  unfold Vtl.run. rewrite sequence_cons.
  simpl (Vtl.run1 (Vtl.SetVar _ _) _). cbv beta iota.
  rewrite sequence_cons. simpl (Vtl.run1 (Vtl.Text _) _). cbv beta iota.
  rewrite sequence_cons. simpl (Vtl.run1 (Vtl.Foreach _ _ _) _).
  match goal with
  | |- context [Vtl.iterate ?f ?v ?l ?c] =>
      change (Vtl.iterate f v l c)
        with (Vtl.iterate (Vtl.sequence Vtl.run1 todoRow) "todo" l c);
      destruct (iterate_rows l c) as [Hout Hover];
      destruct (Vtl.iterate (Vtl.sequence Vtl.run1 todoRow) "todo" l c) as [out c2]
  end.
  cbn [fst snd] in Hout, Hover. subst out. cbv beta iota.
  change (Vtl.sequence Vtl.run1 [Vtl.Text "]"] c2) with ("]", c2).
  cbv beta iota. rewrite Hover. reflexivity.
Qed.

Lemma call_scan t :
  DynamoDB.call dynamodb None "Scan" scan_text t
  = (t, DynamoDB.Success
          (JObj (("Items", JArr (snd <$> take 10 (map_to_list t)))
                 :: ("Count", JNum (Z.of_nat (List.length (take 10 (map_to_list t)))))
                 :: DynamoDB.continuation dynamodb (Some 10) (take 10 (map_to_list t))))).
Proof.
  unfold DynamoDB.call, DynamoDB.decode.
  change (Json.parse scan_text)
    with (Some (JObj [("TableName", JStr "todos"); ("Limit", JNum 10)])).
  reflexivity.
Qed.

End Scan.

Section ListBody.

Lemma attr_string it name v : string_attr it name = Some v -> attr it name = v.
Proof.
  unfold string_attr, attr, Vtl.print, Vtl.eval.
  cbn [Vtl.vars Vtl.bind Vtl.initial Json.assoc].
  change (String.eqb "todo" "todo") with true. cbv beta iota.
  cbn [mbind option_bind].
  destruct (Json.path [name; "S"] it) as [[]|]; try discriminate.
  intros [= ->]. reflexivity.
Qed.

Lemma printable_plain it :
  printable it = true ->
  plain (attr it "id") = true /\ plain (attr it "title") = true
  /\ plain (attr it "description") = true.
Proof.
  unfold printable. cbn [forallb]. intros H.
  apply andb_prop in H as [Hi H]. apply andb_prop in H as [Ht H].
  apply andb_prop in H as [Hd _].
  destruct (string_attr it "id") as [i|] eqn:Ei; [|discriminate].
  destruct (string_attr it "title") as [ti|] eqn:Et; [|discriminate].
  destruct (string_attr it "description") as [d|] eqn:Ed; [|discriminate].
  now rewrite (attr_string _ _ _ Ei), (attr_string _ _ _ Et), (attr_string _ _ _ Ed).
Qed.

Lemma scan_row more it :
  printable it = true ->
  scan Outside (row more it) = Some (row_tokens more it, Outside).
Proof.
  intros Hp. destruct (printable_plain it Hp) as (Hi & Ht & Hd).
  unfold row, row_tokens.
  destruct more;
    repeat (rewrite scan_app; scan_chunk; rewrite scan_hole by assumption);
    scan_chunk; reflexivity.
Qed.

Lemma append_assoc (a b c : string) : ((a ++ b) ++ c)%string = (a ++ b ++ c)%string.
Proof. induction a as [|x a IH]; [reflexivity|]. rewrite !append_cons. now rewrite IH. Qed.

Lemma scan_rows items : forall tail,
  Forall (fun it => printable it = true) items ->
  scan Outside (rows items ++ tail)
  = match scan Outside tail with
    | Some (ts, m) => Some ((rows_tokens items ++ ts)%list, m)
    | None => None
    end.
Proof.
  induction items as [|it rest IH]; intros tail Hall.
  - change (rows [] ++ tail)%string with tail. cbn [rows_tokens app].
    now destruct (scan Outside tail) as [[ts m]|].
  - inversion Hall as [|? ? Hit Hrest]; subst.
    cbn [rows rows_tokens]. rewrite append_assoc, scan_app, scan_row by exact Hit.
    rewrite IH by exact Hrest.
    destruct (scan Outside tail) as [[ts m]|]; [|reflexivity].
    now rewrite app_assoc.
Qed.

Lemma parse_row f more it rest :
  parse_value (5 + f) (row_tokens more it ++ rest)%list
  = Some (shown it, ((if more then [TComma] else []) ++ rest)%list).
Proof. destruct more; reflexivity. Qed.

Lemma parse_rows items : forall fuel rest,
  items <> [] ->
  List.length items + 6 <= fuel ->
  parse_elements fuel (rows_tokens items ++ TRBracket :: rest)%list
  = Some (shown <$> items, rest).
Proof.
  induction items as [|it items IH]; intros fuel rest Hne Hfuel; [congruence|].
  cbn [List.length] in Hfuel.
  destruct fuel as [|fuel]; [lia|].
  replace fuel with (5 + (fuel - 5)) by lia.
  cbn [rows_tokens parse_elements]. rewrite <- app_assoc, parse_row.
  replace (5 + (fuel - 5)) with fuel by lia.
  destruct items as [|it2 items].
  - reflexivity.
  - cbn [mbind option_bind app].
    rewrite IH by (cbn [List.length] in *; (congruence || lia)).
    reflexivity.
Qed.

Lemma parse_array fuel it items rest :
  parse_value (S fuel) (TLBracket :: rows_tokens (it :: items) ++ rest)%list
  = '(elements, rest') ← parse_elements fuel (rows_tokens (it :: items) ++ rest)%list;
    Some (JArr elements, rest').
Proof. reflexivity. Qed.

(** The body of the list answer is the array of the objects shown. *)
Lemma parse_todos_text items :
  Forall (fun it => printable it = true) items ->
  Json.parse (todos_text items) = Some (JArr (shown <$> items)).
Proof.
  intros Hall. unfold Json.parse, lex, todos_text.
  rewrite scan_app. scan_chunk. rewrite scan_rows by exact Hall. scan_chunk.
  cbn [mbind option_bind flush].
  destruct items as [|it items]; [reflexivity|].
  rewrite app_nil_r.
  set (ts := (rows_tokens (it :: items) ++ [TRBracket])%list).
  assert (Hlen : List.length (it :: items) + 6 <= List.length ts).
  { subst ts. rewrite length_app. cbn [rows_tokens List.length].
    rewrite length_app. unfold row_tokens. rewrite length_app. cbn [List.length].
    clear. induction items as [|x items IH]; cbn [rows_tokens List.length]; [lia|].
    rewrite length_app. unfold row_tokens. rewrite length_app. cbn [List.length]. lia. }
  assert (Hfuel : List.length (it :: items) + 6 <= List.length (TLBracket :: ts)).
  { cbn [List.length] in Hlen |- *. lia. }
  clear Hlen.
  change ([TLBracket] ++ ts)%list with (TLBracket :: ts).
  generalize dependent (List.length (TLBracket :: ts)). intros fuel Hfuel.
  subst ts. rewrite parse_array, parse_rows by (congruence || lia). reflexivity.
Qed.

End ListBody.


Section Classification.

Lemma status_4xx st :
  400 <= st <= 499 ->
  Pattern.matches "2\d{2}" (Pattern.status_text st) = false
  /\ Pattern.matches "4\d{2}" (Pattern.status_text st) = true.
Proof.
  intros Hst.
  assert (Hall : forallb is_4xx (List.seq 400 100) = true) by (vm_compute; reflexivity).
  rewrite forallb_forall in Hall.
  assert (Hin : In st (List.seq 400 100)) by (apply in_seq; lia).
  specialize (Hall st Hin). unfold is_4xx in Hall.
  apply andb_prop in Hall as [H2 H4]. apply negb_true_iff in H2. now split.
Qed.

Lemma status_5xx st :
  500 <= st <= 599 ->
  Pattern.matches "2\d{2}" (Pattern.status_text st) = false
  /\ Pattern.matches "4\d{2}" (Pattern.status_text st) = false.
Proof.
  intros Hst.
  assert (Hall : forallb is_unmatched (List.seq 500 100) = true) by (vm_compute; reflexivity).
  rewrite forallb_forall in Hall.
  assert (Hin : In st (List.seq 500 100)) by (apply in_seq; lia).
  specialize (Hall st Hin). unfold is_unmatched in Hall.
  apply andb_prop in Hall as [H2 H4]. apply negb_true_iff in H2, H4. now split.
Qed.

End Classification.

Ltac classify H2 H4 :=
  unfold dispatch, DynamoDB.call, respond, select;
  cbn [integrationResponses integration action
       getAllTodos createTodo getSingleTodo updateSingleTodo deleteSingleTodo
       List.find selectionPattern DynamoDB.status];
  rewrite H2, H4; reflexivity.

Section Faults.

Variables (t : gmap string json) (st : nat) (params : list (string * string)) (text : string).

Lemma fault_4xx :
  400 <= st <= 499 ->
  dispatch dynamodb getAllTodos (Some st) params text t
  = {| table := t; answer := Responded 400 load_failed; calls := [("Scan", text)] |}
  /\ dispatch dynamodb createTodo (Some st) params text t
     = {| table := t; answer := Responded 400 create_failed; calls := [("PutItem", text)] |}
  /\ dispatch dynamodb getSingleTodo (Some st) params text t
     = {| table := t; answer := Responded 400 load_failed; calls := [("GetItem", text)] |}
  /\ dispatch dynamodb updateSingleTodo (Some st) params text t
     = {| table := t; answer := Responded 400 update_failed; calls := [("PutItem", text)] |}
  /\ dispatch dynamodb deleteSingleTodo (Some st) params text t
     = {| table := t; answer := Responded 400 delete_failed;
          calls := [("DeleteItem", text)] |}.
Proof.
  intros Hst. destruct (status_4xx st Hst) as [H2 H4].
  repeat split; classify H2 H4.
Qed.

Lemma fault_5xx :
  500 <= st <= 599 ->
  dispatch dynamodb getAllTodos (Some st) params text t
  = {| table := t; answer := Unhandled st; calls := [("Scan", text)] |}
  /\ dispatch dynamodb createTodo (Some st) params text t
     = {| table := t; answer := Unhandled st; calls := [("PutItem", text)] |}
  /\ dispatch dynamodb getSingleTodo (Some st) params text t
     = {| table := t; answer := Unhandled st; calls := [("GetItem", text)] |}
  /\ dispatch dynamodb updateSingleTodo (Some st) params text t
     = {| table := t; answer := Unhandled st; calls := [("PutItem", text)] |}
  /\ dispatch dynamodb deleteSingleTodo (Some st) params text t
     = {| table := t; answer := Unhandled st; calls := [("DeleteItem", text)] |}.
Proof.
  intros Hst. destruct (status_5xx st Hst) as [H2 H4].
  repeat split; classify H2 H4.
Qed.

(** Whatever the reply, a status from 400 to 499 selects the error of the
    operation. *)
Lemma respond_4xx (reply : DynamoDB.reply) :
  400 <= DynamoDB.status reply <= 499 ->
  respond (integrationResponses (integration getAllTodos)) params reply
  = Responded 400 load_failed
  /\ respond (integrationResponses (integration createTodo)) params reply
     = Responded 400 create_failed
  /\ respond (integrationResponses (integration getSingleTodo)) params reply
     = Responded 400 load_failed
  /\ respond (integrationResponses (integration updateSingleTodo)) params reply
     = Responded 400 update_failed
  /\ respond (integrationResponses (integration deleteSingleTodo)) params reply
     = Responded 400 delete_failed.
Proof.
  intros Hst. destruct (status_4xx _ Hst) as [H2 H4].
  unfold respond, select.
  cbn [integrationResponses integration
       getAllTodos createTodo getSingleTodo updateSingleTodo deleteSingleTodo
       List.find selectionPattern].
  rewrite H2, H4. repeat split; reflexivity.
Qed.

Lemma failure_status f :
  (forall st, f <> DynamoDB.Fault st) -> DynamoDB.status (DynamoDB.Failure f) = 400.
Proof. intros Hf. destruct f; try reflexivity. now destruct (Hf status). Qed.

End Faults.

Section Statuses.

Lemma constant_template text c :
  Vtl.run [Vtl.Text text] c = ((text ++ EmptyString)%string, c).
Proof. reflexivity. Qed.

(** The single-item template overrides the status with 400 or not at all. *)
Lemma single_template_status input params :
  let c := snd (Vtl.run
                  [ Vtl.SetVar "todo" (Vtl.InputPath ["Item"]);
                    Vtl.If (Vtl.Eq (Vtl.Ref "todo" []) (Vtl.Lit EmptyString))
                      [ Vtl.SetStatus 400; Vtl.Text load_failed ]
                      todoObject ]
                  (Vtl.initial input params)) in
  Vtl.responseOverride c = None \/ Vtl.responseOverride c = Some 400.
Proof.
  unfold Vtl.run. rewrite sequence_cons.
  simpl (Vtl.run1 (Vtl.SetVar _ _) _). cbv beta iota.
  rewrite sequence_cons. simpl (Vtl.run1 (Vtl.If _ _ _) _).
  match goal with |- context [if ?b then _ else _] => destruct b end;
    [right|left]; reflexivity.
Qed.

(** The list template never overrides the status. *)
Lemma list_template_status input params :
  Vtl.responseOverride
    (snd (Vtl.run
            [ Vtl.SetVar "inputRoot" (Vtl.InputPath []);
              Vtl.Text "[ ";
              Vtl.Foreach "todo" (Vtl.Ref "inputRoot" ["Items"]) todoRow;
              Vtl.Text "]" ]
            (Vtl.initial input params))) = None.
Proof.
  unfold Vtl.run. rewrite sequence_cons.
  simpl (Vtl.run1 (Vtl.SetVar _ _) _). cbv beta iota.
  rewrite sequence_cons. simpl (Vtl.run1 (Vtl.Text _) _). cbv beta iota.
  rewrite sequence_cons.
  simpl (Vtl.run1 (Vtl.Foreach _ _ _) _).
  destruct (Json.field "Items" input) as [[| | | |items|]|]; try reflexivity.
  match goal with
  | |- context [Vtl.iterate ?f ?v ?l ?c] =>
      change (Vtl.iterate f v l c)
        with (Vtl.iterate (Vtl.sequence Vtl.run1 todoRow) "todo" l c);
      destruct (iterate_rows l c) as [_ Hover];
      destruct (Vtl.iterate (Vtl.sequence Vtl.run1 todoRow) "todo" l c) as [out c2]
  end.
  cbn [snd] in Hover. cbv beta iota.
  change (Vtl.sequence Vtl.run1 [Vtl.Text "]"] c2) with ("]", c2).
  cbv beta iota. cbn [snd]. now rewrite Hover.
Qed.

(** An answer given through an integration response has status 200 or 400. *)
Lemma respond_status m params reply code text :
  In m [getAllTodos; createTodo; getSingleTodo; updateSingleTodo; deleteSingleTodo] ->
  respond (integrationResponses (integration m)) params reply = Responded code text ->
  code = 200 \/ code = 400.
Proof.
  intros Hm. unfold respond.
  destruct (select (integrationResponses (integration m)) (DynamoDB.status reply))
    as [r|] eqn:Hsel; [|discriminate].
  apply find_some in Hsel as [Hin _].
  destruct (Vtl.run (responseTemplates r) (Vtl.initial (DynamoDB.payload reply) params))
    as [out c] eqn:Hrun.
  intros Heq. injection Heq as <- _.
  assert (Hc : c = snd (Vtl.run (responseTemplates r)
                          (Vtl.initial (DynamoDB.payload reply) params)))
    by now rewrite Hrun.
  clear Hrun.
  subst c. cbn in Hm.
  destruct Hm as [<-|[<-|[<-|[<-|[<-|[]]]]]];
    cbn [integrationResponses integration getAllTodos createTodo getSingleTodo
         updateSingleTodo deleteSingleTodo] in Hin;
    destruct Hin as [<-|[<-|[]]];
    cbn [responseTemplates statusCode];
    first
      [ rewrite constant_template; first [left; reflexivity | right; reflexivity]
      | rewrite list_template_status; left; reflexivity
      | destruct (single_template_status (DynamoDB.payload reply) params) as [H|H];
        [left; exact (f_equal (default 200) H) | right; exact (f_equal (default 200) H)] ].
Qed.

(** So has every answer of the API. *)
Lemma handle_status fault t r code text :
  answer (handle fault t r) = Responded code text -> code = 200 \/ code = 400.
Proof.
  unfold handle, route.
  destruct (resource r) as [|a [|b [|todoId [|]]]]; try discriminate.
  - destruct (String.eqb a "v1" && String.eqb b "todo"); [|discriminate].
    destruct (httpMethod r); try discriminate; unfold invoke;
      match goal with |- context [rejects ?m ?b] => destruct (rejects m b) end;
      try discriminate; unfold dispatch;
      match goal with |- context [DynamoDB.call ?p ?f ?a ?x ?t] =>
        destruct (DynamoDB.call p f a x t) as [t' reply] end;
      cbn [answer]; apply respond_status; cbn; tauto.
  - destruct (String.eqb a "v1" && String.eqb b "todo"
              && negb (String.eqb todoId EmptyString)); [|discriminate].
    destruct (httpMethod r); try discriminate; unfold invoke;
      match goal with |- context [rejects ?m ?b] => destruct (rejects m b) end;
      try discriminate; unfold dispatch;
      match goal with |- context [DynamoDB.call ?p ?f ?a ?x ?t] =>
        destruct (DynamoDB.call p f a x t) as [t' reply] end;
      cbn [answer]; apply respond_status; cbn; tauto.
Qed.

End Statuses.

Section Single.

Lemma decode_status action text f :
  DynamoDB.decode dynamodb action text = inl f ->
  DynamoDB.status (DynamoDB.Failure f) = 400.
Proof.
  intros H.
  unfold DynamoDB.decode, DynamoDB.decode_action, DynamoDB.decode_limit,
    DynamoDB.decode_condition in H.
  repeat (split_match H; try discriminate H); now simplify_eq.
Qed.

Lemma decode_get text r :
  DynamoDB.decode dynamodb "GetItem" text = inr r -> exists k, r = DynamoDB.GetItem k.
Proof.
  unfold DynamoDB.decode.
  destruct (Json.parse text) as [read|]; [|discriminate].
  generalize (Json.normal read). intros j.
  destruct (Json.field "TableName" j) as [[]|]; try discriminate.
  destruct (String.eqb s (DynamoDB.tableName dynamodb)); [|discriminate].
  unfold DynamoDB.decode_action.
  change (String.eqb "GetItem" "Scan") with false.
  change (String.eqb "GetItem" "PutItem") with false.
  change (String.eqb "GetItem" "GetItem") with true. cbv beta iota.
  destruct (Json.field "Key" j) as [[]|]; try discriminate.
  intros [= <-]. now eexists.
Qed.

Lemma decode_scan text r :
  DynamoDB.decode dynamodb "Scan" text = inr r -> exists limit, r = DynamoDB.Scan limit.
Proof.
  unfold DynamoDB.decode.
  destruct (Json.parse text) as [read|]; [|discriminate].
  generalize (Json.normal read). intros j.
  destruct (Json.field "TableName" j) as [[]|]; try discriminate.
  destruct (String.eqb s (DynamoDB.tableName dynamodb)); [|discriminate].
  unfold DynamoDB.decode_action.
  change (String.eqb "Scan" "Scan") with true. cbv beta iota.
  destruct (DynamoDB.decode_limit j); [discriminate|].
  intros [= <-]. now eexists.
Qed.

Lemma decode_put text r :
  DynamoDB.decode dynamodb "PutItem" text = inr r -> exists it c, r = DynamoDB.PutItem it c.
Proof.
  unfold DynamoDB.decode.
  destruct (Json.parse text) as [read|]; [|discriminate].
  generalize (Json.normal read). intros j.
  destruct (Json.field "TableName" j) as [[]|]; try discriminate.
  destruct (String.eqb s (DynamoDB.tableName dynamodb)); [|discriminate].
  unfold DynamoDB.decode_action.
  change (String.eqb "PutItem" "Scan") with false.
  change (String.eqb "PutItem" "PutItem") with true. cbv beta iota.
  destruct (Json.field "Item" j) as [[]|]; try discriminate;
    destruct (DynamoDB.decode_condition j); try discriminate.
  intros [= <-]. now eexists _, _.
Qed.

Lemma decode_delete text r :
  DynamoDB.decode dynamodb "DeleteItem" text = inr r ->
  exists k c, r = DynamoDB.DeleteItem k c.
Proof.
  unfold DynamoDB.decode.
  destruct (Json.parse text) as [read|]; [|discriminate].
  generalize (Json.normal read). intros j.
  destruct (Json.field "TableName" j) as [[]|]; try discriminate.
  destruct (String.eqb s (DynamoDB.tableName dynamodb)); [|discriminate].
  unfold DynamoDB.decode_action.
  change (String.eqb "DeleteItem" "Scan") with false.
  change (String.eqb "DeleteItem" "PutItem") with false.
  change (String.eqb "DeleteItem" "GetItem") with false.
  change (String.eqb "DeleteItem" "DeleteItem") with true. cbv beta iota.
  destruct (Json.field "Key" j) as [[]|]; try discriminate;
    destruct (DynamoDB.decode_condition j); try discriminate.
  intros [= <-]. now eexists _, _.
Qed.

(** A call that changes the table is a put or a delete that succeeds. *)
Lemma call_changes fault action text t :
  In action ["Scan"; "PutItem"; "GetItem"; "DeleteItem"] ->
  fst (DynamoDB.call dynamodb fault action text t) = t
  \/ (snd (DynamoDB.call dynamodb fault action text t) = DynamoDB.Success (JObj [])
      /\ (action = "PutItem" \/ action = "DeleteItem")).
Proof.
  intros Hin. unfold DynamoDB.call. destruct fault; [now left|].
  destruct (DynamoDB.decode dynamodb action text) as [f|r] eqn:Hdec; [now left|].
  cbn in Hin. destruct Hin as [<-|[<-|[<-|[<-|[]]]]].
  - destruct (decode_scan _ _ Hdec) as [limit ->]. now left.
  - destruct (decode_put _ _ Hdec) as (it & c & ->). unfold DynamoDB.run.
    destruct (DynamoDB.key_of dynamodb it) as [k|]; [|now left].
    destruct (DynamoDB.holds c (t !! k)); [right; auto|now left].
  - destruct (decode_get _ _ Hdec) as [k ->]. unfold DynamoDB.run.
    destruct (DynamoDB.key_of dynamodb k) as [k0|]; [|now left].
    destruct (t !! k0); now left.
  - destruct (decode_delete _ _ Hdec) as (k & c & ->). unfold DynamoDB.run.
    destruct (DynamoDB.key_of dynamodb k) as [k0|]; [|now left].
    destruct (DynamoDB.holds c (t !! k0)); [right; auto|now left].
Qed.

(** A request that is answered with HTTP 400 has left the table as it was. *)
Lemma failure_leaves_table fault t r body :
  answer (handle fault t r) = Responded 400 body -> table (handle fault t r) = t.
Proof.
  unfold handle, route.
  destruct (resource r) as [|a [|b [|todoId [|]]]]; try discriminate.
  - destruct (String.eqb a "v1" && String.eqb b "todo"); [|discriminate].
    destruct (httpMethod r); try discriminate; unfold invoke;
      match goal with |- context [rejects ?m ?b] => destruct (rejects m b) end;
      try discriminate; unfold dispatch;
      cbn [action integration getAllTodos createTodo];
      match goal with |- context [DynamoDB.call ?p ?f ?a ?x ?t] =>
        destruct (call_changes f a x t) as [Hsame|[Hok _]]; [cbn; tauto| |];
        destruct (DynamoDB.call p f a x t) as [t' reply]; cbn [fst snd] in *;
        subst; try reflexivity
      end; discriminate.
  - destruct (String.eqb a "v1" && String.eqb b "todo"
              && negb (String.eqb todoId EmptyString)); [|discriminate].
    destruct (httpMethod r); try discriminate; unfold invoke;
      match goal with |- context [rejects ?m ?b] => destruct (rejects m b) end;
      try discriminate; unfold dispatch;
      cbn [action integration getSingleTodo updateSingleTodo deleteSingleTodo];
      match goal with |- context [DynamoDB.call ?p ?f ?a ?x ?t] =>
        destruct (call_changes f a x t) as [Hsame|[Hok [Hput|Hdel]]]; [cbn; tauto| | |];
        destruct (DynamoDB.call p f a x t) as [t' reply]; cbn [fst snd] in *;
        subst; try reflexivity; try discriminate
      end.
Qed.

(** A failure with status 400 gets the error of the operation. *)
Lemma get_failed params f :
  DynamoDB.status (DynamoDB.Failure f) = 400 ->
  respond (integrationResponses (integration getSingleTodo)) params (DynamoDB.Failure f)
  = Responded 400 load_failed.
Proof.
  intros Hst. unfold respond, select. rewrite Hst. reflexivity.
Qed.

(** The single-item response for a stored object. *)
Lemma get_found_object params fields :
  respond (integrationResponses (integration getSingleTodo)) params
    (DynamoDB.Success (JObj [("Item", JObj fields)]))
  = Responded 200 (todo_text (attr (JObj fields) "id") (attr (JObj fields) "title")
                     (attr (JObj fields) "description")).
Proof.
  transitivity (Responded 200
                  (todo_text (attr (JObj fields) "id") (attr (JObj fields) "title")
                     (attr (JObj fields) "description") ++ EmptyString));
    [reflexivity|].
  now rewrite append_empty.
Qed.

Lemma keyed_object t k it :
  keyed t = true -> t !! k = Some it -> exists fields, it = JObj fields.
Proof.
  intros Hk Hl. pose proof (keyed_lookup t k it Hk Hl) as Hkey.
  apply key_of_has_id in Hkey. unfold DynamoDB.has_attribute in Hkey.
  destruct it; try discriminate Hkey. now eexists.
Qed.

Lemma key_of_attr it k :
  DynamoDB.key_of dynamodb it = Some k -> attr it "id" = k.
Proof.
  intros Hkey. apply attr_string. unfold string_attr.
  unfold DynamoDB.key_of in Hkey.
  cbn [dynamodb DynamoDB.partitionKey DynamoDB.type_tag] in Hkey.
  destruct (Json.path ["id"; "S"] it) as [[]|]; try discriminate Hkey.
  destruct (String.eqb s EmptyString); [discriminate Hkey|]. exact Hkey.
Qed.

Lemma handle_get_route fault t p :
  handle fault t (get p)
  = if nonempty p
    then dispatch dynamodb getSingleTodo fault [("todoId", p)] (get_text p) t
    else {| table := t; answer := NoRoute; calls := [] |}.
Proof.
  unfold nonempty, handle, route, get. cbn [resource httpMethod body].
  now destruct (String.eqb p EmptyString).
Qed.

(** Whatever the id, GET answers with the loading error, or with an item
    that the table holds. *)
Lemma get_answers t i code body :
  keyed t = true ->
  answer (handle None t (get i)) = Responded code body ->
  (code = 400 /\ body = load_failed)
  \/ (code = 200
      /\ exists k it, t !! k = Some it
           /\ attr it "id" = k
           /\ body = todo_text (attr it "id") (attr it "title") (attr it "description")).
Proof.
  intros Hk. rewrite handle_get_route.
  destruct (nonempty i); [|discriminate].
  unfold dispatch. cbn [action integration getSingleTodo]. unfold DynamoDB.call.
  destruct (DynamoDB.decode dynamodb "GetItem" (get_text i)) as [f|r] eqn:Hdec.
  - cbn [answer]. rewrite get_failed by (now apply decode_status with (1 := Hdec)).
    intros [= <- <-]. now left.
  - destruct (decode_get _ _ Hdec) as [key ->]. unfold DynamoDB.run.
    destruct (DynamoDB.key_of dynamodb key) as [k|].
    + destruct (t !! k) as [it|] eqn:Hl.
      * destruct (keyed_object t k it Hk Hl) as [fields ->].
        cbn [answer]. rewrite get_found_object. intros [= <- <-]. right.
        split; [reflexivity|]. exists k, (JObj fields).
        split; [exact Hl|]. split; [|reflexivity].
        apply key_of_attr. now apply keyed_lookup with (t := t).
      * cbn [answer].
        change (respond (integrationResponses (integration getSingleTodo))
                  [("todoId", i)] (DynamoDB.Success (JObj [])))
          with (Responded 400 load_failed).
        intros [= <- <-]. now left.
    + cbn [answer]. rewrite get_failed by reflexivity. intros [= <- <-]. now left.
Qed.

End Single.

(** * Properties of the API *)

(** C1 (as amended).  For an id, title and description free of double
    quotes, backslashes and control characters, against a table that keys
    every item by its id: when the id is already stored, creating it fails
    with HTTP 400 and the creation error and leaves the table as it was,
    while updating and deleting it succeed with HTTP 200; when the id is
    not stored, creating it succeeds with HTTP 200, while updating and
    deleting it fail with HTTP 400, the error of the operation, and an
    unchanged table.  What the table reports in the failing cases is a
    conditional-check failure.  Whatever the values, a request answered
    with HTTP 400 has left the table as it was. *)
Theorem conditional_check (t : gmap string json) (b u : json) (i ui ti d : string) :
  keyed t = true ->
  plain i = true -> nonempty i = true -> plain ti = true -> plain d = true ->
  carries b i ti d -> carries u ui ti d ->
  (let refused := DynamoDB.Failure DynamoDB.ConditionalCheckFailedException in
   match t !! i with
   | Some _ =>
       handle None t (create b)
       = {| table := t; answer := Responded 400 create_failed;
            calls := [("PutItem", put_text "attribute_not_exists(id)" i ti d)] |}
       /\ snd (DynamoDB.call dynamodb None "PutItem"
                 (put_text "attribute_not_exists(id)" i ti d) t) = refused
       /\ handle None t (update i u)
          = {| table := <[i := item i ti d]> t; answer := Responded 200 updated;
               calls := [("PutItem", put_text "attribute_exists(id)" i ti d)] |}
       /\ handle None t (remove i)
          = {| table := delete i t; answer := Responded 200 deleted;
               calls := [("DeleteItem", delete_text i)] |}
   | None =>
       handle None t (create b)
       = {| table := <[i := item i ti d]> t; answer := Responded 200 created;
            calls := [("PutItem", put_text "attribute_not_exists(id)" i ti d)] |}
       /\ handle None t (update i u)
          = {| table := t; answer := Responded 400 update_failed;
               calls := [("PutItem", put_text "attribute_exists(id)" i ti d)] |}
       /\ snd (DynamoDB.call dynamodb None "PutItem"
                 (put_text "attribute_exists(id)" i ti d) t) = refused
       /\ handle None t (remove i)
          = {| table := t; answer := Responded 400 delete_failed;
               calls := [("DeleteItem", delete_text i)] |}
       /\ snd (DynamoDB.call dynamodb None "DeleteItem" (delete_text i) t) = refused
   end)
  /\ (forall fault r body,
        answer (handle fault t r) = Responded 400 body -> table (handle fault t r) = t).
Proof.
  intros Hk Hi Hne Ht Hd Hb Hu.
  split; [|intros fault r body; apply failure_leaves_table].
  cbv zeta.
  rewrite (handle_create None t b i ti d Hb).
  rewrite (handle_update None t i u ui ti d Hne Hu).
  rewrite (handle_remove None t i Hne).
  unfold dispatch.
  cbn [action integration createTodo updateSingleTodo deleteSingleTodo].
  rewrite call_create, call_update, call_delete by assumption.
  rewrite (keyed_has_id t i Hk).
  destruct (t !! i) as [old|]; cbn [is_Some_bool]; repeat split; reflexivity.
Qed.

Lemma conditional_check_witness :
  (keyed one_todo = true
   /\ plain "1" = true /\ nonempty "1" = true /\ plain "A" = true /\ plain "B" = true
   /\ carries (todo "1" "A" "B") "1" "A" "B" /\ carries (todo "7" "A" "B") "7" "A" "B")
  /\ handle None one_todo (create (todo "1" "A" "B"))
     = {| table := one_todo; answer := Responded 400 create_failed;
          calls := [("PutItem", put_text "attribute_not_exists(id)" "1" "A" "B")] |}
  /\ snd (DynamoDB.call dynamodb None "PutItem"
            (put_text "attribute_not_exists(id)" "1" "A" "B") one_todo)
     = DynamoDB.Failure DynamoDB.ConditionalCheckFailedException
  /\ handle None one_todo (update "1" (todo "7" "A" "B"))
     = {| table := <["1" := item "1" "A" "B"]> one_todo; answer := Responded 200 updated;
          calls := [("PutItem", put_text "attribute_exists(id)" "1" "A" "B")] |}
  /\ handle None one_todo (remove "1")
     = {| table := delete "1" one_todo; answer := Responded 200 deleted;
          calls := [("DeleteItem", delete_text "1")] |}.
Proof.
  split; [repeat split; reflexivity|].
  apply (conditional_check one_todo (todo "1" "A" "B") (todo "7" "A" "B") "1" "7" "A" "B");
    first [reflexivity | repeat split; reflexivity].
Defined.

(** C1, as stated, fails: the id made of one double quote is not stored in
    the empty table, yet creating it is answered with HTTP 400. *)
Lemma create_quote_id_fails :
  (∅ : gmap string json) !! quote = None
  /\ answer (handle None ∅ (create (todo quote "A" "B"))) = Responded 400 create_failed.
Proof. split; [apply lookup_empty|]. vm_compute. reflexivity. Qed.

(** C2.  For an id, title and description that are well-formed string
    values (no double quote, backslash or control character; the id not
    empty), a create that is answered with HTTP 200 is followed by a GET of
    that id answered with HTTP 200 and exactly the object made of the id,
    the title and the description. *)
Theorem create_then_get (t : gmap string json) (b : json) (i ti d : string) :
  plain i = true -> nonempty i = true -> plain ti = true -> plain d = true ->
  carries b i ti d ->
  answer (handle None t (create b)) = Responded 200 created ->
  handle None (table (handle None t (create b))) (get i)
  = {| table := <[i := item i ti d]> t;
       answer := Responded 200 (todo_text i ti d);
       calls := [("GetItem", get_text i)] |}
  /\ Json.parse (todo_text i ti d) = Some (todo i ti d).
Proof.
  intros Hi Hne Ht Hd Hb.
  rewrite (handle_create None t b i ti d Hb).
  unfold dispatch at 1 2.
  cbn [action integration createTodo].
  rewrite call_create by assumption.
  destruct (DynamoDB.has_attribute "id" (t !! i)).
  - cbn [answer]. intros Hok. exfalso.
    change (Responded 400 create_failed = Responded 200 created) in Hok.
    injection Hok as Hst _. lia.
  - intros _. cbn [table]. split; [|now apply parse_todo_text].
    rewrite (handle_get None _ i Hne). unfold dispatch.
    cbn [action integration getSingleTodo].
    rewrite call_get by assumption. rewrite lookup_insert_eq.
    now rewrite get_found.
Qed.

Lemma create_then_get_witness :
  (plain "1" = true /\ nonempty "1" = true /\ plain "A" = true /\ plain "B" = true
   /\ carries (todo "1" "A" "B") "1" "A" "B"
   /\ answer (handle None ∅ (create (todo "1" "A" "B"))) = Responded 200 created)
  /\ handle None (table (handle None ∅ (create (todo "1" "A" "B")))) (get "1")
     = {| table := <["1" := item "1" "A" "B"]> ∅;
          answer := Responded 200 (todo_text "1" "A" "B");
          calls := [("GetItem", get_text "1")] |}
  /\ Json.parse (todo_text "1" "A" "B") = Some (todo "1" "A" "B").
Proof.
  split; [repeat split; reflexivity|].
  apply (create_then_get ∅ (todo "1" "A" "B") "1" "A" "B");
    first [reflexivity | repeat split; reflexivity].
Defined.

(** C3 (as amended).  For a non-empty id free of double quotes,
    backslashes and control characters under which nothing is stored, GET
    of that id is answered with HTTP 400 and the fixed loading error, and
    the table is left as it was.  Whatever the id, GET is answered either
    with that error or with HTTP 200 and an item that the table holds,
    never with HTTP 200 and an empty or null object. *)
Theorem get_missing (t : gmap string json) (i : string) :
  keyed t = true ->
  plain i = true -> nonempty i = true ->
  t !! i = None ->
  handle None t (get i)
  = {| table := t; answer := Responded 400 load_failed;
       calls := [("GetItem", get_text i)] |}
  /\ forall j code body,
       answer (handle None t (get j)) = Responded code body ->
       (code = 400 /\ body = load_failed)
       \/ (code = 200
           /\ exists k it, t !! k = Some it
                /\ attr it "id" = k
                /\ body = todo_text (attr it "id") (attr it "title")
                            (attr it "description")).
Proof.
  intros Hk Hi Hne Hnone. split; [|intros j code body; now apply get_answers].
  rewrite (handle_get None t i Hne). unfold dispatch.
  cbn [action integration getSingleTodo].
  rewrite call_get by assumption. rewrite Hnone. reflexivity.
Qed.

Lemma get_missing_witness :
  (keyed one_todo = true /\ plain "2" = true /\ nonempty "2" = true
   /\ one_todo !! "2" = None)
  /\ handle None one_todo (get "2")
     = {| table := one_todo; answer := Responded 400 load_failed;
          calls := [("GetItem", get_text "2")] |}.
Proof.
  split; [repeat split; reflexivity|].
  apply (get_missing one_todo "2"); reflexivity.
Defined.

(** C3, as stated, fails: nothing is stored under the id made of two
    backslashes, yet its GET is answered with HTTP 200 and the item stored
    under a single backslash. *)
Lemma get_escaped_id_found :
  backslash_todo !! (backslash ++ backslash) = None
  /\ answer (handle None backslash_todo (get (backslash ++ backslash)))
     = Responded 200 (todo_text backslash "A" "B").
Proof. split; vm_compute; reflexivity. Qed.




(** C5 (as amended).  For an update, a body with id, title and description
    as strings passes the validator and is sent to the table, with the id
    of the path in the payload; a body without a string id is refused
    before anything is sent, whatever its title and description. *)
Theorem update_body (fault : option nat) (t : gmap string json) (p : string)
  (b b' : json) (bi ti d : string) :
  nonempty p = true ->
  carries b bi ti d ->
  (forall v, Json.field "id" b' <> Some (JStr v)) ->
  rejects updateSingleTodo b = false
  /\ calls (handle fault t (update p b))
     = [("PutItem", put_text "attribute_exists(id)" p ti d)]
  /\ handle fault t (update p b')
     = {| table := t; answer := Rejected 400 invalid_request_body; calls := [] |}.
Proof.
  intros Hp Hb Hno. split; [|split].
  - unfold rejects.
    cbn [requestValidator requestModels updateSingleTodo validateRequestBody
         requestBodyValidator].
    now rewrite (carries_valid b bi ti d Hb).
  - rewrite (handle_update fault t p b bi ti d Hp Hb). unfold dispatch.
    now destruct (DynamoDB.call dynamodb fault
                    (action (integration updateSingleTodo))
                    (put_text "attribute_exists(id)" p ti d) t).
  - rewrite handle_update_route, Hp.
    assert (Hin : In "id" ["id"; "title"; "description"]) by (cbn; tauto).
    destruct (refused fault t b' "id" Hin Hno) as [_ Hupdate]. apply Hupdate.
Qed.

Lemma update_body_witness :
  (nonempty "1" = true
   /\ carries (todo "7" "A2" "B2") "7" "A2" "B2"
   /\ forall v, Json.field "id" (JObj [("title", JStr "A2"); ("description", JStr "B2")])
                <> Some (JStr v))
  /\ rejects updateSingleTodo (todo "7" "A2" "B2") = false
  /\ calls (handle None one_todo (update "1" (todo "7" "A2" "B2")))
     = [("PutItem", put_text "attribute_exists(id)" "1" "A2" "B2")]
  /\ handle None one_todo
       (update "1" (JObj [("title", JStr "A2"); ("description", JStr "B2")]))
     = {| table := one_todo; answer := Rejected 400 invalid_request_body; calls := [] |}.
Proof.
  split; [split; [reflexivity | split; [repeat split; reflexivity | intros v; discriminate]]|].
  apply (update_body None one_todo "1" (todo "7" "A2" "B2")
           (JObj [("title", JStr "A2"); ("description", JStr "B2")]) "7" "A2" "B2");
    first [reflexivity | repeat split; reflexivity | intros v; discriminate].
Defined.

(** C5, as stated, fails: a body with title and description as strings and
    no id is refused by the validator and nothing is sent to the table. *)
Lemma update_without_body_id_refused :
  handle None one_todo
    (update "1" (JObj [("title", JStr "A2"); ("description", JStr "B2")]))
  = {| table := one_todo; answer := Rejected 400 invalid_request_body; calls := [] |}.
Proof. vm_compute. reflexivity. Qed.

(** C6 (as amended).  A create request whose body lacks one of id, title
    and description, or has something other than a string for one of them,
    is refused with HTTP 400 and no call to the table is made; the table is
    left as it was. *)
Theorem create_refused (fault : option nat) (t : gmap string json) (b : json)
  (name : string) :
  In name ["id"; "title"; "description"] ->
  (forall v, Json.field name b <> Some (JStr v)) ->
  handle fault t (create b)
  = {| table := t; answer := Rejected 400 invalid_request_body; calls := [] |}.
Proof.
  intros Hin Hno.
  destruct (refused fault t b name Hin Hno) as [Hcreate _]. exact Hcreate.
Qed.

Lemma create_refused_witness :
  (In "description" ["id"; "title"; "description"]
   /\ forall v, Json.field "description" (JObj [("id", JStr "1"); ("title", JStr "A")])
                <> Some (JStr v))
  /\ handle None ∅ (create (JObj [("id", JStr "1"); ("title", JStr "A")]))
     = {| table := ∅; answer := Rejected 400 invalid_request_body; calls := [] |}.
Proof.
  split; [split; [cbn; tauto | intros v; discriminate]|].
  apply (create_refused None ∅ (JObj [("id", JStr "1"); ("title", JStr "A")]) "description");
    [cbn; tauto | intros v; discriminate].
Defined.

(** C6, as stated, fails for the empty string: a body whose title is the
    empty string passes the validator, is sent to the table and is answered
    with HTTP 200. *)
Lemma create_empty_title_accepted :
  Schema.validate (schema todoModel) (todo "1" EmptyString "B") = true
  /\ answer (handle None ∅ (create (todo "1" EmptyString "B"))) = Responded 200 created
  /\ calls (handle None ∅ (create (todo "1" EmptyString "B")))
     = [("PutItem", put_text "attribute_not_exists(id)" "1" EmptyString "B")].
Proof. repeat split; vm_compute; reflexivity. Qed.

(** C7 (as amended).  A failure that the table reports with a status from
    400 to 499 is answered with HTTP 400 and the error body of the
    operation, and the table is left as it was; so is every failure of the
    table's own (a conditional check, a payload it cannot read), whose
    status is 400.  Every answer given through an integration response has
    status 200 or 400.  A failure reported with a status from 500 to 599
    matches neither selection pattern, so no integration response, and no
    HTTP 400, is produced for it. *)
Theorem store_failures (t : gmap string json) (st : nat) (b : json) (i ti d p : string) :
  carries b i ti d -> nonempty p = true ->
  (400 <= st <= 499 ->
   handle (Some st) t list_todos
   = {| table := t; answer := Responded 400 load_failed; calls := [("Scan", scan_text)] |}
   /\ handle (Some st) t (create b)
      = {| table := t; answer := Responded 400 create_failed;
           calls := [("PutItem", put_text "attribute_not_exists(id)" i ti d)] |}
   /\ handle (Some st) t (get p)
      = {| table := t; answer := Responded 400 load_failed;
           calls := [("GetItem", get_text p)] |}
   /\ handle (Some st) t (update p b)
      = {| table := t; answer := Responded 400 update_failed;
           calls := [("PutItem", put_text "attribute_exists(id)" p ti d)] |}
   /\ handle (Some st) t (remove p)
      = {| table := t; answer := Responded 400 delete_failed;
           calls := [("DeleteItem", delete_text p)] |})
  /\ (forall params f,
        (forall code, f <> DynamoDB.Fault code) ->
        DynamoDB.status (DynamoDB.Failure f) = 400
        /\ respond (integrationResponses (integration getAllTodos)) params
             (DynamoDB.Failure f) = Responded 400 load_failed
        /\ respond (integrationResponses (integration createTodo)) params
             (DynamoDB.Failure f) = Responded 400 create_failed
        /\ respond (integrationResponses (integration getSingleTodo)) params
             (DynamoDB.Failure f) = Responded 400 load_failed
        /\ respond (integrationResponses (integration updateSingleTodo)) params
             (DynamoDB.Failure f) = Responded 400 update_failed
        /\ respond (integrationResponses (integration deleteSingleTodo)) params
             (DynamoDB.Failure f) = Responded 400 delete_failed)
  /\ (forall fault r code text,
        answer (handle fault t r) = Responded code text -> code = 200 \/ code = 400)
  /\ (500 <= st <= 599 ->
      answer (handle (Some st) t list_todos) = Unhandled st
      /\ answer (handle (Some st) t (create b)) = Unhandled st
      /\ answer (handle (Some st) t (get p)) = Unhandled st
      /\ answer (handle (Some st) t (update p b)) = Unhandled st
      /\ answer (handle (Some st) t (remove p)) = Unhandled st).
Proof.
  intros Hb Hp.
  change (handle (Some st) t list_todos)
    with (dispatch dynamodb getAllTodos (Some st) [] scan_text t).
  rewrite (handle_create (Some st) t b i ti d Hb).
  rewrite (handle_get (Some st) t p Hp).
  rewrite (handle_update (Some st) t p b i ti d Hp Hb).
  rewrite (handle_remove (Some st) t p Hp).
  split; [|split; [|split]].
  - intros Hst.
    destruct (fault_4xx t st [] scan_text Hst) as (Hlist & _).
    destruct (fault_4xx t st [] (put_text "attribute_not_exists(id)" i ti d) Hst)
      as (_ & Hcreate & _).
    destruct (fault_4xx t st [("todoId", p)] (get_text p) Hst) as (_ & _ & Hget & _).
    destruct (fault_4xx t st [("todoId", p)] (put_text "attribute_exists(id)" p ti d) Hst)
      as (_ & _ & _ & Hupdate & _).
    destruct (fault_4xx t st [("todoId", p)] (delete_text p) Hst)
      as (_ & _ & _ & _ & Hdelete).
    now rewrite Hlist, Hcreate, Hget, Hupdate, Hdelete.
  - intros params f Hf. pose proof (failure_status f Hf) as Hst.
    split; [exact Hst|]. apply respond_4xx. rewrite Hst. lia.
  - intros fault r code text. apply handle_status.
  - intros Hst.
    destruct (fault_5xx t st [] scan_text Hst) as (Hlist & _).
    destruct (fault_5xx t st [] (put_text "attribute_not_exists(id)" i ti d) Hst)
      as (_ & Hcreate & _).
    destruct (fault_5xx t st [("todoId", p)] (get_text p) Hst) as (_ & _ & Hget & _).
    destruct (fault_5xx t st [("todoId", p)] (put_text "attribute_exists(id)" p ti d) Hst)
      as (_ & _ & _ & Hupdate & _).
    destruct (fault_5xx t st [("todoId", p)] (delete_text p) Hst)
      as (_ & _ & _ & _ & Hdelete).
    now rewrite Hlist, Hcreate, Hget, Hupdate, Hdelete.
Qed.

Lemma store_failures_witness :
  (carries (todo "2" "A" "B") "2" "A" "B" /\ nonempty "1" = true /\ 400 <= 429 <= 499)
  /\ handle (Some 429) one_todo list_todos
     = {| table := one_todo; answer := Responded 400 load_failed;
          calls := [("Scan", scan_text)] |}
  /\ handle (Some 429) one_todo (create (todo "2" "A" "B"))
     = {| table := one_todo; answer := Responded 400 create_failed;
          calls := [("PutItem", put_text "attribute_not_exists(id)" "2" "A" "B")] |}
  /\ handle (Some 429) one_todo (get "1")
     = {| table := one_todo; answer := Responded 400 load_failed;
          calls := [("GetItem", get_text "1")] |}
  /\ handle (Some 429) one_todo (update "1" (todo "2" "A" "B"))
     = {| table := one_todo; answer := Responded 400 update_failed;
          calls := [("PutItem", put_text "attribute_exists(id)" "1" "A" "B")] |}
  /\ handle (Some 429) one_todo (remove "1")
     = {| table := one_todo; answer := Responded 400 delete_failed;
          calls := [("DeleteItem", delete_text "1")] |}.
Proof.
  split; [repeat split; first [reflexivity | lia]|].
  apply (store_failures one_todo 429 (todo "2" "A" "B") "2" "A" "B" "1");
    first [reflexivity | lia | repeat split; reflexivity].
Defined.

(** C7, as stated, fails: a failure reported with status 500 gets no
    integration response, so it is not answered with HTTP 400. *)
Lemma internal_fault_not_400 :
  answer (handle (Some 500) one_todo (remove "1")) = Unhandled 500
  /\ forall text, answer (handle (Some 500) one_todo (remove "1")) <> Responded 400 text.
Proof.
  assert (H : answer (handle (Some 500) one_todo (remove "1")) = Unhandled 500)
    by (vm_compute; reflexivity).
  split; [exact H|]. intros text. rewrite H. discriminate.
Qed.

(** C8.  The request templates put the id, the title and the description
    into the payload as they come, and there are values for which the
    payload is not an encoding of the intended request: with a double quote
    for title the create payload is not JSON at all, with [injected] for
    title it is a put of an item of four attributes, and with a double
    quote for id the payload of GET is not JSON. *)
Theorem interpolation_is_raw :
  (forall b,
     fst (Vtl.run (requestTemplates (integration createTodo)) (Vtl.initial b []))
     = put_text "attribute_not_exists(id)" (printed b "id") (printed b "title")
         (printed b "description"))
  /\ (forall p, fst (Vtl.run (requestTemplates (integration getSingleTodo))
                       (Vtl.initial JNull [("todoId", p)])) = get_text p)
  /\ (exists v,
        DynamoDB.decode dynamodb "PutItem"
          (fst (Vtl.run (requestTemplates (integration createTodo))
                  (Vtl.initial (todo "1" v "B") [])))
        = inl DynamoDB.SerializationException)
  /\ (exists v extra,
        extra <> item "1" v "B"
        /\ DynamoDB.decode dynamodb "PutItem"
             (fst (Vtl.run (requestTemplates (integration createTodo))
                     (Vtl.initial (todo "1" v "B") [])))
           = inr (DynamoDB.PutItem extra (Some (DynamoDB.AttributeNotExists "id"))))
  /\ (exists p,
        DynamoDB.decode dynamodb "GetItem"
          (fst (Vtl.run (requestTemplates (integration getSingleTodo))
                  (Vtl.initial JNull [("todoId", p)])))
        = inl DynamoDB.SerializationException).
Proof.
  split; [intros b; apply create_text|].
  split; [intros p; apply get_request_text|].
  split; [exists quote; vm_compute; reflexivity|].
  split.
  - exists injected.
    exists (JObj [("id", JObj [("S", JStr "1")]);
                  ("title", JObj [("S", JStr "x")]);
                  ("extra", JObj [("S", JStr "y")]);
                  ("description", JObj [("S", JStr "B")])]).
    split; [discriminate|]. vm_compute. reflexivity.
  - exists quote. vm_compute. reflexivity.
Qed.

(** C9 (as amended).  Whatever the table holds, GET of the list sends one
    scan with [Limit] 10, leaves the table as it was, and answers with HTTP
    200 and the text printed for each of at most ten items; whatever else
    the reply of the scan carries, a continuation key included, is not in
    the answer.  When the items of the table are printable, the body is a
    JSON array of that many elements, so of at most ten.  After fifteen
    to-dos with such values have been created, the scan does return a
    continuation key and the body is an array of ten elements. *)
Theorem list_is_bounded (t : gmap string json) :
  (exists items,
     handle None t list_todos
     = {| table := t; answer := Responded 200 (todos_text items);
          calls := [("Scan", scan_text)] |}
     /\ items = snd <$> take 10 (map_to_list t)
     /\ List.length items <= 10
     /\ (forallb printable (snd <$> map_to_list t) = true ->
         Json.parse (todos_text items) = Some (JArr (shown <$> items))))
  /\ Json.path ["Limit"] <$> Json.parse scan_text = Some (Some (JNum 10))
  /\ (forall items others,
        respond (integrationResponses (integration getAllTodos)) []
          (DynamoDB.Success (JObj (("Items", JArr items) :: others)))
        = Responded 200 (todos_text items))
  /\ exists key body elements,
       size fifteen_todos = 15
       /\ Json.field "LastEvaluatedKey"
            (DynamoDB.payload (snd (DynamoDB.call dynamodb None "Scan" scan_text fifteen_todos)))
          = Some key
       /\ answer (handle None fifteen_todos list_todos) = Responded 200 body
       /\ Json.parse body = Some (JArr elements)
       /\ List.length elements = 10.
Proof.
  split; [|split; [reflexivity|split; [apply list_response|]]].
  - exists (snd <$> take 10 (map_to_list t)).
    split; [|split; [reflexivity|split; [rewrite length_fmap, length_take; lia|]]].
    + change (handle None t list_todos)
        with (dispatch dynamodb getAllTodos None [] scan_text t).
      unfold dispatch. cbn [action integration getAllTodos].
      rewrite call_scan. now rewrite list_response.
    + intros Hall. apply parse_todos_text.
      rewrite forallb_forall in Hall. apply Forall_forall. intros it Hin.
      apply Hall, list_elem_of_In.
      apply list_elem_of_fmap in Hin as [[k it'] [-> Hin]].
      apply list_elem_of_fmap. exists (k, it'). split; [reflexivity|].
      apply (subseteq_take 10). exact Hin.
  - eexists. eexists. eexists. split; [vm_compute; reflexivity|].
    split; [vm_compute; reflexivity|].
    split; [vm_compute; reflexivity|]. split; vm_compute; reflexivity.
Qed.

Lemma list_is_bounded_witness :
  forallb printable (snd <$> map_to_list fifteen_todos) = true
  /\ exists items,
       handle None fifteen_todos list_todos
       = {| table := fifteen_todos; answer := Responded 200 (todos_text items);
            calls := [("Scan", scan_text)] |}
       /\ List.length items <= 10
       /\ Json.parse (todos_text items) = Some (JArr (shown <$> items)).
Proof.
  assert (Hall : forallb printable (snd <$> map_to_list fifteen_todos) = true)
    by (vm_compute; reflexivity).
  split; [exact Hall|].
  destruct (list_is_bounded fifteen_todos) as [(items & Hanswer & _ & Hlen & Hparse) _].
  exists items. split; [exact Hanswer|]. split; [exact Hlen|]. exact (Hparse Hall).
Defined.

(** C9, as stated, fails: after fifteen to-dos have been created with a
    title that reads, once stored, as the end of one object and the
    beginning of another, the table holds fifteen items, each under its own
    id, and the answer to GET of the list is HTTP 200 with a JSON array of
    twenty elements. *)
Lemma list_of_twenty :
  size fifteen_doubled = 15
  /\ keyed fifteen_doubled = true
  /\ exists body elements,
       answer (handle None fifteen_doubled list_todos) = Responded 200 body
       /\ Json.parse body = Some (JArr elements)
       /\ List.length elements = 20.
Proof.
  split; [vm_compute; reflexivity|]. split; [vm_compute; reflexivity|].
  eexists. eexists. split; [vm_compute; reflexivity|].
  split; vm_compute; reflexivity.
Qed.

(** C10 (as amended).  A create or update whose body has id, title and
    description as strings, and any other members besides, passes the
    validator and does exactly what the body of the three members alone
    does: the other members are dropped.  When the values are free of
    double quotes, backslashes and control characters, the payload sent is
    a put of the item made of id, title and description and nothing else. *)
Theorem other_members_dropped (fault : option nat) (t : gmap string json) (p : string)
  (b : json) (i ti d : string) :
  carries b i ti d ->
  Schema.validate (schema todoModel) b = true
  /\ handle fault t (create b) = handle fault t (create (todo i ti d))
  /\ handle fault t (update p b) = handle fault t (update p (todo i ti d))
  /\ fst <$> calls (handle fault t (create b)) = ["PutItem"]
  /\ (plain i = true -> plain ti = true -> plain d = true ->
      DynamoDB.decode dynamodb "PutItem"
        (fst (Vtl.run (requestTemplates (integration createTodo)) (Vtl.initial b [])))
      = inr (DynamoDB.PutItem (item i ti d) (Some (DynamoDB.AttributeNotExists "id"))))
  /\ (plain p = true -> plain ti = true -> plain d = true ->
      DynamoDB.decode dynamodb "PutItem"
        (fst (Vtl.run (requestTemplates (integration updateSingleTodo))
                (Vtl.initial b [("todoId", p)])))
      = inr (DynamoDB.PutItem (item p ti d) (Some (DynamoDB.AttributeExists "id")))).
Proof.
  intros Hb.
  assert (Hbare : carries (todo i ti d) i ti d) by (repeat split; reflexivity).
  split; [now apply carries_valid with (i := i) (t := ti) (d := d)|].
  split; [now rewrite (handle_create fault t b i ti d Hb),
                      (handle_create fault t _ i ti d Hbare)|].
  split.
  { rewrite !handle_update_route. destruct (nonempty p); [|reflexivity].
    now rewrite (invoke_update fault t p b i ti d Hb),
                (invoke_update fault t p _ i ti d Hbare). }
  split.
  { rewrite (handle_create fault t b i ti d Hb). unfold dispatch.
    now destruct (DynamoDB.call dynamodb fault (action (integration createTodo))
                    (put_text "attribute_not_exists(id)" i ti d) t). }
  rewrite create_text, update_text. destruct Hb as (Hbi & Hbt & Hbd).
  rewrite (printed_field _ _ _ Hbi), (printed_field _ _ _ Hbt), (printed_field _ _ _ Hbd).
  unfold DynamoDB.decode.
  split; intros H1 H2 H3; rewrite parse_put_text by (assumption || reflexivity);
    reflexivity.
Qed.

Lemma other_members_dropped_witness :
  (carries crowded "2" "A" "B"
   /\ plain "2" = true /\ plain "1" = true /\ plain "A" = true /\ plain "B" = true)
  /\ Schema.validate (schema todoModel) crowded = true
  /\ handle None one_todo (create crowded)
     = handle None one_todo (create (todo "2" "A" "B"))
  /\ handle None one_todo (update "1" crowded)
     = handle None one_todo (update "1" (todo "2" "A" "B"))
  /\ DynamoDB.decode dynamodb "PutItem"
       (fst (Vtl.run (requestTemplates (integration createTodo)) (Vtl.initial crowded [])))
     = inr (DynamoDB.PutItem (item "2" "A" "B") (Some (DynamoDB.AttributeNotExists "id")))
  /\ DynamoDB.decode dynamodb "PutItem"
       (fst (Vtl.run (requestTemplates (integration updateSingleTodo))
               (Vtl.initial crowded [("todoId", "1")])))
     = inr (DynamoDB.PutItem (item "1" "A" "B") (Some (DynamoDB.AttributeExists "id"))).
Proof.
  assert (Hb : carries crowded "2" "A" "B") by (repeat split; reflexivity).
  split; [repeat split; reflexivity|].
  destruct (other_members_dropped None one_todo "1" crowded "2" "A" "B" Hb)
    as (Hvalid & Hcreate & Hupdate & _ & Hput & Hupd).
  split; [exact Hvalid|]. split; [exact Hcreate|]. split; [exact Hupdate|].
  split; [apply Hput; reflexivity | apply Hupd; reflexivity].
Defined.

(** C10, as stated, fails: the body of id, title and description below
    passes the validator, and the item written has a fourth attribute. *)
Lemma injected_title_adds_attribute :
  Schema.validate (schema todoModel) (todo "1" injected "B") = true
  /\ answer (handle None ∅ (create (todo "1" injected "B"))) = Responded 200 created
  /\ table (handle None ∅ (create (todo "1" injected "B"))) !! "1"
     = Some (JObj [("id", JObj [("S", JStr "1")]);
                   ("title", JObj [("S", JStr "x")]);
                   ("extra", JObj [("S", JStr "y")]);
                   ("description", JObj [("S", JStr "B")])]).
Proof. repeat split; vm_compute; reflexivity. Qed.

(** * Further properties of the stack *)

Section Routing.

(** The five ways a request is routed. *)
Lemma route_inv r m ps :
  route r = Some (m, ps) ->
  (resource r = ["v1"; "todo"] /\ ps = []
   /\ ((httpMethod r = GET /\ m = getAllTodos) \/ (httpMethod r = PUT /\ m = createTodo)))
  \/ (exists id, nonempty id = true /\ resource r = ["v1"; "todo"; id]
        /\ ps = [("todoId", id)]
        /\ ((httpMethod r = GET /\ m = getSingleTodo)
            \/ (httpMethod r = PUT /\ m = updateSingleTodo)
            \/ (httpMethod r = DELETE /\ m = deleteSingleTodo))).
Proof.
  unfold route.
  destruct (resource r) as [|a [|b [|id [|]]]]; try discriminate.
  - destruct (String.eqb a "v1") eqn:Ha; [|discriminate].
    destruct (String.eqb b "todo") eqn:Hb; [|discriminate].
    apply String.eqb_eq in Ha, Hb. subst a b. cbn [andb].
    destruct (httpMethod r); try discriminate; intros [= <- <-]; left; tauto.
  - destruct (String.eqb a "v1") eqn:Ha; [|discriminate].
    destruct (String.eqb b "todo") eqn:Hb; [|discriminate].
    apply String.eqb_eq in Ha, Hb. subst a b. cbn [andb].
    destruct (negb (String.eqb id EmptyString)) eqn:Hid; [|discriminate].
    destruct (httpMethod r); try discriminate; intros [= <- <-]; right; exists id;
      unfold nonempty; tauto.
Qed.

Lemma five_methods r m ps :
  route r = Some (m, ps) ->
  In m [getAllTodos; createTodo; getSingleTodo; updateSingleTodo; deleteSingleTodo].
Proof.
  intros Hr. apply route_inv in Hr as [(_ & _ & Hm)|(id & _ & _ & _ & Hm)]; cbn;
    intuition (subst; auto).
Qed.

End Routing.

Section Digits.

Lemma matches_all_length ps : forall s,
  Pattern.matches_all ps s = true -> String.length s = List.length ps.
Proof.
  induction ps as [|p ps IH]; intros [|c s] H; try discriminate H; [reflexivity|].
  cbn [Pattern.matches_all] in H. apply andb_prop in H as [_ H].
  cbn [String.length List.length]. now rewrite (IH s H).
Qed.

Lemma digits_length d :
  String.length (NilEmpty.string_of_uint d) = Decimal.nb_digits d.
Proof.
  induction d; cbn [NilEmpty.string_of_uint String.length Decimal.nb_digits]; congruence.
Qed.

Lemma of_uint_acc_bound d : forall acc,
  Nat.of_uint_acc d acc < (acc + 1) * 10 ^ Decimal.nb_digits d.
Proof.
  induction d; intros acc; cbn [Nat.of_uint_acc Decimal.nb_digits];
    [cbn; lia| ..];
    rewrite Nat.tail_mul_spec, Nat.pow_succ_r';
    match goal with |- Nat.of_uint_acc _ ?a < _ => specialize (IHd a) end;
    nia.
Qed.

(** A status printed with three characters is below 1000. *)
Lemma three_digits st :
  String.length (Pattern.status_text st) = 3 -> st < 1000.
Proof.
  unfold Pattern.status_text. intros H.
  rewrite <- (Unsigned.of_to st).
  destruct (Nat.to_uint st) as [|d|d|d|d|d|d|d|d|d|d] eqn:Hd; [discriminate H|..];
    unfold NilZero.string_of_uint in H; rewrite digits_length in H;
    unfold Nat.of_uint;
    match goal with
    | |- Nat.of_uint_acc ?u 0 < _ => pose proof (of_uint_acc_bound u 0) as Hb
    end;
    rewrite H in Hb; exact Hb.
Qed.

(** What the two selection patterns match, for every status. *)
Lemma status_class st :
  Pattern.matches "2\d{2}" (Pattern.status_text st) = in_range 200 299 st
  /\ Pattern.matches "4\d{2}" (Pattern.status_text st) = in_range 400 499 st.
Proof.
  destruct (Nat.lt_ge_cases st 1000) as [Hlt|Hge].
  - assert (Hall : forallb class_ok (List.seq 0 1000) = true) by (vm_compute; reflexivity).
    rewrite forallb_forall in Hall.
    assert (Hin : In st (List.seq 0 1000)) by (apply in_seq; lia).
    specialize (Hall st Hin). unfold class_ok in Hall.
    apply andb_prop in Hall as [H2 H4].
    apply Bool.eqb_prop in H2, H4. now split.
  - assert (Hno : forall p ps, (p ← Pattern.pieces p; Pattern.unfold p) = Some ps ->
                    List.length ps = 3 ->
                    Pattern.matches p (Pattern.status_text st) = false).
    { intros p ps Hp Hlen. unfold Pattern.matches. rewrite Hp.
      destruct (Pattern.matches_all ps (Pattern.status_text st)) eqn:Hm; [|reflexivity].
      apply matches_all_length in Hm. rewrite Hlen in Hm.
      apply three_digits in Hm. lia. }
    unfold in_range.
    replace (200 <=? st)%nat with true by (symmetry; apply Nat.leb_le; lia).
    replace (st <=? 299)%nat with false by (symmetry; apply Nat.leb_gt; lia).
    replace (st <=? 499)%nat with false by (symmetry; apply Nat.leb_gt; lia).
    rewrite !andb_false_r.
    split;
      [apply (Hno _ [Pattern.Char "2"; Pattern.Digit; Pattern.Digit])
      |apply (Hno _ [Pattern.Char "4"; Pattern.Digit; Pattern.Digit])]; reflexivity.
Qed.

End Digits.

Section Results.

Variable t : gmap string json.

Lemma create_result b i ti d :
  plain i = true -> nonempty i = true -> plain ti = true -> plain d = true ->
  carries b i ti d ->
  handle None t (create b)
  = if DynamoDB.has_attribute "id" (t !! i)
    then {| table := t; answer := Responded 400 create_failed;
            calls := [("PutItem", put_text "attribute_not_exists(id)" i ti d)] |}
    else {| table := <[i := item i ti d]> t; answer := Responded 200 created;
            calls := [("PutItem", put_text "attribute_not_exists(id)" i ti d)] |}.
Proof.
  intros Hi Hne Ht Hd Hb. rewrite (handle_create None t b i ti d Hb).
  unfold dispatch. cbn [action integration createTodo].
  rewrite call_create by assumption.
  now destruct (DynamoDB.has_attribute "id" (t !! i)).
Qed.

Lemma update_result b p bi ti d :
  plain p = true -> nonempty p = true -> plain ti = true -> plain d = true ->
  carries b bi ti d ->
  handle None t (update p b)
  = if DynamoDB.has_attribute "id" (t !! p)
    then {| table := <[p := item p ti d]> t; answer := Responded 200 updated;
            calls := [("PutItem", put_text "attribute_exists(id)" p ti d)] |}
    else {| table := t; answer := Responded 400 update_failed;
            calls := [("PutItem", put_text "attribute_exists(id)" p ti d)] |}.
Proof.
  intros Hp Hne Ht Hd Hb. rewrite (handle_update None t p b bi ti d Hne Hb).
  unfold dispatch. cbn [action integration updateSingleTodo].
  rewrite call_update by assumption.
  now destruct (DynamoDB.has_attribute "id" (t !! p)).
Qed.

Lemma remove_result i :
  plain i = true -> nonempty i = true ->
  handle None t (remove i)
  = if DynamoDB.has_attribute "id" (t !! i)
    then {| table := delete i t; answer := Responded 200 deleted;
            calls := [("DeleteItem", delete_text i)] |}
    else {| table := t; answer := Responded 400 delete_failed;
            calls := [("DeleteItem", delete_text i)] |}.
Proof.
  intros Hi Hne. rewrite (handle_remove None t i Hne).
  unfold dispatch. cbn [action integration deleteSingleTodo].
  rewrite call_delete by assumption.
  now destruct (DynamoDB.has_attribute "id" (t !! i)).
Qed.

Lemma get_result i :
  plain i = true -> nonempty i = true ->
  handle None t (get i)
  = {| table := t;
       answer := match t !! i with
                 | Some it =>
                     respond (integrationResponses (integration getSingleTodo))
                       [("todoId", i)] (DynamoDB.Success (JObj [("Item", it)]))
                 | None => Responded 400 load_failed
                 end;
       calls := [("GetItem", get_text i)] |}.
Proof.
  intros Hi Hne. rewrite (handle_get None t i Hne).
  unfold dispatch. cbn [action integration getSingleTodo].
  rewrite call_get by assumption.
  now destruct (t !! i).
Qed.

Lemma list_result :
  handle None t list_todos
  = {| table := t;
       answer := Responded 200 (todos_text (snd <$> take 10 (map_to_list t)));
       calls := [("Scan", scan_text)] |}.
Proof.
  change (handle None t list_todos)
    with (dispatch dynamodb getAllTodos None [] scan_text t).
  unfold dispatch. cbn [action integration getAllTodos].
  rewrite call_scan. now rewrite list_response.
Qed.

Lemma has_id_stored i :
  DynamoDB.has_attribute "id" (t !! i) = true -> is_Some (t !! i).
Proof. destruct (t !! i); [eauto|discriminate]. Qed.

(** Without a fault of the service, a call ends with status 200 or 400. *)
Lemma call_status action text :
  let st := DynamoDB.status (snd (DynamoDB.call dynamodb None action text t)) in
  st = 200 \/ st = 400.
Proof.
  cbv zeta. unfold DynamoDB.call.
  destruct (DynamoDB.decode dynamodb action text) as [f|r] eqn:Hdec.
  - right. now apply decode_status with (1 := Hdec).
  - destruct r as [limit|it c|k|k c]; unfold DynamoDB.run.
    + now left.
    + destruct (DynamoDB.key_of dynamodb it) as [k|]; [|now right].
      destruct (DynamoDB.holds c (t !! k)); [now left|now right].
    + destruct (DynamoDB.key_of dynamodb k) as [k0|]; [|now right].
      destruct (t !! k0); now left.
    + destruct (DynamoDB.key_of dynamodb k) as [k0|]; [|now right].
      destruct (DynamoDB.holds c (t !! k0)); [now left|now right].
Qed.

End Results.

Section Answers.

(** An integration response answers, or none is selected. *)
Lemma respond_cases rs ps reply :
  (exists code text, respond rs ps reply = Responded code text
     /\ is_Some (select rs (DynamoDB.status reply)))
  \/ (respond rs ps reply = Unhandled (DynamoDB.status reply)
      /\ select rs (DynamoDB.status reply) = None).
Proof.
  unfold respond. destruct (select rs (DynamoDB.status reply)) as [ir|]; [left|right; tauto].
  destruct (Vtl.run _ _) as [text c]. eauto.
Qed.

Lemma shown_item i ti d : shown (item i ti d) = todo i ti d.
Proof. reflexivity. Qed.

Lemma printable_item i ti d :
  plain i = true -> plain ti = true -> plain d = true -> printable (item i ti d) = true.
Proof.
  intros Hi Ht Hd. unfold printable. cbn [forallb]. cbv beta.
  change (string_attr (item i ti d) "id") with (Some i).
  change (string_attr (item i ti d) "title") with (Some ti).
  change (string_attr (item i ti d) "description") with (Some d).
  cbv beta iota. now rewrite Hi, Ht, Hd.
Qed.

Lemma serve_keyed rs : forall t, keyed t = true -> keyed (serve t rs) = true.
Proof.
  induction rs as [|[fault r] rs IH]; intros t Hk; [exact Hk|].
  cbn [serve foldl]. apply IH. cbn [fst snd]. now apply handle_keyed.
Qed.

End Answers.

(** X1.  The method that the resource tree of the stack gives a request is
    the one [route] gives it.  A request is routed exactly when it is a GET
    or PUT of [/v1/todo], or a GET, PUT or DELETE of [/v1/todo/{todoId}]
    with an id that is not empty; any other request reaches no method,
    makes no call and leaves the table as it was. *)
Theorem resources_route (fault : option nat) (t : gmap string json) (r : Request) :
  RestApi.method_for r = route r
  /\ (is_Some (route r)
      <-> (resource r = ["v1"; "todo"] /\ (httpMethod r = GET \/ httpMethod r = PUT))
          \/ (exists id, id <> EmptyString /\ resource r = ["v1"; "todo"; id]
                /\ (httpMethod r = GET \/ httpMethod r = PUT \/ httpMethod r = DELETE)))
  /\ (route r = None ->
      handle fault t r = {| table := t; answer := NoRoute; calls := [] |}).
Proof.
  split; [|split].
  - unfold RestApi.method_for, route.
    destruct (resource r) as [|a rest]; [now destruct (httpMethod r)|].
    cbn [RestApi.resolve]. unfold RestApi.child at 1.
    cbn [RestApi.resources RestApi.root List.find].
    unfold RestApi.literal at 1. cbn [RestApi.pathPart RestApi.v1].
    change (RestApi.variable "v1") with (@None string). cbv beta iota.
    rewrite (String.eqb_sym "v1" a).
    destruct (String.eqb a "v1") eqn:Ha.
    2:{ cbn [List.find]. change (RestApi.greedy RestApi.v1) with false.
        cbv beta iota.
        destruct (String.eqb a EmptyString); cbn;
          destruct rest as [|b [|c [|]]]; reflexivity. }
    cbn [mbind option_bind].
    destruct rest as [|b rest]; [now destruct (httpMethod r)|].
    cbn [RestApi.resolve]. unfold RestApi.child at 1.
    cbn [RestApi.resources RestApi.v1 List.find].
    unfold RestApi.literal at 1. cbn [RestApi.pathPart RestApi.todo].
    change (RestApi.variable "todo") with (@None string). cbv beta iota.
    rewrite (String.eqb_sym "todo" b).
    destruct (String.eqb b "todo") eqn:Hb.
    2:{ cbn [List.find]. change (RestApi.greedy RestApi.todo) with false.
        cbv beta iota.
        destruct (String.eqb b EmptyString); cbn;
          destruct rest as [|c [|]]; reflexivity. }
    cbn [mbind option_bind andb].
    destruct rest as [|c rest]; [now destruct (httpMethod r)|].
    cbn [RestApi.resolve]. unfold RestApi.child at 1.
    cbn [RestApi.resources RestApi.todo List.find].
    change (RestApi.literal c RestApi.singleTodo) with false.
    change (RestApi.greedy RestApi.singleTodo) with true.
    cbv beta iota.
    destruct (String.eqb c EmptyString) eqn:Hc.
    { cbn. now destruct rest as [|? ?]. }
    cbn [mbind option_bind RestApi.pathPart RestApi.singleTodo].
    change (RestApi.variable "{todoId}") with (Some "todoId"). cbn [mbind option_bind].
    destruct rest as [|e rest]; [now destruct (httpMethod r)|].
    cbn [RestApi.resolve]. unfold RestApi.child.
    cbn [RestApi.resources RestApi.singleTodo List.find].
    now destruct (String.eqb e EmptyString).
  - split.
    + intros [[m ps] Hr].
      apply route_inv in Hr as [(Hres & _ & Hm)|(id & Hid & Hres & _ & Hm)].
      * left. split; [exact Hres|]. destruct Hm as [[-> _]|[-> _]]; tauto.
      * right. exists id. split; [|split; [exact Hres|]].
        -- unfold nonempty in Hid. apply negb_true_iff, String.eqb_neq in Hid. exact Hid.
        -- destruct Hm as [[-> _]|[[-> _]|[-> _]]]; tauto.
    + unfold route. intros [[-> Hm]|(id & Hid & -> & Hm)].
      * cbn. destruct Hm as [-> | ->]; eexists; reflexivity.
      * apply String.eqb_neq in Hid. cbn. rewrite Hid. cbn.
        destruct Hm as [-> | [-> | ->]]; eexists; reflexivity.
  - intros Hr. unfold handle. now rewrite Hr.
Qed.

(** X2.  For each of the five methods and every status of the call to the
    table, whatever its size: the status selects the integration response
    with status code 200 exactly when it lies between 200 and 299, the one
    with status code 400 exactly when it lies between 400 and 499, and no
    integration response otherwise.  No status selects both. *)
Theorem status_selects (m : Method) (st : nat) :
  In m [getAllTodos; createTodo; getSingleTodo; updateSingleTodo; deleteSingleTodo] ->
  selected m st
  = if in_range 200 299 st then Some 200
    else if in_range 400 499 st then Some 400
    else None.
Proof.
  intros Hm. destruct (status_class st) as [H2 H4].
  unfold selected, select. cbn in Hm.
  destruct Hm as [<-|[<-|[<-|[<-|[<-|[]]]]]];
    cbn [integrationResponses integration getAllTodos createTodo getSingleTodo
         updateSingleTodo deleteSingleTodo List.find selectionPattern];
    rewrite H2, H4;
    destruct (in_range 200 299 st), (in_range 400 499 st); reflexivity.
Qed.

Lemma status_selects_witness :
  In deleteSingleTodo
    [getAllTodos; createTodo; getSingleTodo; updateSingleTodo; deleteSingleTodo]
  /\ selected deleteSingleTodo 1404 = None.
Proof.
  split; [cbn; tauto|].
  apply (status_selects deleteSingleTodo 1404). cbn. tauto.
Defined.

(** X3.  A GET never writes: whatever the path, the id, the body and the
    fault of the service, the table after a GET request is the table
    before it, and the only calls a GET makes are scans and reads of one
    item. *)
Theorem reads_leave_table (fault : option nat) (t : gmap string json) (r : Request) :
  httpMethod r = GET ->
  table (handle fault t r) = t
  /\ forall a text, In (a, text) (calls (handle fault t r)) -> a = "Scan" \/ a = "GetItem".
Proof.
  intros Hget. unfold handle.
  destruct (route r) as [[m ps]|] eqn:Hr; [|split; [reflexivity|intros a text []]].
  apply route_inv in Hr as [(_ & -> & Hm)|(id & _ & _ & -> & Hm)].
  - destruct Hm as [[_ ->]|[Hput _]]; [|congruence].
    unfold invoke, rejects. cbn [requestValidator requestModels getAllTodos].
    split.
    + rewrite table_dispatch. cbn [action integration].
      match goal with
      | |- fst (DynamoDB.call _ ?f ?a ?x _) = _ =>
          destruct (call_changes f a x t) as [H|[_ [H|H]]];
            [cbn; tauto|exact H|discriminate H|discriminate H]
      end.
    + unfold dispatch. cbn [action integration].
      destruct (DynamoDB.call _ _ _ _ _) as [t' reply]. cbn [calls].
      intros a text [[= <- _]|[]]. now left.
  - destruct Hm as [[_ ->]|[[Hput _]|[Hdel _]]]; [|congruence|congruence].
    unfold invoke, rejects. cbn [requestValidator requestModels getSingleTodo].
    split.
    + rewrite table_dispatch. cbn [action integration].
      match goal with
      | |- fst (DynamoDB.call _ ?f ?a ?x _) = _ =>
          destruct (call_changes f a x t) as [H|[_ [H|H]]];
            [cbn; tauto|exact H|discriminate H|discriminate H]
      end.
    + unfold dispatch. cbn [action integration].
      destruct (DynamoDB.call _ _ _ _ _) as [t' reply]. cbn [calls].
      intros a text [[= <- _]|[]]. now right.
Qed.

Lemma reads_leave_table_witness :
  httpMethod (get injected) = GET
  /\ table (handle None one_todo (get injected)) = one_todo
  /\ forall a text, In (a, text) (calls (handle None one_todo (get injected))) ->
       a = "Scan" \/ a = "GetItem".
Proof.
  split; [reflexivity|].
  apply (reads_leave_table None one_todo (get injected)). reflexivity.
Defined.

(** X4.  A request that is not a PUT does the same whatever its body: the
    templates of the list, of the GET of one item and of DELETE read
    nothing of the body, and these methods have no validator. *)
Theorem body_is_ignored (fault : option nat) (t : gmap string json) (r : Request)
  (b : json) :
  httpMethod r <> PUT ->
  handle fault t {| httpMethod := httpMethod r; resource := resource r; body := b |}
  = handle fault t r.
Proof.
  intros Hput. unfold handle, route. cbn [httpMethod resource body].
  destruct (resource r) as [|x [|y [|id [|]]]]; try reflexivity.
  - destruct (String.eqb x "v1" && String.eqb y "todo"); [|reflexivity].
    destruct (httpMethod r); try reflexivity. congruence.
  - destruct (String.eqb x "v1" && String.eqb y "todo" && negb (String.eqb id EmptyString));
      [|reflexivity].
    destruct (httpMethod r); try reflexivity; try congruence;
      unfold invoke, rejects;
      cbn [requestValidator requestModels getSingleTodo deleteSingleTodo];
      now rewrite ?get_request_text, ?delete_request_text.
Qed.

Lemma body_is_ignored_witness :
  httpMethod (remove "1") <> PUT
  /\ handle None one_todo
       {| httpMethod := httpMethod (remove "1"); resource := resource (remove "1");
          body := todo "9" injected quote |}
     = handle None one_todo (remove "1").
Proof.
  split; [discriminate|].
  apply (body_is_ignored None one_todo (remove "1") (todo "9" injected quote)).
  discriminate.
Defined.

(** X5.  An update whose body lacks one of id, title and description, or
    has something other than a string for one of them, is refused with
    HTTP 400 before anything is sent to the table, and the table is left as
    it was. *)
Theorem update_refused (fault : option nat) (t : gmap string json) (p : string)
  (b : json) (name : string) :
  nonempty p = true ->
  In name ["id"; "title"; "description"] ->
  (forall v, Json.field name b <> Some (JStr v)) ->
  handle fault t (update p b)
  = {| table := t; answer := Rejected 400 invalid_request_body; calls := [] |}.
Proof.
  intros Hp Hin Hno. rewrite handle_update_route, Hp.
  destruct (refused fault t b name Hin Hno) as [_ Hupdate]. apply Hupdate.
Qed.

Lemma update_refused_witness :
  (nonempty "1" = true
   /\ In "title" ["id"; "title"; "description"]
   /\ forall v, Json.field "title"
                  (JObj [("id", JStr "1"); ("title", JNum 5); ("description", JStr "B")])
                <> Some (JStr v))
  /\ handle None one_todo
       (update "1" (JObj [("id", JStr "1"); ("title", JNum 5); ("description", JStr "B")]))
     = {| table := one_todo; answer := Rejected 400 invalid_request_body; calls := [] |}.
Proof.
  split; [split; [reflexivity | split; [cbn; tauto | intros v; discriminate]]|].
  apply (update_refused None one_todo "1"
           (JObj [("id", JStr "1"); ("title", JNum 5); ("description", JStr "B")]) "title");
    [reflexivity | cbn; tauto | intros v; discriminate].
Defined.

(** X6.  The request model accepts exactly the bodies that have a string
    for each of id, title and description: nothing is asked of the strings
    themselves, and members the model does not name are not looked at. *)
Theorem model_accepts_exactly (b : json) :
  Schema.validate (schema todoModel) b = true <-> exists i ti d, carries b i ti d.
Proof.
  split.
  - intros Hv.
    destruct (validate_needs b "id") as [i Hi]; [cbn; tauto|exact Hv|].
    destruct (validate_needs b "title") as [ti Ht]; [cbn; tauto|exact Hv|].
    destruct (validate_needs b "description") as [d Hd]; [cbn; tauto|exact Hv|].
    exists i, ti, d. now repeat split.
  - intros (i & ti & d & Hb). now apply carries_valid with (1 := Hb).
Qed.

(** X7.  An update that is answered with HTTP 200 was of a stored id, and
    the GET of that id that follows is answered with HTTP 200 and the
    object made of the id of the path and the title and description of the
    update, whatever id the body of the update had (values free of double
    quotes, backslashes and control characters). *)
Theorem update_then_get (t : gmap string json) (b : json) (p bi ti d : string) :
  plain p = true -> nonempty p = true -> plain ti = true -> plain d = true ->
  carries b bi ti d ->
  answer (handle None t (update p b)) = Responded 200 updated ->
  is_Some (t !! p)
  /\ handle None (table (handle None t (update p b))) (get p)
     = {| table := <[p := item p ti d]> t;
          answer := Responded 200 (todo_text p ti d);
          calls := [("GetItem", get_text p)] |}.
Proof.
  intros Hp Hne Ht Hd Hb.
  rewrite (update_result t b p bi ti d) by assumption.
  destruct (DynamoDB.has_attribute "id" (t !! p)) eqn:Hid; [|discriminate].
  intros _. split; [now apply has_id_stored|]. cbn [table].
  rewrite get_result by assumption. rewrite lookup_insert_eq. now rewrite get_found.
Qed.

Lemma update_then_get_witness :
  (plain "1" = true /\ nonempty "1" = true /\ plain "A2" = true /\ plain "B2" = true
   /\ carries (todo "7" "A2" "B2") "7" "A2" "B2"
   /\ answer (handle None one_todo (update "1" (todo "7" "A2" "B2")))
      = Responded 200 updated)
  /\ is_Some (one_todo !! "1")
  /\ handle None (table (handle None one_todo (update "1" (todo "7" "A2" "B2")))) (get "1")
     = {| table := <["1" := item "1" "A2" "B2"]> one_todo;
          answer := Responded 200 (todo_text "1" "A2" "B2");
          calls := [("GetItem", get_text "1")] |}.
Proof.
  split; [repeat split; reflexivity|].
  apply (update_then_get one_todo (todo "7" "A2" "B2") "1" "7" "A2" "B2");
    first [reflexivity | repeat split; reflexivity].
Defined.

(** X8.  An update replaces the title and the description in full: after
    an update answered with HTTP 200, a second update of the same id is
    answered with HTTP 200 too, and the table is the one the second update
    alone would have left. *)
Theorem update_replaces (t : gmap string json) (b1 b2 : json)
  (p i1 t1 d1 i2 t2 d2 : string) :
  plain p = true -> nonempty p = true ->
  plain t1 = true -> plain d1 = true -> plain t2 = true -> plain d2 = true ->
  carries b1 i1 t1 d1 -> carries b2 i2 t2 d2 ->
  answer (handle None t (update p b1)) = Responded 200 updated ->
  handle None (table (handle None t (update p b1))) (update p b2)
  = {| table := <[p := item p t2 d2]> t; answer := Responded 200 updated;
       calls := [("PutItem", put_text "attribute_exists(id)" p t2 d2)] |}.
Proof.
  intros Hp Hne H1 H2 H3 H4 Hb1 Hb2.
  rewrite (update_result t b1 p i1 t1 d1) by assumption.
  destruct (DynamoDB.has_attribute "id" (t !! p)); [|discriminate].
  intros _. cbn [table].
  rewrite (update_result _ b2 p i2 t2 d2) by assumption.
  rewrite lookup_insert_eq.
  change (DynamoDB.has_attribute "id" (Some (item p t1 d1))) with true. cbv iota.
  now rewrite insert_insert_eq.
Qed.

Lemma update_replaces_witness :
  (plain "1" = true /\ nonempty "1" = true
   /\ plain "A2" = true /\ plain "B2" = true /\ plain "A3" = true /\ plain "B3" = true
   /\ carries (todo "7" "A2" "B2") "7" "A2" "B2"
   /\ carries (todo "8" "A3" "B3") "8" "A3" "B3"
   /\ answer (handle None one_todo (update "1" (todo "7" "A2" "B2")))
      = Responded 200 updated)
  /\ handle None (table (handle None one_todo (update "1" (todo "7" "A2" "B2"))))
       (update "1" (todo "8" "A3" "B3"))
     = {| table := <["1" := item "1" "A3" "B3"]> one_todo; answer := Responded 200 updated;
          calls := [("PutItem", put_text "attribute_exists(id)" "1" "A3" "B3")] |}.
Proof.
  split; [repeat split; reflexivity|].
  apply (update_replaces one_todo (todo "7" "A2" "B2") (todo "8" "A3" "B3")
           "1" "7" "A2" "B2" "8" "A3" "B3");
    first [reflexivity | repeat split; reflexivity].
Defined.

(** X9.  After a DELETE answered with HTTP 200 the id is gone: the table
    is the former one without the item, and a GET, a second DELETE and an
    update of that id are each answered with HTTP 400 and the error of the
    operation, leaving the table as it is (values free of double quotes,
    backslashes and control characters). *)
Theorem delete_then_gone (t : gmap string json) (b : json) (i bi ti d : string) :
  plain i = true -> nonempty i = true -> plain ti = true -> plain d = true ->
  carries b bi ti d ->
  answer (handle None t (remove i)) = Responded 200 deleted ->
  let t' := table (handle None t (remove i)) in
  t' = delete i t
  /\ handle None t' (get i)
     = {| table := t'; answer := Responded 400 load_failed;
          calls := [("GetItem", get_text i)] |}
  /\ handle None t' (remove i)
     = {| table := t'; answer := Responded 400 delete_failed;
          calls := [("DeleteItem", delete_text i)] |}
  /\ handle None t' (update i b)
     = {| table := t'; answer := Responded 400 update_failed;
          calls := [("PutItem", put_text "attribute_exists(id)" i ti d)] |}.
Proof.
  intros Hi Hne Ht Hd Hb.
  rewrite (remove_result t i) by assumption.
  destruct (DynamoDB.has_attribute "id" (t !! i)); [|discriminate].
  intros _. cbn [table]. cbv zeta.
  rewrite get_result, remove_result by assumption.
  rewrite (update_result _ b i bi ti d) by assumption.
  rewrite lookup_delete_eq. repeat split; reflexivity.
Qed.

Lemma delete_then_gone_witness :
  (plain "1" = true /\ nonempty "1" = true /\ plain "A2" = true /\ plain "B2" = true
   /\ carries (todo "1" "A2" "B2") "1" "A2" "B2"
   /\ answer (handle None one_todo (remove "1")) = Responded 200 deleted)
  /\ table (handle None one_todo (remove "1")) = delete "1" one_todo
  /\ handle None (table (handle None one_todo (remove "1"))) (get "1")
     = {| table := table (handle None one_todo (remove "1"));
          answer := Responded 400 load_failed;
          calls := [("GetItem", get_text "1")] |}
  /\ handle None (table (handle None one_todo (remove "1"))) (remove "1")
     = {| table := table (handle None one_todo (remove "1"));
          answer := Responded 400 delete_failed;
          calls := [("DeleteItem", delete_text "1")] |}
  /\ handle None (table (handle None one_todo (remove "1"))) (update "1" (todo "1" "A2" "B2"))
     = {| table := table (handle None one_todo (remove "1"));
          answer := Responded 400 update_failed;
          calls := [("PutItem", put_text "attribute_exists(id)" "1" "A2" "B2")] |}.
Proof.
  split; [repeat split; reflexivity|].
  apply (delete_then_gone one_todo (todo "1" "A2" "B2") "1" "1" "A2" "B2");
    first [reflexivity | repeat split; reflexivity].
Defined.

(** X10.  A create answered with HTTP 200 followed by the DELETE of the
    same id gives back the table there was before the create, and the
    DELETE is answered with HTTP 200 (table keyed by id; values free of
    double quotes, backslashes and control characters). *)
Theorem create_then_delete (t : gmap string json) (b : json) (i ti d : string) :
  keyed t = true ->
  plain i = true -> nonempty i = true -> plain ti = true -> plain d = true ->
  carries b i ti d ->
  answer (handle None t (create b)) = Responded 200 created ->
  handle None (table (handle None t (create b))) (remove i)
  = {| table := t; answer := Responded 200 deleted;
       calls := [("DeleteItem", delete_text i)] |}.
Proof.
  intros Hk Hi Hne Ht Hd Hb.
  rewrite (create_result t b i ti d) by assumption.
  rewrite (keyed_has_id t i Hk).
  destruct (t !! i) as [old|] eqn:Hold; [discriminate|].
  intros _. cbn [is_Some_bool table].
  rewrite remove_result by assumption. rewrite lookup_insert_eq.
  change (DynamoDB.has_attribute "id" (Some (item i ti d))) with true. cbv iota.
  now rewrite delete_insert_id.
Qed.

Lemma create_then_delete_witness :
  (keyed one_todo = true
   /\ plain "2" = true /\ nonempty "2" = true /\ plain "A" = true /\ plain "B" = true
   /\ carries (todo "2" "A" "B") "2" "A" "B"
   /\ answer (handle None one_todo (create (todo "2" "A" "B"))) = Responded 200 created)
  /\ handle None (table (handle None one_todo (create (todo "2" "A" "B")))) (remove "2")
     = {| table := one_todo; answer := Responded 200 deleted;
          calls := [("DeleteItem", delete_text "2")] |}.
Proof.
  split; [repeat split; reflexivity|].
  apply (create_then_delete one_todo (todo "2" "A" "B") "2" "A" "B");
    first [reflexivity | repeat split; reflexivity].
Defined.

(** X11.  A create never overwrites: after a create answered with HTTP
    200, a second create of the same id, whatever its title and
    description, is answered with HTTP 400 and the creation error, and the
    item stored is still the one of the first create (values free of double
    quotes, backslashes and control characters). *)
Theorem create_twice (t : gmap string json) (b b' : json) (i ti d ti' d' : string) :
  plain i = true -> nonempty i = true ->
  plain ti = true -> plain d = true -> plain ti' = true -> plain d' = true ->
  carries b i ti d -> carries b' i ti' d' ->
  answer (handle None t (create b)) = Responded 200 created ->
  let t' := table (handle None t (create b)) in
  handle None t' (create b')
  = {| table := t'; answer := Responded 400 create_failed;
       calls := [("PutItem", put_text "attribute_not_exists(id)" i ti' d')] |}
  /\ t' !! i = Some (item i ti d).
Proof.
  intros Hi Hne H1 H2 H3 H4 Hb Hb'.
  rewrite (create_result t b i ti d) by assumption.
  destruct (DynamoDB.has_attribute "id" (t !! i)); [discriminate|].
  intros _. cbn [table]. cbv zeta.
  rewrite (create_result _ b' i ti' d') by assumption.
  rewrite lookup_insert_eq. split; reflexivity.
Qed.

Lemma create_twice_witness :
  (plain "1" = true /\ nonempty "1" = true
   /\ plain "A" = true /\ plain "B" = true /\ plain "C" = true /\ plain "D" = true
   /\ carries (todo "1" "A" "B") "1" "A" "B" /\ carries (todo "1" "C" "D") "1" "C" "D"
   /\ answer (handle None ∅ (create (todo "1" "A" "B"))) = Responded 200 created)
  /\ handle None one_todo (create (todo "1" "C" "D"))
     = {| table := one_todo; answer := Responded 400 create_failed;
          calls := [("PutItem", put_text "attribute_not_exists(id)" "1" "C" "D")] |}
  /\ one_todo !! "1" = Some (item "1" "A" "B").
Proof.
  split; [repeat split; reflexivity|].
  apply (create_twice ∅ (todo "1" "A" "B") (todo "1" "C" "D") "1" "A" "B" "C" "D");
    first [reflexivity | repeat split; reflexivity].
Defined.

(** X12.  A create and a DELETE touch no id but their own: whatever the
    outcome and the fault of the service, the item stored under any other
    id is the same before and after (values free of double quotes,
    backslashes and control characters). *)
Theorem others_untouched (fault : option nat) (t : gmap string json) (b : json)
  (i ti d k : string) :
  plain i = true -> nonempty i = true -> plain ti = true -> plain d = true ->
  carries b i ti d ->
  k <> i ->
  table (handle fault t (create b)) !! k = t !! k
  /\ table (handle fault t (remove i)) !! k = t !! k.
Proof.
  intros Hi Hne Ht Hd Hb Hk.
  rewrite (handle_create fault t b i ti d Hb), (handle_remove fault t i Hne).
  rewrite !table_dispatch. cbn [action integration createTodo deleteSingleTodo].
  destruct fault as [st|]; [split; reflexivity|].
  rewrite call_create, call_delete by assumption.
  destruct (DynamoDB.has_attribute "id" (t !! i)); cbn [fst]; split;
    try reflexivity.
  - apply lookup_delete_ne. congruence.
  - apply lookup_insert_ne. congruence.
Qed.

Lemma others_untouched_witness :
  (plain "2" = true /\ nonempty "2" = true /\ plain "A" = true /\ plain "B" = true
   /\ carries (todo "2" "A" "B") "2" "A" "B" /\ "1" <> "2")
  /\ table (handle None one_todo (create (todo "2" "A" "B"))) !! "1" = one_todo !! "1"
  /\ table (handle None one_todo (remove "2")) !! "1" = one_todo !! "1".
Proof.
  split; [repeat split; first [reflexivity | discriminate]|].
  apply (others_untouched None one_todo (todo "2" "A" "B") "2" "A" "B" "1");
    first [reflexivity | discriminate | repeat split; reflexivity].
Defined.

(** X13.  For a table that keeps every item under its own id and whose
    items are printable, the list is answered with HTTP 200 and a body
    that is a JSON array of at most ten elements, each the object made of
    the id, title and description of an item that the table stores, and no
    two for the same id: nothing is shown that is not stored, and nothing
    is shown twice. *)
Theorem list_shows_stored (t : gmap string json) :
  keyed t = true ->
  forallb printable (snd <$> map_to_list t) = true ->
  exists body entries,
    answer (handle None t list_todos) = Responded 200 body
    /\ Json.parse body = Some (JArr (listed <$> entries))
    /\ List.length entries <= 10
    /\ NoDup (fst <$> entries)
    /\ forall k it, In (k, it) entries -> t !! k = Some it.
Proof.
  intros Hk Hall.
  exists (todos_text (snd <$> take 10 (map_to_list t))), (take 10 (map_to_list t)).
  assert (Hin : forall k it, In (k, it) (take 10 (map_to_list t)) -> t !! k = Some it).
  { intros k it H. apply elem_of_map_to_list, (subseteq_take 10), list_elem_of_In, H. }
  split; [now rewrite list_result|].
  split; [|split; [rewrite length_take; lia|split; [|exact Hin]]].
  - rewrite parse_todos_text.
    + f_equal. f_equal. rewrite <- list_fmap_compose.
      apply Forall_fmap_ext_1, Forall_forall. intros [k it] He.
      apply list_elem_of_In, Hin in He. unfold listed, shown, compose. cbn [fst snd].
      f_equal. apply key_of_attr. now apply keyed_lookup with (t := t).
    + rewrite forallb_forall in Hall. apply Forall_forall. intros it Hit.
      apply Hall, list_elem_of_In.
      apply list_elem_of_fmap in Hit as [[k it'] [-> Hit]].
      apply list_elem_of_fmap. exists (k, it'). split; [reflexivity|].
      now apply (subseteq_take 10).
  - rewrite fmap_take.
    apply (sublist_NoDup _ ((map_to_list t).*1));
      [apply NoDup_fst_map_to_list|apply sublist_take].
Qed.

Lemma list_shows_stored_witness :
  (keyed two_todos = true
   /\ forallb printable (snd <$> map_to_list two_todos) = true)
  /\ exists body entries,
       answer (handle None two_todos list_todos) = Responded 200 body
       /\ Json.parse body = Some (JArr (listed <$> entries))
       /\ List.length entries <= 10
       /\ NoDup (fst <$> entries)
       /\ forall k it, In (k, it) entries -> two_todos !! k = Some it.
Proof.
  split; [split; vm_compute; reflexivity|].
  apply (list_shows_stored two_todos); vm_compute; reflexivity.
Defined.

(** X14.  A to-do created in a table of fewer than ten printable items is
    in the list that follows: the list is answered with HTTP 200 and a body
    that is a JSON array holding the object made of its id, title and
    description (values free of double quotes, backslashes and control
    characters). *)
Theorem create_then_list (t : gmap string json) (b : json) (i ti d : string) :
  plain i = true -> nonempty i = true -> plain ti = true -> plain d = true ->
  carries b i ti d ->
  forallb printable (snd <$> map_to_list t) = true ->
  size t < 10 ->
  answer (handle None t (create b)) = Responded 200 created ->
  exists body elements,
    answer (handle None (table (handle None t (create b))) list_todos)
    = Responded 200 body
    /\ Json.parse body = Some (JArr elements)
    /\ In (todo i ti d) elements
    /\ List.length elements <= S (size t).
Proof.
  intros Hi Hne Ht Hd Hb Hall Hsize.
  rewrite (create_result t b i ti d) by assumption.
  destruct (DynamoDB.has_attribute "id" (t !! i)); [discriminate|].
  intros _. cbn [table].
  set (t' := <[i := item i ti d]> t).
  assert (Hsize' : size t' <= S (size t)).
  { subst t'. rewrite map_size_insert. destruct (t !! i); unfold id; lia. }
  exists (todos_text (snd <$> take 10 (map_to_list t'))).
  exists (shown <$> (snd <$> take 10 (map_to_list t'))).
  rewrite list_result. split; [reflexivity|].
  rewrite take_ge by (rewrite length_map_to_list; lia).
  split; [|split].
  - apply parse_todos_text. apply Forall_forall. intros it Hin.
    apply list_elem_of_fmap in Hin as [[k it'] [-> Hin]].
    apply elem_of_map_to_list in Hin. subst t'. cbn [snd].
    destruct (decide (i = k)) as [->|Hneq].
    + rewrite lookup_insert_eq in Hin. injection Hin as <-. now apply printable_item.
    + rewrite lookup_insert_ne in Hin by exact Hneq.
      rewrite forallb_forall in Hall. apply Hall, list_elem_of_In.
      apply list_elem_of_fmap. exists (k, it'). split; [reflexivity|].
      now apply elem_of_map_to_list.
  - rewrite <- shown_item. apply list_elem_of_In, list_elem_of_fmap.
    exists (item i ti d). split; [reflexivity|].
    apply list_elem_of_fmap. exists (i, item i ti d). split; [reflexivity|].
    apply elem_of_map_to_list. subst t'. apply lookup_insert_eq.
  - now rewrite !length_fmap, length_map_to_list.
Qed.

Lemma create_then_list_witness :
  (plain "2" = true /\ nonempty "2" = true /\ plain "A" = true /\ plain "B" = true
   /\ carries (todo "2" "A" "B") "2" "A" "B"
   /\ forallb printable (snd <$> map_to_list one_todo) = true
   /\ size one_todo < 10
   /\ answer (handle None one_todo (create (todo "2" "A" "B"))) = Responded 200 created)
  /\ exists body elements,
       answer (handle None (table (handle None one_todo (create (todo "2" "A" "B"))))
                 list_todos)
       = Responded 200 body
       /\ Json.parse body = Some (JArr elements)
       /\ In (todo "2" "A" "B") elements
       /\ List.length elements <= S (size one_todo).
Proof.
  assert (Hsize : size one_todo < 10) by (vm_compute; lia).
  split; [repeat split; first [exact Hsize | reflexivity]|].
  apply (create_then_list one_todo (todo "2" "A" "B") "2" "A" "B");
    first [exact Hsize | reflexivity | repeat split; reflexivity].
Defined.

(** X15.  Whatever requests are served from the empty table, with
    whatever faults of the service, every item of the resulting table is
    stored under its own id attribute, and no item is stored under the
    empty id. *)
Theorem served_tables_keyed (rs : list (option nat * Request)) :
  keyed (serve ∅ rs) = true
  /\ forall k it, serve ∅ rs !! k = Some it -> k <> EmptyString /\ attr it "id" = k.
Proof.
  assert (Hk : keyed (serve ∅ rs) = true) by (apply serve_keyed; reflexivity).
  split; [exact Hk|]. intros k it Hl.
  pose proof (keyed_lookup _ k it Hk Hl) as Hkey.
  split; [|now apply key_of_attr].
  unfold DynamoDB.key_of in Hkey.
  cbn [dynamodb DynamoDB.partitionKey DynamoDB.type_tag] in Hkey.
  destruct (Json.path ["id"; "S"] it) as [[]|]; try discriminate Hkey.
  destruct (String.eqb s EmptyString) eqn:Hs; [discriminate Hkey|].
  injection Hkey as <-. now apply String.eqb_neq.
Qed.

(** X16.  A request is left without an integration response only by a
    fault of the service whose status is outside 200 to 299 and 400 to
    499: without a fault, every request that is routed and passes the
    validator is answered through an integration response. *)
Theorem unhandled_only_faults (fault : option nat) (t : gmap string json) (r : Request)
  (st : nat) :
  answer (handle fault t r) = Unhandled st ->
  fault = Some st /\ in_range 200 299 st = false /\ in_range 400 499 st = false.
Proof.
  unfold handle. destruct (route r) as [[m ps]|] eqn:Hr; [|discriminate].
  pose proof (five_methods r m ps Hr) as Hm.
  unfold invoke. destruct (rejects m (body r)); [discriminate|].
  unfold dispatch.
  destruct (DynamoDB.call dynamodb fault (action (integration m)) _ t)
    as [t' reply] eqn:Hcall.
  cbn [answer].
  destruct (respond_cases (integrationResponses (integration m)) ps reply)
    as [(code & text & -> & _)|[-> Hnone]]; [discriminate|].
  intros [= <-].
  assert (Hsel : selected m (DynamoDB.status reply) = None)
    by (unfold selected; now rewrite Hnone).
  assert (Hclass : in_range 200 299 (DynamoDB.status reply) = false
                   /\ in_range 400 499 (DynamoDB.status reply) = false).
  { destruct (status_class (DynamoDB.status reply)) as [H2 H4].
    unfold selected, select in Hsel. cbn in Hm.
    destruct Hm as [<-|[<-|[<-|[<-|[<-|[]]]]]];
      cbn [integrationResponses integration getAllTodos createTodo getSingleTodo
           updateSingleTodo deleteSingleTodo List.find selectionPattern] in Hsel;
      rewrite H2, H4 in Hsel;
      destruct (in_range 200 299 (DynamoDB.status reply)),
               (in_range 400 499 (DynamoDB.status reply));
      try discriminate Hsel; now split. }
  destruct fault as [code|].
  - unfold DynamoDB.call in Hcall. injection Hcall as _ <-. now split.
  - exfalso.
    pose proof (call_status t (action (integration m))
                  (fst (Vtl.run (requestTemplates (integration m))
                          (Vtl.initial (body r) ps)))) as Hst.
    cbv zeta in Hst. rewrite Hcall in Hst. cbn [snd] in Hst.
    destruct Hclass as [H2 H4].
    destruct Hst as [Hst|Hst]; rewrite Hst in H2, H4; discriminate.
Qed.

Lemma unhandled_only_faults_witness :
  answer (handle (Some 503) one_todo (get "1")) = Unhandled 503
  /\ Some 503 = Some 503
  /\ in_range 200 299 503 = false /\ in_range 400 499 503 = false.
Proof.
  split; [reflexivity|].
  apply (unhandled_only_faults (Some 503) one_todo (get "1") 503). reflexivity.
Defined.

(** X17.  Only a PUT is ever refused by the validator, and only when the
    model does not accept its body; the refusal is HTTP 400, nothing is
    sent to the table and the table is left as it was. *)
Theorem rejected_only_put (fault : option nat) (t : gmap string json) (r : Request)
  (st : nat) (text : string) :
  answer (handle fault t r) = Rejected st text ->
  httpMethod r = PUT
  /\ Schema.validate (schema todoModel) (body r) = false
  /\ handle fault t r
     = {| table := t; answer := Rejected 400 invalid_request_body; calls := [] |}.
Proof.
  unfold handle. destruct (route r) as [[m ps]|] eqn:Hr; [|discriminate].
  unfold invoke. destruct (rejects m (body r)) eqn:Hrej.
  - intros _. split; [|split; [|reflexivity]].
    + apply route_inv in Hr as [(_ & _ & Hm)|(id & _ & _ & _ & Hm)].
      * destruct Hm as [[_ ->]|[Hput _]]; [discriminate Hrej|exact Hput].
      * destruct Hm as [[_ ->]|[[Hput _]|[_ ->]]];
          [discriminate Hrej|exact Hput|discriminate Hrej].
    + apply route_inv in Hr as [(_ & _ & Hm)|(id & _ & _ & _ & Hm)].
      * destruct Hm as [[_ ->]|[_ ->]]; [discriminate Hrej|].
        unfold rejects in Hrej.
        cbn [requestValidator requestModels createTodo validateRequestBody
             requestBodyValidator andb] in Hrej.
        now apply negb_true_iff in Hrej.
      * destruct Hm as [[_ ->]|[[_ ->]|[_ ->]]];
          [discriminate Hrej| |discriminate Hrej].
        unfold rejects in Hrej.
        cbn [requestValidator requestModels updateSingleTodo validateRequestBody
             requestBodyValidator andb] in Hrej.
        now apply negb_true_iff in Hrej.
  - unfold dispatch. destruct (DynamoDB.call _ _ _ _ _) as [t' reply]. cbn [answer].
    destruct (respond_cases (integrationResponses (integration m)) ps reply)
      as [(code & body & -> & _)|[-> _]]; discriminate.
Qed.

Lemma rejected_only_put_witness :
  answer (handle None one_todo (create (JObj [("id", JStr "3")])))
  = Rejected 400 invalid_request_body
  /\ httpMethod (create (JObj [("id", JStr "3")])) = PUT
  /\ Schema.validate (schema todoModel) (body (create (JObj [("id", JStr "3")]))) = false
  /\ handle None one_todo (create (JObj [("id", JStr "3")]))
     = {| table := one_todo; answer := Rejected 400 invalid_request_body; calls := [] |}.
Proof.
  split; [reflexivity|].
  apply (rejected_only_put None one_todo (create (JObj [("id", JStr "3")])) 400
           invalid_request_body).
  reflexivity.
Defined.

(** X18.  Every status that a method answers with through an integration
    response, the status that the single-item template overrides
    included, is one of the method responses declared for the method, and
    so is the status code of each of its integration responses. *)
Theorem answers_are_declared (fault : option nat) (t : gmap string json) (r : Request)
  (m : Method) (ps : list (string * string)) (code : nat) (text : string) :
  route r = Some (m, ps) ->
  answer (handle fault t r) = Responded code text ->
  In code (methodResponses m)
  /\ forall ir, In ir (integrationResponses (integration m)) ->
       In (statusCode ir) (methodResponses m).
Proof.
  intros Hr Ha. apply handle_status in Ha.
  apply five_methods in Hr. cbn in Hr.
  destruct Hr as [<-|[<-|[<-|[<-|[<-|[]]]]]]; (split; [cbn; lia|]);
    intros ir [<-|[<-|[]]]; cbn; tauto.
Qed.

Lemma answers_are_declared_witness :
  (route (get "2") = Some (getSingleTodo, [("todoId", "2")])
   /\ answer (handle None one_todo (get "2")) = Responded 400 load_failed)
  /\ In 400 (methodResponses getSingleTodo)
  /\ forall ir, In ir (integrationResponses (integration getSingleTodo)) ->
       In (statusCode ir) (methodResponses getSingleTodo).
Proof.
  split; [split; reflexivity|].
  apply (answers_are_declared None one_todo (get "2") getSingleTodo [("todoId", "2")]
           400 load_failed); reflexivity.
Defined.

Section Fixed.

(** Two integration responses with constant templates answer with one of
    the two texts. *)
Lemma fixed_respond a b ps reply code body :
  respond [ {| statusCode := 200; selectionPattern := "2\d{2}";
               responseTemplates := [Vtl.Text a] |};
            {| statusCode := 400; selectionPattern := "4\d{2}";
               responseTemplates := [Vtl.Text b] |} ] ps reply
  = Responded code body ->
  In (code, body) [(200, a); (400, b)].
Proof.
  unfold respond, select. cbn [List.find selectionPattern].
  destruct (Pattern.matches "2\d{2}" _).
  - cbn [responseTemplates statusCode]. rewrite constant_template, append_empty.
    intros [= <- <-]. now left.
  - destruct (Pattern.matches "4\d{2}" _); [|discriminate].
    cbn [responseTemplates statusCode]. rewrite constant_template, append_empty.
    intros [= <- <-]. right. now left.
Qed.

(** The single-item template overrides the status only together with the
    loading error. *)
Lemma single_template_error input params :
  let out := Vtl.run
               [ Vtl.SetVar "todo" (Vtl.InputPath ["Item"]);
                 Vtl.If (Vtl.Eq (Vtl.Ref "todo" []) (Vtl.Lit EmptyString))
                   [ Vtl.SetStatus 400; Vtl.Text load_failed ]
                   todoObject ]
               (Vtl.initial input params) in
  Vtl.responseOverride (snd out) = None
  \/ (Vtl.responseOverride (snd out) = Some 400 /\ fst out = load_failed).
Proof.
  cbv zeta. unfold Vtl.run. rewrite sequence_cons.
  simpl (Vtl.run1 (Vtl.SetVar _ _) _). cbv beta iota.
  rewrite sequence_cons. simpl (Vtl.run1 (Vtl.If _ _ _) _).
  match goal with |- context [if ?b then _ else _] => destruct b end;
    [right|left]; [|reflexivity].
  split; [reflexivity|].
  transitivity (load_failed ++ EmptyString)%string; [reflexivity|apply append_empty].
Qed.

(** A GET answered with HTTP 400 is answered with the loading error. *)
Lemma loading_error m ps reply body :
  m = getAllTodos \/ m = getSingleTodo ->
  respond (integrationResponses (integration m)) ps reply = Responded 400 body ->
  body = load_failed.
Proof.
  intros Hm. unfold respond, select.
  destruct Hm as [-> | ->];
    cbn [integrationResponses integration getAllTodos getSingleTodo List.find
         selectionPattern];
    (destruct (Pattern.matches "2\d{2}" _);
     [|destruct (Pattern.matches "4\d{2}" _); [|discriminate];
       cbn [responseTemplates statusCode];
       rewrite constant_template, append_empty; now intros [= <-]]);
    cbn [responseTemplates statusCode].
  - pose proof (list_template_status (DynamoDB.payload reply) ps) as Hover.
    change (todoObject ++ [Vtl.If Vtl.ForeachHasNext [Vtl.Text ","] []; Vtl.Text " "])%list
      with todoRow.
    destruct (Vtl.run _ _) as [text c]. cbn [snd] in Hover. rewrite Hover.
    discriminate.
  - pose proof (single_template_error (DynamoDB.payload reply) ps) as Hcases.
    cbv zeta in Hcases.
    change (Vtl.q "{ 'error': 'There was an error loading the To-Do objects.' }")
      with load_failed.
    destruct (Vtl.run _ _) as [text c]. cbn [fst snd] in Hcases.
    destruct Hcases as [-> | [-> ->]]; [discriminate|]. now intros [= <-].
Qed.

End Fixed.

Section Refinement.

Import Dictionary.

Lemma stands_for_id t s i :
  stands_for t s -> DynamoDB.has_attribute "id" (t !! i) = is_Some_bool (s !! i).
Proof.
  intros H. rewrite (H i). now destruct (s !! i) as [[ti d]|].
Qed.

Lemma stands_for_insert t s i ti d :
  stands_for t s -> stands_for (<[i := item i ti d]> t) (<[i := (ti, d)]> s).
Proof.
  intros H k. destruct (decide (i = k)) as [->|Hne].
  - now rewrite !lookup_insert_eq.
  - rewrite !lookup_insert_ne by exact Hne. apply H.
Qed.

Lemma stands_for_delete t s i :
  stands_for t s -> stands_for (delete i t) (delete i s).
Proof.
  intros H k. destruct (decide (i = k)) as [->|Hne].
  - now rewrite !lookup_delete_eq.
  - rewrite !lookup_delete_ne by exact Hne. apply H.
Qed.

(** One operation: the API answers as the dictionary does, and its table
    still stands for the dictionary. *)
Lemma refines_step t s o :
  well_formed o = true -> stands_for t s ->
  answer (handle None t (request_of o)) = snd (apply s o)
  /\ stands_for (table (handle None t (request_of o))) (fst (apply s o)).
Proof.
  intros Hwf H. pose proof (stands_for_id t s) as Hid.
  destruct o as [i ti d|i ti d|i|i]; cbn [well_formed] in Hwf;
    repeat match type of Hwf with
           | _ && _ = true => apply andb_prop in Hwf as [Hwf ?]
           end;
    cbn [request_of apply].
  - rewrite (create_result t (todo i ti d) i ti d)
      by (assumption || (repeat split; reflexivity)).
    rewrite (Hid i H).
    destruct (s !! i) as [e|]; cbn [is_Some_bool fst snd table answer];
      split; try reflexivity; [exact H | now apply stands_for_insert].
  - rewrite (update_result t (todo i ti d) i i ti d)
      by (assumption || (repeat split; reflexivity)).
    rewrite (Hid i H).
    destruct (s !! i) as [e|]; cbn [is_Some_bool fst snd table answer];
      split; try reflexivity; [now apply stands_for_insert | exact H].
  - rewrite (remove_result t i) by assumption.
    rewrite (Hid i H).
    destruct (s !! i) as [e|]; cbn [is_Some_bool fst snd table answer];
      split; try reflexivity; [now apply stands_for_delete | exact H].
  - rewrite (get_result t i) by assumption. rewrite (H i).
    destruct (s !! i) as [[ti d]|]; cbn [fmap option_fmap option_map fst snd table answer];
      (split; [|exact H]); [|reflexivity].
    unfold stored. cbn [fst snd]. apply get_found.
Qed.

Lemma refines_all os : forall t s,
  forallb well_formed os = true -> stands_for t s ->
  snd (handle_all t os) = snd (apply_all s os)
  /\ stands_for (fst (handle_all t os)) (fst (apply_all s os)).
Proof.
  induction os as [|o os IH]; intros t s Hwf H; [split; [reflexivity|exact H]|].
  cbn [forallb] in Hwf. apply andb_prop in Hwf as [Ho Hos].
  destruct (refines_step t s o Ho H) as [Ha Ht].
  cbn [handle_all apply_all]. cbv zeta.
  destruct (apply s o) as [s1 a] eqn:Hs. cbn [fst snd] in Ha, Ht.
  specialize (IH (table (handle None t (request_of o))) s1 Hos Ht).
  destruct (handle_all (table (handle None t (request_of o))) os) as [t2 more].
  destruct (apply_all s1 os) as [s2 more'].
  cbn [fst snd] in IH |- *. destruct IH as [-> Hfin]. rewrite Ha. now split.
Qed.

End Refinement.

(** X19.  Served from the empty table, any sequence of creates, updates,
    deletes and GETs of single to-dos, with values free of double quotes,
    backslashes and control characters, is answered exactly as a
    dictionary from ids to titles and descriptions answers it, and the
    table at the end holds, under each id, the item of the entry that the
    dictionary has for it, and nothing else. *)
Theorem api_is_a_dictionary (os : list Dictionary.operation) :
  forallb Dictionary.well_formed os = true ->
  snd (Dictionary.handle_all ∅ os) = snd (Dictionary.apply_all ∅ os)
  /\ forall k, fst (Dictionary.handle_all ∅ os) !! k
               = Dictionary.stored k <$> (fst (Dictionary.apply_all ∅ os) !! k).
Proof.
  intros Hwf. apply refines_all; [exact Hwf|].
  intros k. now rewrite !lookup_empty.
Qed.

Lemma api_is_a_dictionary_witness :
  forallb Dictionary.well_formed Dictionary.sample = true
  /\ snd (Dictionary.handle_all ∅ Dictionary.sample)
     = snd (Dictionary.apply_all ∅ Dictionary.sample)
  /\ forall k, fst (Dictionary.handle_all ∅ Dictionary.sample) !! k
               = Dictionary.stored k <$> (fst (Dictionary.apply_all ∅ Dictionary.sample) !! k).
Proof.
  split; [reflexivity|].
  apply (api_is_a_dictionary Dictionary.sample). reflexivity.
Defined.

(** X20.  The answers to PUT and DELETE are fixed texts: whatever the
    request, the table and the fault, an answer given through an
    integration response is, for a PUT of [/v1/todo], HTTP 200 with the
    creation message or HTTP 400 with the creation error; for a PUT of
    [/v1/todo/{todoId}], HTTP 200 with the update message or HTTP 400 with
    the update error; for a DELETE, HTTP 200 with the deletion message or
    HTTP 400 with the deletion error; and a GET answered with HTTP 400
    carries the loading error.  Nothing of the request or of the reply of
    the table is in these answers. *)
Theorem answers_are_fixed (fault : option nat) (t : gmap string json) (r : Request)
  (code : nat) (body : string) :
  answer (handle fault t r) = Responded code body ->
  (httpMethod r = GET /\ (code = 400 -> body = load_failed))
  \/ (httpMethod r = PUT /\ resource r = ["v1"; "todo"]
      /\ In (code, body) [(200, created); (400, create_failed)])
  \/ (httpMethod r = PUT /\ (exists id, resource r = ["v1"; "todo"; id])
      /\ In (code, body) [(200, updated); (400, update_failed)])
  \/ (httpMethod r = DELETE /\ (exists id, resource r = ["v1"; "todo"; id])
      /\ In (code, body) [(200, deleted); (400, delete_failed)]).
Proof.
  unfold handle. destruct (route r) as [[m ps]|] eqn:Hr; [|discriminate].
  unfold invoke. destruct (rejects m _); [discriminate|].
  unfold dispatch. destruct (DynamoDB.call _ _ _ _ _) as [t' reply]. cbn [answer].
  apply route_inv in Hr as [(Hres & _ & Hm)|(id & _ & Hres & _ & Hm)].
  - destruct Hm as [[Hget ->]|[Hput ->]]; intros Ha.
    + left. split; [exact Hget|]. intros ->.
      apply (loading_error getAllTodos ps reply); [now left|exact Ha].
    + right. left. split; [exact Hput|]. split; [exact Hres|].
      now apply (fixed_respond _ _ ps reply).
  - destruct Hm as [[Hget ->]|[[Hput ->]|[Hdel ->]]]; intros Ha.
    + left. split; [exact Hget|]. intros ->.
      apply (loading_error getSingleTodo ps reply); [now right|exact Ha].
    + right. right. left. split; [exact Hput|]. split; [now exists id|].
      now apply (fixed_respond _ _ ps reply).
    + right. right. right. split; [exact Hdel|]. split; [now exists id|].
      now apply (fixed_respond _ _ ps reply).
Qed.

Lemma answers_are_fixed_witness :
  answer (handle None ∅ (create (todo quote "A" "B"))) = Responded 400 create_failed
  /\ ((httpMethod (create (todo quote "A" "B")) = GET
       /\ (400 = 400 -> create_failed = load_failed))
      \/ (httpMethod (create (todo quote "A" "B")) = PUT
          /\ resource (create (todo quote "A" "B")) = ["v1"; "todo"]
          /\ In (400, create_failed) [(200, created); (400, create_failed)])
      \/ (httpMethod (create (todo quote "A" "B")) = PUT
          /\ (exists id, resource (create (todo quote "A" "B")) = ["v1"; "todo"; id])
          /\ In (400, create_failed) [(200, updated); (400, update_failed)])
      \/ (httpMethod (create (todo quote "A" "B")) = DELETE
          /\ (exists id, resource (create (todo quote "A" "B")) = ["v1"; "todo"; id])
          /\ In (400, create_failed) [(200, deleted); (400, delete_failed)])).
Proof.
  split; [reflexivity|].
  apply (answers_are_fixed None ∅ (create (todo quote "A" "B")) 400 create_failed).
  reflexivity.
Defined.
